(** * MultiAgentDocCreator: the agent orchestration loop, the retry adapter,
      message conversion and source extraction

    A shallow embedding of
      - [backend/agents/research_agent.py]  (module [Agent]),
      - [backend-qwen/llm/oai.py], the retry loop of [_chat_stream]
        (module [Retry]),
      - [backend-qwen/api/research.py], the message converters and
        [extract_sources_from_tool_output] (module [Api]),
    followed by the properties of these definitions. *)

From Stdlib Require Import List NArith ZArith QArith String Ascii Bool Lia Lqa.
From Stdlib Require Import DecimalString DecimalNat.
Import ListNotations.
Close Scope Q_scope.

Set Implicit Arguments.
Set Warnings "-register-all".

(* ================================================================== *)
(** * Python values used by the embedded code *)
(* ================================================================== *)

(** ** [str]: a sequence of Unicode code points *)
Module PyStr.

Definition pystr := list N.

(** A literal of the source, read as its code points (the literals of the
    embedded code are ASCII). *)
Definition py (lit : string) : pystr :=
  map N_of_ascii (list_ascii_of_string lit).

(** The line feed of the source's escapes [\n]. *)
Definition nl : pystr := [10%N].

(** The double quote, which the literals above cannot spell. *)
Definition dq : pystr := [34%N].

Definition len (s : pystr) : Z := Z.of_nat (List.length s).

Fixpoint eqb (a b : pystr) : bool :=
  match a, b with
  | [], [] => true
  | x :: a', y :: b' => N.eqb x y && eqb a' b'
  | _, _ => false
  end.

(** [s.startswith(sub)] *)
Fixpoint startswith (s sub : pystr) {struct sub} : bool :=
  match sub, s with
  | [], _ => true
  | _ :: _, [] => false
  | x :: sub', c :: s' => N.eqb x c && startswith s' sub'
  end.

(** [s.find(sub)]: the lowest index at which [sub] starts, [-1] when there
    is none. [find_from] carries the index of the head of its argument. *)
Fixpoint find_from (i : Z) (s sub : pystr) : Z :=
  if startswith s sub then i
  else match s with
       | [] => (-1)%Z
       | _ :: s' => find_from (i + 1) s' sub
       end.

Definition find (s sub : pystr) : Z := find_from 0 s sub.

(** [sub in s] *)
Fixpoint contains (sub s : pystr) : bool :=
  startswith s sub ||
  match s with
  | [] => false
  | _ :: s' => contains sub s'
  end.

(** [s[start:stop]], with Python's treatment of negative and of
    out-of-range bounds. *)
Definition clamp (n : Z) (i : Z) : Z :=
  if (i <? 0)%Z then Z.max 0 (i + n) else Z.min i n.

Definition slice (s : pystr) (start stop : Z) : pystr :=
  let a := clamp (len s) start in
  let b := clamp (len s) stop in
  firstn (Z.to_nat (b - a)) (skipn (Z.to_nat a) s).

(** [str.isspace] on one code point: the characters [str.strip()] removes and
    the class [\s] of a [str] pattern matches. *)
Definition isspace (c : N) : bool :=
  ((9 <=? c) && (c <=? 13) || (28 <=? c) && (c <=? 32)
   || (c =? 133) || (c =? 160) || (c =? 5760)
   || (8192 <=? c) && (c <=? 8202)
   || (c =? 8232) || (c =? 8233) || (c =? 8239) || (c =? 8287)
   || (c =? 12288))%N.

Fixpoint lstrip (s : pystr) : pystr :=
  match s with
  | c :: s' => if isspace c then lstrip s' else s
  | [] => []
  end.

Definition rstrip (s : pystr) : pystr := rev (lstrip (rev s)).

(** [s.strip()] *)
Definition strip (s : pystr) : pystr := rstrip (lstrip s).



(** Truth value of a [str]: non-empty. *)
Definition nonempty (s : pystr) : bool :=
  match s with [] => false | _ :: _ => true end.

End PyStr.
Import PyStr.

(** ** Values that [json.loads] builds, and exceptions *)
Module Py.

(** A [float] read from a decimal literal: the binary64 number nearest to
    [mantissa * 10 ^ exponent], or one of the special values. Only its truth
    value is ever observed by the embedded code. *)
Inductive PyFloat : Type :=
| FDec (mantissa exponent : Z)
| FInf (negative : bool)
| FNaN.

Inductive PyValue : Type :=
| VNone
| VBool (b : bool)
| VInt (z : Z)
| VFloat (f : PyFloat)
| VStr (s : pystr)
| VList (items : list PyValue)
| VDict (entries : list (pystr * PyValue)).

(** [float.__bool__]: the nearest binary64 number is not zero. A decimal
    rounds to zero exactly when its magnitude is at most [2 ^ -1075], half of
    the least subnormal. *)
Definition float_truthy (f : PyFloat) : bool :=
  match f with
  | FDec m e =>
      if (0 <=? e)%Z then negb (m =? 0)%Z
      else negb (Z.abs m * 2 ^ 1075 <=? 10 ^ (- e))%Z
  | FInf _ => true
  | FNaN => true
  end.

(** Truth value of an object, as [if x], [x or y] and [x and y] test it. *)
Definition truthy (v : PyValue) : bool :=
  match v with
  | VNone => false
  | VBool b => b
  | VInt z => negb (z =? 0)%Z
  | VFloat f => float_truthy f
  | VStr s => nonempty s
  | VList l => match l with [] => false | _ => true end
  | VDict d => match d with [] => false | _ => true end
  end.

(** [x or y] *)
Definition py_or (x y : PyValue) : PyValue := if truthy x then x else y.

(** [d.get(key)] on a [dict] kept as its list of entries. *)
Fixpoint dict_get (d : list (pystr * PyValue)) (key : pystr) : PyValue :=
  match d with
  | [] => VNone
  | (k, v) :: d' => if PyStr.eqb k key then v else dict_get d' key
  end.

(** Exceptions: the class decides which [except] clause takes it, the text is
    what [str(e)] gives. *)
Inductive ExnClass : Type :=
| JSONDecodeError
| TypeError
| KeyError
| GraphRecursionError
| OtherException.

Record Exn : Type := { exn_class : ExnClass; exn_str : pystr }.

Inductive PyResult (A : Type) : Type :=
| Return (a : A)
| Raise (e : Exn).
Arguments Return {A} a.
Arguments Raise {A} e.

Definition bind {A B : Type} (m : PyResult A) (k : A -> PyResult B)
  : PyResult B :=
  match m with
  | Return a => k a
  | Raise e => Raise e
  end.

(** [try: body  except cls: handler] *)
Definition try_except {A : Type} (body : PyResult A)
    (catches : ExnClass -> bool) (handler : Exn -> PyResult A) : PyResult A :=
  match body with
  | Return a => Return a
  | Raise e => if catches (exn_class e) then handler e else Raise e
  end.

End Py.
Import Py.

Notation "x <- m ;; k" := (bind m (fun x => k))
  (at level 61, m at next level, right associativity).

(* ================================================================== *)
(** * The orchestration state machine: [backend/agents/research_agent.py] *)
(* ================================================================== *)
Module Agent.

(** The message classes of [langchain_core.messages] that the code tells apart
    with [isinstance]. *)
Inductive MessageClass : Type :=
| SystemMessage
| HumanMessage
| AIMessage
| OtherMessage.

(** One entry of [AIMessage.tool_calls], a dict: the values under its keys
    ['name'], ['arguments'] and ['id'], [None] for a key the dict lacks. The
    dispatcher indexes the first two and reads the third with [.get]. *)
Record ToolCall : Type := {
  tc_name : option pystr;
  tc_arguments : option PyValue;
  tc_id : option pystr
}.

(** [d[key]]: a [KeyError], whose text is the [repr] of the key, when the
    dict lacks the key. *)
Definition getitem {A : Type} (field : option A) (key : pystr)
  : PyResult A :=
  match field with
  | Some v => Return v
  | None => Raise {| exn_class := KeyError;
                     exn_str := py "'" ++ key ++ py "'" |}
  end.

Record BaseMessage : Type := {
  msg_class : MessageClass;
  content : pystr;
  tool_calls : list ToolCall;
  tool_call_id : option pystr
}.

Definition mk_message (c : MessageClass) (text : pystr) : BaseMessage :=
  {| msg_class := c; content := text; tool_calls := []; tool_call_id := None |}.

Definition is_system (m : BaseMessage) : bool :=
  match msg_class m with SystemMessage => true | _ => false end.

Definition is_ai (m : BaseMessage) : bool :=
  match msg_class m with AIMessage => true | _ => false end.

(** [class ResearchState(TypedDict)] *)
Record ResearchState : Type := {
  messages : list BaseMessage;
  current_task : pystr;
  tools_used : list pystr;
  iteration_count : Z;
  max_iterations : Z;
  final_answer : option pystr;
  is_complete : bool;
  session_id : option pystr
}.

(** [tools/base.py]: [class ToolResult(BaseModel)] *)
Record ToolResult : Type := {
  success : bool;
  tr_content : pystr;
  metadata : option PyValue;
  error : option pystr
}.

(** [tools/base.py]: [class BaseTool]; [execute] either returns a
    [ToolResult] or raises. *)
Record BaseTool : Type := {
  name : pystr;
  execute : PyValue -> PyResult ToolResult
}.

(** How an f-string renders an [Optional[str]]. *)
Definition fmt_opt (o : option pystr) : pystr :=
  match o with
  | Some s => s
  | None => py "None"
  end.

(** [messages[-1] if messages else None] *)
Definition last_message (ms : list BaseMessage) : option BaseMessage :=
  List.last (map Some ms) None.

(** The client behind [self.llm]: [agents/factory.py] takes it from
    [llm/openai_client.py] or, with the prompt the client was built with,
    from [llm/ollama_client.py]. *)
Inductive Client : Type :=
| OpenAI
| Ollama (client_prompt : pystr).

(** The names of the graph's nodes and of its terminal [END]. *)
Inductive Node : Type :=
| NodeInitialize      (* "researcher_initialize" *)
| NodeReason          (* "researcher_reason" *)
| NodeToolExecutor    (* "tool_executor_execute" *)
| END.

(** The strings [workflow_controller_decide_next] returns. *)
Inductive Route : Type :=
| RouteEnd            (* "end" *)
| RouteToolExecutor   (* "tool_executor_execute" *)
| RouteReason.        (* "researcher_reason" *)

(** The dict that [research] returns. Keys that a branch leaves out are
    [None]. *)
Record ResearchResult : Type := {
  r_success : bool;
  r_final_answer : option pystr;
  r_error : option pystr;
  r_messages : list BaseMessage;
  r_tools_used : list pystr;
  r_iterations : Z;
  r_is_complete : bool;
  r_session_id : option pystr
}.

Definition OPEN_TAG : pystr := py "<answer>".
Definition CLOSE_TAG : pystr := py "</answer>".

Definition thinking_prompt : pystr :=
  nl ++ nl ++ py "<think>" ++ nl
  ++ py "Let me analyze what I know so far and determine the best next step for this research task."
  ++ nl ++ nl.

Definition iteration_limit_notice : pystr :=
  py "Research completed due to iteration limit. Please review the gathered information.".

Section ResearchAgent.

(** What [ResearchAgent.__init__] stores, and the collaborators it calls. *)
Variable max_llm_calls : Z.
Variable reasoning : bool.
Variable client : Client.
(** [datetime.now().strftime("%Y-%m-%d")] during the model call that is made
    at the given iteration count. *)
Variable current_date : Z -> pystr.
(** [self.llm_with_tools.invoke]: returns the response message or raises.
    Within one session the log it is given grows with every answered call, so
    a function of the log also covers a model that answers differently each
    time. *)
Variable llm_with_tools_invoke : list BaseMessage -> PyResult BaseMessage.
(** [prompts.get_system_prompt()] *)
Variable system_prompt : pystr.
(** [tools.get_available_tools()] *)
Variable get_available_tools : list BaseTool.

(** [tools/__init__.py]: [get_tool_by_name] *)
Fixpoint find_tool (tools : list BaseTool) (n : pystr) : option BaseTool :=
  match tools with
  | [] => None
  | tool :: rest => if PyStr.eqb (name tool) n then Some tool
                    else find_tool rest n
  end.

Definition get_tool_by_name (n : pystr) : option BaseTool :=
  find_tool get_available_tools n.

Definition researcher_initialize (state : ResearchState) : ResearchState :=
  let messages0 := messages state in
  let messages1 :=
    if negb (existsb is_system messages0)
    then mk_message SystemMessage system_prompt :: messages0
    else messages0 in
  {| messages := messages1;
     current_task := current_task state;
     tools_used := [];
     iteration_count := 0;
     max_iterations := max_llm_calls;
     final_answer := final_answer state;
     is_complete := false;
     session_id := session_id state |}.

(** The log the model is called with: in reasoning mode the thinking prompt
    is added to it for the call only. *)
Definition current_messages (messages0 : list BaseMessage)
  : list BaseMessage :=
  if reasoning
  then messages0 ++ [mk_message HumanMessage thinking_prompt]
  else messages0.

(** [llm/ollama_client.py], [invoke]: the content it gives the first message
    of its input when that is a system message, and the message it puts in
    front of the input otherwise. *)
Definition system_content (client_prompt date : pystr) : pystr :=
  client_prompt ++ nl ++ nl ++ py "Current date: " ++ date.

Definition enhanced (client_prompt date : pystr) (first : BaseMessage)
  : BaseMessage :=
  {| msg_class := msg_class first;
     content := system_content client_prompt date ++ nl ++ nl ++ content first;
     tool_calls := tool_calls first;
     tool_call_id := tool_call_id first |}.

(** The list [messages] of the state as the model call leaves it. The OpenAI
    client builds dicts from the messages and leaves them alone. The Ollama
    client changes its input in place before it asks the model: when the
    first message is a system message it rewrites that message's content,
    and the message object is the one in [messages]; otherwise it inserts a
    system message, into [messages] itself when the call was made with that
    list, and into the longer list built for the call in reasoning mode.
    Among the message classes of [langchain_core] its test
    ['SystemMessage' in str(input[0].__class__)] holds for the system
    messages only. *)
Definition messages_after_invoke (date : pystr)
    (messages0 : list BaseMessage) : list BaseMessage :=
  match client with
  | OpenAI => messages0
  | Ollama client_prompt =>
      match messages0 with
      | [] => []
      | first :: rest =>
          if is_system first then enhanced client_prompt date first :: rest
          else if reasoning then messages0
          else mk_message SystemMessage (system_content client_prompt date)
               :: messages0
      end
  end.

(** The final answer read from a response that holds both tags. *)
Definition extract_final_answer (content : pystr) : pystr :=
  let start := (find content OPEN_TAG + len OPEN_TAG)%Z in
  let end_ := find content CLOSE_TAG in
  if (end_ >? start)%Z then strip (slice content start end_) else content.

Definition researcher_reason (state : ResearchState) : ResearchState :=
  let messages0 := messages state in
  let iteration_count0 := iteration_count state in
  if (iteration_count0 >=? max_llm_calls)%Z then
    {| messages := messages state;
       current_task := current_task state;
       tools_used := tools_used state;
       iteration_count := iteration_count state;
       max_iterations := max_iterations state;
       final_answer := Some iteration_limit_notice;
       is_complete := true;
       session_id := session_id state |}
  else
    match llm_with_tools_invoke (current_messages messages0) with
    | Return response =>
        let new_messages :=
          messages_after_invoke (current_date iteration_count0) messages0
          ++ [response] in
        let content0 := content response in
        if contains OPEN_TAG content0 && contains CLOSE_TAG content0 then
          {| messages := new_messages;
             current_task := current_task state;
             tools_used := tools_used state;
             iteration_count := (iteration_count0 + 1)%Z;
             max_iterations := max_iterations state;
             final_answer := Some (extract_final_answer content0);
             is_complete := true;
             session_id := session_id state |}
        else
          {| messages := new_messages;
             current_task := current_task state;
             tools_used := tools_used state;
             iteration_count := (iteration_count0 + 1)%Z;
             max_iterations := max_iterations state;
             final_answer := final_answer state;
             is_complete := is_complete state;
             session_id := session_id state |}
    | Raise e =>
        {| messages :=
             messages_after_invoke (current_date iteration_count0) messages0;
           current_task := current_task state;
           tools_used := tools_used state;
           iteration_count := iteration_count state;
           max_iterations := max_iterations state;
           final_answer :=
             Some (py "Research failed due to error: " ++ exn_str e);
           is_complete := true;
           session_id := session_id state |}
    end.

(** One round of the [for tool_call in tool_calls] loop: the message the
    call leaves in the log, and the name it adds to [tools_used] (none unless
    [execute] returned). The two keys are indexed before the [try], so a
    call that lacks one of them raises out of the loop. *)
Definition run_tool_call (tool_call : ToolCall)
  : PyResult (BaseMessage * list pystr) :=
  tool_name <- getitem (tc_name tool_call) (py "name") ;;
  tool_args <- getitem (tc_arguments tool_call) (py "arguments") ;;
  let reply (text : pystr) :=
    {| msg_class := AIMessage; content := text; tool_calls := [];
       tool_call_id := tc_id tool_call |} in
  match get_tool_by_name tool_name with
  | None =>
      Return (reply (py "Tool '" ++ tool_name ++ py "' not found"), [])
  | Some tool =>
      match execute tool tool_args with
      | Return result =>
          Return (reply (if success result then tr_content result
                         else py "Tool error: " ++ fmt_opt (error result)),
                  [tool_name])
      | Raise e =>
          Return (reply (py "Tool execution failed: " ++ exn_str e), [])
      end
  end.

(** The [for tool_call in tool_calls] loop, on the pair
    [(new_messages, tools_used)] it appends to. *)
Fixpoint run_tool_calls (calls : list ToolCall)
    (acc : list BaseMessage * list pystr)
  : PyResult (list BaseMessage * list pystr) :=
  match calls with
  | [] => Return acc
  | tool_call :: rest =>
      r <- run_tool_call tool_call ;;
      run_tool_calls rest (fst acc ++ [fst r], snd acc ++ snd r)
  end.

Definition tool_executor_execute (state : ResearchState)
  : PyResult ResearchState :=
  match last_message (messages state) with
  | None => Return state
  | Some last =>
      if negb (is_ai last) then Return state
      else
        match tool_calls last with
        | [] => Return state
        | calls =>
            r <- run_tool_calls calls (messages state, tools_used state) ;;
            Return {| messages := fst r;
                      current_task := current_task state;
                      tools_used := snd r;
                      iteration_count := iteration_count state;
                      max_iterations := max_iterations state;
                      final_answer := final_answer state;
                      is_complete := is_complete state;
                      session_id := session_id state |}
        end
  end.

Definition workflow_controller_decide_next (state : ResearchState) : Route :=
  if is_complete state then RouteEnd
  else
    match last_message (messages state) with
    | Some last =>
        if is_ai last && match tool_calls last with [] => false | _ => true end
        then RouteToolExecutor
        else RouteReason
    | None => RouteReason
    end.

(** The conditional edges out of "researcher_reason". *)
Definition route_target (r : Route) : Node :=
  match r with
  | RouteEnd => END
  | RouteToolExecutor => NodeToolExecutor
  | RouteReason => NodeReason
  end.

(** One step of the compiled graph: run the node, follow its outgoing edge.
    [END] has no step; a node that raises ends the run with its exception. *)
Definition graph_step (cfg : Node * ResearchState)
  : option (PyResult (Node * ResearchState)) :=
  let '(node, state) := cfg in
  match node with
  | NodeInitialize => Some (Return (NodeReason, researcher_initialize state))
  | NodeReason =>
      let state1 := researcher_reason state in
      Some (Return (route_target (workflow_controller_decide_next state1),
                    state1))
  | NodeToolExecutor =>
      Some (state1 <- tool_executor_execute state ;;
            Return (NodeReason, state1))
  | END => None
  end.

(** The configuration after [k] steps, when the run lasts that long. *)
Fixpoint steps (k : nat) (cfg : Node * ResearchState)
  : option (Node * ResearchState) :=
  match k with
  | O => Some cfg
  | S k' =>
      match graph_step cfg with
      | Some (Return cfg') => steps k' cfg'
      | Some (Raise _) => None
      | None => None
      end
  end.

(** [self.graph.ainvoke]: run from a configuration until [END]; the graph
    library gives up with an exception after [recursion_limit] steps. *)
Variable recursion_limit : nat.

Fixpoint run (fuel : nat) (cfg : Node * ResearchState)
  : PyResult ResearchState :=
  match graph_step cfg with
  | None => Return (snd cfg)
  | Some next =>
      match fuel with
      | O => Raise {| exn_class := GraphRecursionError;
                      exn_str := py "Recursion limit reached" |}
      | S fuel' => cfg' <- next ;; run fuel' cfg'
      end
  end.

Definition ainvoke (initial_state : ResearchState) : PyResult ResearchState :=
  run recursion_limit (NodeInitialize, initial_state).

(** The state [research] starts the graph from. *)
Definition initial_messages (query custom_instructions : pystr)
  : list BaseMessage :=
  [mk_message HumanMessage
     (strip (query ++ nl ++ nl ++ custom_instructions))].

Definition initial_state (query custom_instructions : pystr)
    (sid : option pystr) : ResearchState :=
  {| messages := initial_messages query custom_instructions;
     current_task := query;
     tools_used := [];
     iteration_count := 0;
     max_iterations := max_llm_calls;
     final_answer := None;
     is_complete := false;
     session_id := sid |}.

Definition research (query custom_instructions : pystr)
    (sid : option pystr) : ResearchResult :=
  match ainvoke (initial_state query custom_instructions sid) with
  | Return final_state =>
      {| r_success := true;
         r_final_answer := final_answer final_state;
         r_error := None;
         r_messages := messages final_state;
         r_tools_used := tools_used final_state;
         r_iterations := iteration_count final_state;
         r_is_complete := is_complete final_state;
         r_session_id := sid |}
  | Raise e =>
      {| r_success := false;
         r_final_answer := None;
         r_error := Some (exn_str e);
         r_messages := initial_messages query custom_instructions;
         r_tools_used := [];
         r_iterations := 0;
         r_is_complete := false;
         r_session_id := sid |}
  end.

End ResearchAgent.

End Agent.

(* ================================================================== *)
(** * The retry loop of the model adapter: [backend-qwen/llm/oai.py] *)
(* ================================================================== *)
Module Retry.

(** What one call of [self._chat_complete_create] does: it returns the
    provider's response or raises. [RateLimitError] is tested before its base
    class [OpenAIError]; any other exception matches neither clause. *)
Inductive CreateOutcome (R : Type) : Type :=
| Created (response : R)
| RaisedRateLimitError (ex : pystr)
| RaisedOpenAIError (ex : pystr)
| RaisedOther (ex : Exn).
Arguments Created {R} response.
Arguments RaisedRateLimitError {R} ex.
Arguments RaisedOpenAIError {R} ex.
Arguments RaisedOther {R} ex.

(** How the loop is left. *)
Inductive LoopExit (R : Type) : Type :=
| Got (response : R)                 (* [break] *)
| ModelServiceError (ex : pystr)     (* [raise ModelServiceError] *)
| Propagated (ex : Exn)              (* an exception no clause takes *)
| Exhausted.                         (* [range] ran out, [response] is [None] *)
Arguments Got {R} response.
Arguments ModelServiceError {R} ex.
Arguments Propagated {R} ex.
Arguments Exhausted {R}.

(** The exit, the arguments [time.sleep] was called with, in order, and the
    number of calls made to the provider. *)
Record LoopTrace (R : Type) : Type := {
  exit : LoopExit R;
  slept : list Q;
  calls : nat
}.

Definition MAX_RETRIES : nat := 5.
Definition INITIAL_DELAY : Z := 2.

Section ChatStream.

Variable R : Type.
(** The outcome of the provider call made in iteration [attempt]. *)
Variable chat_complete_create : nat -> CreateOutcome R.
(** The value [random.uniform(0, 1)] draws in iteration [attempt]. *)
Variable random_uniform_0_1 : nat -> Q.

(** [INITIAL_DELAY * (2 ** attempt) + random.uniform(0, 1)], in exact
    arithmetic. *)
Definition delay (attempt : nat) : Q :=
  (inject_Z (INITIAL_DELAY * 2 ^ Z.of_nat attempt)
   + random_uniform_0_1 attempt)%Q.

(** [for attempt in range(MAX_RETRIES)], from iteration [attempt] with
    [remaining] iterations left. *)
Fixpoint retry_loop (remaining attempt : nat) (slept0 : list Q)
    (calls0 : nat) : LoopTrace R :=
  match remaining with
  | O => {| exit := Exhausted; slept := slept0; calls := calls0 |}
  | S remaining' =>
      match chat_complete_create attempt with
      | Created response =>
          {| exit := Got response; slept := slept0; calls := S calls0 |}
      | RaisedRateLimitError ex =>
          if Nat.eqb attempt (MAX_RETRIES - 1) then
            {| exit := ModelServiceError ex; slept := slept0;
               calls := S calls0 |}
          else
            retry_loop remaining' (S attempt) (slept0 ++ [delay attempt])
                       (S calls0)
      | RaisedOpenAIError ex =>
          {| exit := ModelServiceError ex; slept := slept0;
             calls := S calls0 |}
      | RaisedOther ex =>
          {| exit := Propagated ex; slept := slept0; calls := S calls0 |}
      end
  end.

(** The part of [_chat_stream] that obtains the provider's response. *)
Definition _chat_stream : LoopTrace R := retry_loop MAX_RETRIES 0 [] 0.

End ChatStream.

End Retry.

(* ================================================================== *)
(** * Regular expressions, as the [re] module matches them *)
(* ================================================================== *)
Module Re.

(** The fragment of pattern syntax the embedded code uses. Repetition is only
    ever applied to a one-character class. *)
Inductive regex : Type :=
| Eps
| Chr (c : N)                   (* a literal character *)
| Cls (p : N -> bool)           (* a character class *)
| Cat (a b : regex)             (* concatenation *)
| Opt (a : regex)               (* [a?], greedy *)
| Star (p : N -> bool)          (* [[class]*], greedy *)
| Grp (a : regex).              (* a capturing group *)

(** [[class]+] *)
Definition Plus (p : N -> bool) : regex := Cat (Cls p) (Star p).

Fixpoint cats (rs : list regex) : regex :=
  match rs with
  | [] => Eps
  | r :: rs' => Cat r (cats rs')
  end.

(** A literal string; also what [re.escape(text)] matches. *)
Definition lit (text : pystr) : regex := cats (map Chr text).

Section Matcher.

Variable A : Type.

(** Greedy repetition with backtracking: the longest run first, then shorter
    ones, until the continuation succeeds. *)
Fixpoint star (p : N -> bool) (s : pystr) (k : pystr -> option A)
  : option A :=
  match s with
  | c :: s' =>
      if p c then
        match star p s' k with
        | Some r => Some r
        | None => k s
        end
      else k s
  | [] => k []
  end.

(** Backtracking match of [r] at the head of [s]; [k] receives the rest of
    the input and the groups captured so far. *)
Fixpoint go (r : regex) (s : pystr) (caps : list pystr)
    (k : pystr -> list pystr -> option A) : option A :=
  match r with
  | Eps => k s caps
  | Chr c =>
      match s with
      | x :: s' => if N.eqb x c then k s' caps else None
      | [] => None
      end
  | Cls p =>
      match s with
      | x :: s' => if p x then k s' caps else None
      | [] => None
      end
  | Cat a b => go a s caps (fun s1 caps1 => go b s1 caps1 k)
  | Opt a =>
      match go a s caps k with
      | Some res => Some res
      | None => k s caps
      end
  | Star p => star p s (fun s1 => k s1 caps)
  | Grp a =>
      go a s caps
         (fun s1 caps1 =>
            k s1 (caps1 ++ [firstn (List.length s - List.length s1) s]))
  end.

End Matcher.

(** [re.match]: the matched text and the groups. *)
Definition match_at (r : regex) (s : pystr) : option (pystr * list pystr) :=
  go r s []
     (fun rest caps =>
        Some (firstn (List.length s - List.length rest) s, caps)).

(** [re.search]: the leftmost match. *)
Fixpoint search (r : regex) (s : pystr) : option (pystr * list pystr) :=
  match match_at r s with
  | Some m => Some m
  | None =>
      match s with
      | [] => None
      | _ :: s' => search r s'
      end
  end.

(** [re.findall] for a pattern without groups that matches no empty string:
    the matched texts, leftmost first, not overlapping. [skip] counts the
    characters still covered by the previous match. *)
Fixpoint findall_from (skip : nat) (r : regex) (s : pystr) : list pystr :=
  match s with
  | [] => []
  | _ :: s' =>
      match skip with
      | S n => findall_from n r s'
      | O =>
          match match_at r s with
          | Some (m, _) => m :: findall_from (List.length m - 1) r s'
          | None => findall_from 0 r s'
          end
      end
  end.

Definition findall (r : regex) (s : pystr) : list pystr := findall_from 0 r s.

(** [m.group(1)] *)
Definition group1 (m : pystr * list pystr) : pystr := nth 0 (snd m) [].

End Re.

(* ================================================================== *)
(** * A decoder for JSON texts *)
(* ================================================================== *)
(** [json.loads] belongs to the Python library; the extraction below takes it
    as a parameter. [Json.loads] is a decoder for the grammar the library
    documents, used where a concrete text has to be decoded. *)
Module Json.

Definition decode_error (msg : string) : Exn :=
  {| exn_class := JSONDecodeError; exn_str := py msg |}.

Definition fail {A : Type} (msg : string) : PyResult A :=
  Raise (decode_error msg).

Fixpoint skip_ws (s : pystr) : pystr :=
  match s with
  | c :: s' =>
      if ((c =? 32) || (c =? 9) || (c =? 10) || (c =? 13))%N
      then skip_ws s' else s
  | [] => []
  end.

Definition is_digit (c : N) : bool := ((48 <=? c) && (c <=? 57))%N.

Definition hex_digit (c : N) : option N :=
  if is_digit c then Some (c - 48)%N
  else if ((97 <=? c) && (c <=? 102))%N then Some (c - 87)%N
  else if ((65 <=? c) && (c <=? 70))%N then Some (c - 55)%N
  else None.

Definition hex4 (a b c d : N) : option N :=
  match hex_digit a, hex_digit b, hex_digit c, hex_digit d with
  | Some x, Some y, Some z, Some w =>
      Some (((x * 16 + y) * 16 + z) * 16 + w)%N
  | _, _, _, _ => None
  end.

(** The one-letter escapes. *)
Definition unescape (c : N) : option N :=
  if (c =? 34)%N then Some 34%N           (* quote *)
  else if (c =? 92)%N then Some 92%N      (* backslash *)
  else if (c =? 47)%N then Some 47%N      (* slash *)
  else if (c =? 98)%N then Some 8%N       (* b *)
  else if (c =? 102)%N then Some 12%N     (* f *)
  else if (c =? 110)%N then Some 10%N     (* n *)
  else if (c =? 114)%N then Some 13%N     (* r *)
  else if (c =? 116)%N then Some 9%N      (* t *)
  else None.

Definition high_surrogate (u : N) : bool := ((55296 <=? u) && (u <=? 56319))%N.
Definition low_surrogate (u : N) : bool := ((56320 <=? u) && (u <=? 57343))%N.
Definition join_surrogates (hi lo : N) : N :=
  (65536 + (hi - 55296) * 1024 + (lo - 56320))%N.

(** The body of a string, after its opening quote: the decoded text and the
    input after the closing quote. *)
Fixpoint scanstring (s : pystr) (acc : pystr) : PyResult (pystr * pystr) :=
  match s with
  | [] => fail "Unterminated string"
  | c :: rest =>
      if (c =? 34)%N then Return (acc, rest)
      else if (c =? 92)%N then
        match rest with
        | [] => fail "Unterminated string"
        | e :: rest1 =>
            if (e =? 117)%N then
              match rest1 with
              | a :: b :: c1 :: d :: rest4 =>
                  match hex4 a b c1 d with
                  | None => fail "Invalid \uXXXX escape"
                  | Some u =>
                      match rest4 with
                      | b1 :: u1 :: a2 :: b2 :: c2 :: d2 :: rest10 =>
                          if high_surrogate u && (b1 =? 92)%N && (u1 =? 117)%N
                          then
                            match hex4 a2 b2 c2 d2 with
                            | None => fail "Invalid \uXXXX escape"
                            | Some u2 =>
                                if low_surrogate u2
                                then scanstring rest10
                                       (acc ++ [join_surrogates u u2])
                                else scanstring rest4 (acc ++ [u])
                            end
                          else scanstring rest4 (acc ++ [u])
                      | _ => scanstring rest4 (acc ++ [u])
                      end
                  end
              | _ => fail "Invalid \uXXXX escape"
              end
            else
              match unescape e with
              | Some x => scanstring rest1 (acc ++ [x])
              | None => fail "Invalid \escape"
              end
        end
      else if (c <? 32)%N then fail "Invalid control character"
      else scanstring rest (acc ++ [c])
  end.

Fixpoint span_digits (s : pystr) : pystr * pystr :=
  match s with
  | c :: s' =>
      if is_digit c
      then let '(ds, rest) := span_digits s' in (c :: ds, rest)
      else ([], s)
  | [] => ([], [])
  end.

Definition digits_value (ds : pystr) : Z :=
  fold_left (fun a c => (a * 10 + (Z.of_N c - 48))%Z) ds 0%Z.

(** A number: an optional minus sign, then a zero or a run of digits that
    starts with a non-zero one, then optionally a point with digits and
    optionally an exponent; an [int] when it has neither fraction nor
    exponent. *)
Definition scan_number (s : pystr) : option (PyValue * pystr) :=
  let '(negative, s1) :=
    match s with
    | c :: r => if (c =? 45)%N then (true, r) else (false, s)
    | [] => (false, s)
    end in
  let int_part :=
    match s1 with
    | c :: r =>
        if (c =? 48)%N then Some ([c], r)
        else if is_digit c then Some (span_digits s1)
        else None
    | [] => None
    end in
  match int_part with
  | None => None
  | Some (ints, r1) =>
      let '(frac, r2) :=
        match r1 with
        | c :: r =>
            if (c =? 46)%N then
              match span_digits r with
              | ([], _) => ([], r1)
              | (fs, rest) => (fs, rest)
              end
            else ([], r1)
        | [] => ([], r1)
        end in
      let '(expo, r3) :=
        match r2 with
        | c :: r =>
            if ((c =? 101) || (c =? 69))%N then
              let '(eneg, r') :=
                match r with
                | sg :: r'' =>
                    if (sg =? 45)%N then (true, r'')
                    else if (sg =? 43)%N then (false, r'')
                    else (false, r)
                | [] => (false, r)
                end in
              match span_digits r' with
              | ([], _) => (None, r2)
              | (es, rest) =>
                  (Some (if eneg then (- digits_value es)%Z
                         else digits_value es), rest)
              end
            else (None, r2)
        | [] => (None, r2)
        end in
      let sign := if negative then (-1)%Z else 1%Z in
      match frac, expo with
      | [], None => Some (VInt (sign * digits_value ints), r3)
      | _, _ =>
          let e := match expo with Some e => e | None => 0%Z end in
          Some (VFloat (FDec (sign * digits_value (ints ++ frac))
                             (e - Z.of_nat (List.length frac))), r3)
      end
  end.

(** Later bindings of a key replace earlier ones. *)
Fixpoint dict_set (d : list (pystr * PyValue)) (key : pystr) (v : PyValue)
  : list (pystr * PyValue) :=
  match d with
  | [] => [(key, v)]
  | (k, x) :: d' =>
      if PyStr.eqb k key then (k, v) :: d' else (k, x) :: dict_set d' key v
  end.

Definition too_deep {A : Type} : PyResult A :=
  Raise {| exn_class := OtherException;
           exn_str := py "maximum recursion depth exceeded" |}.

(** [parse_value] reads one value at the head of the input; [parse_items]
    and [parse_members] read the rest of an array and of an object from the
    start of an element and of a key. *)
Fixpoint parse_value (fuel : nat) (s : pystr) : PyResult (PyValue * pystr) :=
  match fuel with
  | O => too_deep
  | S fuel' =>
      match s with
      | [] => fail "Expecting value"
      | c :: rest =>
          if (c =? 34)%N then
            p <- scanstring rest [] ;; Return (VStr (fst p), snd p)
          else if (c =? 123)%N then
            match skip_ws rest with
            | c1 :: r1 =>
                if (c1 =? 125)%N then Return (VDict [], r1)
                else parse_members fuel' (c1 :: r1) []
            | [] => fail "Expecting property name enclosed in double quotes"
            end
          else if (c =? 91)%N then
            match skip_ws rest with
            | c1 :: r1 =>
                if (c1 =? 93)%N then Return (VList [], r1)
                else parse_items fuel' (c1 :: r1) []
            | [] => fail "Expecting value"
            end
          else if startswith s (py "null") then Return (VNone, skipn 4 s)
          else if startswith s (py "true") then
            Return (VBool true, skipn 4 s)
          else if startswith s (py "false") then
            Return (VBool false, skipn 5 s)
          else
            match scan_number s with
            | Some r => Return r
            | None =>
                if startswith s (py "NaN") then
                  Return (VFloat FNaN, skipn 3 s)
                else if startswith s (py "Infinity") then
                  Return (VFloat (FInf false), skipn 8 s)
                else if startswith s (py "-Infinity") then
                  Return (VFloat (FInf true), skipn 9 s)
                else fail "Expecting value"
            end
      end
  end
with parse_items (fuel : nat) (s : pystr) (acc : list PyValue)
  : PyResult (PyValue * pystr) :=
  match fuel with
  | O => too_deep
  | S fuel' =>
      p <- parse_value fuel' s ;;
      match skip_ws (snd p) with
      | c :: r =>
          if (c =? 93)%N then Return (VList (acc ++ [fst p]), r)
          else if (c =? 44)%N then
            parse_items fuel' (skip_ws r) (acc ++ [fst p])
          else fail "Expecting ',' delimiter"
      | [] => fail "Expecting ',' delimiter"
      end
  end
with parse_members (fuel : nat) (s : pystr) (acc : list (pystr * PyValue))
  : PyResult (PyValue * pystr) :=
  match fuel with
  | O => too_deep
  | S fuel' =>
      match s with
      | q :: r0 =>
          if (q =? 34)%N then
            kv <- scanstring r0 [] ;;
            match skip_ws (snd kv) with
            | colon :: r1 =>
                if (colon =? 58)%N then
                  p <- parse_value fuel' (skip_ws r1) ;;
                  let acc' := dict_set acc (fst kv) (fst p) in
                  match skip_ws (snd p) with
                  | c :: r =>
                      if (c =? 125)%N then Return (VDict acc', r)
                      else if (c =? 44)%N then
                        parse_members fuel' (skip_ws r) acc'
                      else fail "Expecting ',' delimiter"
                  | [] => fail "Expecting ',' delimiter"
                  end
                else fail "Expecting ':' delimiter"
            | [] => fail "Expecting ':' delimiter"
            end
          else fail "Expecting property name enclosed in double quotes"
      | [] => fail "Expecting property name enclosed in double quotes"
      end
  end.

Definition loads (s : pystr) : PyResult PyValue :=
  match s with
  | 65279%N :: _ => fail "Unexpected UTF-8 BOM"
  | _ =>
      p <- parse_value (2 * List.length s + 2) (skip_ws s) ;;
      match skip_ws (snd p) with
      | [] => Return (fst p)
      | _ :: _ => fail "Extra data"
      end
  end.

End Json.

(* ================================================================== *)
(** * Message conversion and source extraction:
      [backend-qwen/api/research.py] *)
(* ================================================================== *)
Module Api.

(** [api/models.py]: [class MessageType(str, Enum)] *)
Inductive MessageType : Type :=
| SYSTEM_T            (* MessageType.SYSTEM *)
| USER_T              (* MessageType.USER *)
| AGENT_T             (* MessageType.AGENT *)
| THINKING_T          (* MessageType.THINKING *)
| TOOL_T              (* MessageType.TOOL *)
| DOCUMENT_UPDATE_T.  (* MessageType.DOCUMENT_UPDATE *)

Definition is_tool_type (t : MessageType) : bool :=
  match t with TOOL_T => true | _ => false end.

(** One entry of the [sources] list: the dict with keys ["url"], ["title"]
    and ["type"]. *)
Record Source : Type := {
  url : PyValue;
  title : PyValue;
  type : pystr
}.

(** [api/models.py]: [class Message(BaseModel)], with the fields the
    converters read or set; the others keep their default [None]. *)
Record Message : Type := {
  id : pystr;
  msg_type : MessageType;               (* the field [type] *)
  content : pystr;
  agent : option pystr;
  toolName : option pystr;
  result : option pystr;
  role : option pystr;
  tool_calls : option (list PyValue);
  sources : option (list Source)
}.

(** An element of a list-valued [content], by the three cases the converter
    tells apart. *)
Inductive ContentItem : Type :=
| ItemWithText (text : PyValue)
    (* [hasattr(item, 'text')]; [text] is [item.text] *)
| ItemDict (entries : list (pystr * PyValue)) (str_item : pystr)
    (* a [dict]; [str_item] is [str(item)] *)
| ItemOther (str_item : pystr).
    (* anything else; [str_item] is [str(item)] *)

Inductive QwenContent : Type :=
| CStr (s : pystr)
| CList (items : list ContentItem).

(** [qwen_agent.llm.schema.Message], with the fields the converters read or
    set. *)
Record QwenMessage : Type := {
  q_role : pystr;
  q_content : QwenContent;
  q_name : option pystr
}.

Definition opt_truthy (o : option pystr) : bool :=
  match o with
  | Some s => nonempty s
  | None => false
  end.

(** [key in d] *)
Fixpoint dict_has (d : list (pystr * PyValue)) (key : pystr) : bool :=
  match d with
  | [] => false
  | (k, _) :: d' => PyStr.eqb k key || dict_has d' key
  end.

(** [content += x] for a [str] on the left: a [TypeError] unless [x] is a
    [str] too. *)
Definition str_iadd (acc : pystr) (x : PyValue) : PyResult pystr :=
  match x with
  | VStr s => Return (acc ++ s)
  | _ => Raise {| exn_class := TypeError;
                  exn_str := py "can only concatenate str to str" |}
  end.

(** What the loop over a list-valued content adds to [content] for one
    item: [item.text] of an item with that attribute, [item['text']] of a
    dict with that key, [str(item)] of any other item. *)
Definition item_piece (item : ContentItem) : PyValue :=
  match item with
  | ItemWithText text => text
  | ItemDict entries str_item =>
      if dict_has entries (py "text") then dict_get entries (py "text")
      else VStr str_item
  | ItemOther str_item => VStr str_item
  end.

Section Converters.

(** The role constants imported from [qwen_agent.llm.schema]; the converters
    only compare roles with them. *)
Variables SYSTEM USER ASSISTANT FUNCTION : pystr.

(** [str(message.tool_calls)] *)
Variable str_of_tool_calls : list PyValue -> pystr.

(** [role_map.get(role, MessageType.AGENT)] on the dict literal keyed by the
    four constants, in which a later key replaces an equal earlier one. *)
Definition type_of_role (r : pystr) : MessageType :=
  if PyStr.eqb r FUNCTION then TOOL_T
  else if PyStr.eqb r ASSISTANT then AGENT_T
  else if PyStr.eqb r USER then USER_T
  else if PyStr.eqb r SYSTEM then SYSTEM_T
  else AGENT_T.

Definition convert_api_message_to_qwen (message : Message) : QwenMessage :=
  let role0 :=
    match msg_type message with
    | SYSTEM_T => SYSTEM
    | USER_T => USER
    | AGENT_T => ASSISTANT
    | TOOL_T => FUNCTION
    | _ => USER
    end in
  let content0 :=
    match tool_calls message with
    | Some (c :: cs) => py "Tool call: " ++ str_of_tool_calls (c :: cs)
    | _ => content message
    end in
  {| q_role := role0;
     q_content := CStr content0;
     q_name := if is_tool_type (msg_type message) then toolName message
               else None |}.

(** The loop over a list-valued content. *)
Fixpoint join_items (items : list ContentItem) (acc : pystr)
  : PyResult pystr :=
  match items with
  | [] => Return acc
  | item :: rest =>
      acc' <- match item with
              | ItemWithText text => str_iadd acc text
              | ItemDict entries str_item =>
                  if dict_has entries (py "text")
                  then str_iadd acc (dict_get entries (py "text"))
                  else Return (acc ++ str_item)
              | ItemOther str_item => Return (acc ++ str_item)
              end ;;
      join_items rest acc'
  end.

(** [uuid] stands for the value of [str(uuid.uuid4())] in this call. *)
Definition convert_qwen_message_to_api (uuid : pystr)
    (qwen_message : QwenMessage) (session_id : pystr) : PyResult Message :=
  let message_type := type_of_role (q_role qwen_message) in
  content0 <- match q_content qwen_message with
              | CStr s => Return s
              | CList items => join_items items []
              end ;;
  let is_tool_result :=
    PyStr.eqb (q_role qwen_message) FUNCTION
    && opt_truthy (q_name qwen_message) in
  Return {| id := uuid;
            msg_type := message_type;
            content := content0;
            agent := Some (py "qwen-agent");
            toolName := if is_tool_result then q_name qwen_message else None;
            result := if is_tool_result then Some content0 else None;
            role := Some (q_role qwen_message);
            tool_calls := None;
            sources := None |}.

End Converters.

(** The three patterns of [extract_sources_from_tool_output]. *)

(** The class of [url_pattern]: any character but white space, the angle
    brackets, the double quote, the braces, the bar, the backslash, the
    caret, the backquote and the square brackets. The round brackets are in
    the class. *)
Definition url_char (c : N) : bool :=
  negb (isspace c
        || existsb (N.eqb c) [60; 62; 34; 123; 125; 124; 92; 94; 96; 91; 93]%N).

(** [url_pattern]: [http], an optional [s], [://], then one or more
    characters of the class above. *)
Definition url_pattern : Re.regex :=
  Re.cats [Re.lit (py "http"); Re.Opt (Re.Chr 115); Re.lit (py "://");
           Re.Plus url_char].

(** The Markdown-label pattern built around a URL: an opening square
    bracket, a group of one or more characters other than the closing square
    bracket, that closing bracket, white space, an opening round bracket,
    white space, the URL itself, white space, a closing round bracket. *)
Definition title_pattern (u : pystr) : Re.regex :=
  Re.cats [Re.Chr 91;
           Re.Grp (Re.Plus (fun c => negb (c =? 93)%N));
           Re.Chr 93;
           Re.Star isspace;
           Re.Chr 40;
           Re.Star isspace;
           Re.lit u;
           Re.Star isspace;
           Re.Chr 41].

(** The domain pattern: [http], an optional [s], [://], an optional [www.]
    outside the group, then a group of one or more characters other than the
    slash. *)
Definition domain_pattern : Re.regex :=
  Re.cats [Re.lit (py "http"); Re.Opt (Re.Chr 115); Re.lit (py "://");
           Re.Opt (Re.lit (py "www."));
           Re.Grp (Re.Plus (fun c => negb (c =? 47)%N))].

(** The title the fallback branch gives one URL found in the text. *)
Definition title_of_url (tool_output u : pystr) : pystr :=
  match Re.search (title_pattern u) tool_output with
  | Some title_match => Re.group1 title_match
  | None =>
      match Re.search domain_pattern u with
      | Some domain => Re.group1 domain
      | None => u
      end
  end.

(** The sources the structured branch appends for one element of the parsed
    list. *)
Definition sources_of_item (item : PyValue) : list Source :=
  match item with
  | VDict d =>
      let url0 := py_or (dict_get d (py "url")) (dict_get d (py "link")) in
      let title0 := py_or (dict_get d (py "title")) (dict_get d (py "name")) in
      if truthy url0 && truthy title0
      then [{| url := url0; title := title0; type := py "search_result" |}]
      else []
  | _ => []
  end.

Section Extraction.

(** [json.loads] *)
Variable json_loads : pystr -> PyResult PyValue.

Definition is_JSONDecodeError (c : ExnClass) : bool :=
  match c with JSONDecodeError => true | _ => false end.

Definition extract_sources_from_tool_output (tool_output : pystr)
  : PyResult (list Source) :=
  let sources0 : list Source := [] in
  if negb (nonempty tool_output) then Return sources0
  else
    try_except
      (try_except
         (parsed <- json_loads tool_output ;;
          match parsed with
          | VList items => Return (sources0 ++ flat_map sources_of_item items)
          | _ => Return sources0
          end)
         is_JSONDecodeError
         (fun _ =>
            let urls := Re.findall url_pattern tool_output in
            Return (sources0 ++
                    map (fun u => {| url := VStr u;
                                     title := VStr (title_of_url tool_output u);
                                     type := py "web_link" |})
                        urls)))
      (fun _ => true)
      (fun _ => Return sources0).

End Extraction.




End Api.

(* ================================================================== *)
(** * Specification vocabulary and sample data *)
(* ================================================================== *)
Module Spec.

(** [sub] occurs in [s] at index [n] and at no smaller index. *)
Fixpoint first_at (sub s : pystr) (n : nat) {struct n} : bool :=
  match n with
  | O => startswith s sub
  | S n' =>
      negb (startswith s sub) &&
      match s with
      | [] => false
      | _ :: s' => first_at sub s' n'
      end
  end.





(** What holds of every configuration a session passes through. *)
Definition session_invariant (max_llm_calls : Z)
    (cfg : Agent.Node * Agent.ResearchState) : Prop :=
  let '(node, s) := cfg in
  Agent.max_iterations s = max_llm_calls
  /\ (0 <= Agent.iteration_count s <= max_llm_calls)%Z
  /\ (Agent.is_complete s = true -> node = Agent.END).

(** The text the Ollama client has put in front of the content of a log's
    system message by the model calls made at the iteration counts [0] to
    [n - 1], that of the latest call first. *)
Fixpoint ollama_prefixes (client_prompt : pystr) (current_date : Z -> pystr)
    (n : nat) : pystr :=
  match n with
  | O => []
  | S n' =>
      Agent.system_content client_prompt (current_date (Z.of_nat n'))
      ++ nl ++ nl ++ ollama_prefixes client_prompt current_date n'
  end.

(** At the end the session is complete and has a final answer. *)
Definition ends_answered (max_llm_calls : Z)
    (cfg : Agent.Node * Agent.ResearchState) : Prop :=
  session_invariant max_llm_calls cfg
  /\ (fst cfg = Agent.END ->
      Agent.is_complete (snd cfg) = true
      /\ Agent.final_answer (snd cfg) <> None).

End Spec.

Module Samples.
Import Agent.

Definition boom : Exn :=
  {| exn_class := OtherException; exn_str := py "connection refused" |}.

Definition llm_raises (_ : list BaseMessage) : PyResult BaseMessage :=
  Raise boom.

Definition llm_says (text : pystr) (calls : list ToolCall)
    (_ : list BaseMessage) : PyResult BaseMessage :=
  Return {| msg_class := AIMessage; content := text; tool_calls := calls;
            tool_call_id := None |}.

Definition search_tool : BaseTool :=
  {| name := py "search";
     execute := fun _ =>
       Return {| success := true; tr_content := py "three results";
                 metadata := None; error := None |} |}.

Definition visit_tool : BaseTool :=
  {| name := py "visit";
     execute := fun _ =>
       Raise {| exn_class := OtherException; exn_str := py "timed out" |} |}.

Definition tools : list BaseTool := [search_tool; visit_tool].

Definition call (n : string) : ToolCall :=
  {| tc_name := Some (py n); tc_arguments := Some (VDict []);
     tc_id := Some (py "call_1") |}.


(** A state in the middle of a session with a budget of three calls. *)
Definition state0 : ResearchState :=
  {| messages := [mk_message HumanMessage (py "what is new?")];
     current_task := py "what is new?";
     tools_used := [];
     iteration_count := 0;
     max_iterations := 3;
     final_answer := None;
     is_complete := false;
     session_id := None |}.

(** The same state after a response that asks for three tools: one that is
    not registered, one that raises, one that returns. *)
Definition state_with_calls : ResearchState :=
  {| messages := messages state0 ++
                 [{| msg_class := AIMessage; content := [];
                     tool_calls := [call "translate"; call "visit";
                                    call "search"];
                     tool_call_id := None |}];
     current_task := current_task state0;
     tools_used := [];
     iteration_count := 1;
     max_iterations := 3;
     final_answer := None;
     is_complete := false;
     session_id := None |}.



Definition prompt : pystr := py "You are a research assistant.".

(** The date of every model call of the sample sessions. *)
Definition date (_ : Z) : pystr := py "2025-06-01".

(** The prompt the sample Ollama client was built with. *)
Definition ollama_prompt : pystr := py "You can search the web.".

Definition question : pystr := py "what is new?".

(** A response with a final answer and, in the same message, a tool call. *)
Definition answer_text : pystr := py "Done. <answer> 42 </answer> bye".

(** The two tags with nothing between them. *)
Definition adjacent_tags : pystr := OPEN_TAG ++ CLOSE_TAG.

(** A stray close tag, then a well-formed answer. *)
Definition stray_close : pystr := py "</answer><answer>a</answer>".

(** An open tag that is never closed. *)
Definition unclosed_answer : pystr := py "<answer>42".







(** The role strings of the agent library. *)
Definition role_system : pystr := py "system".
Definition role_user : pystr := py "user".
Definition role_assistant : pystr := py "assistant".
Definition role_function : pystr := py "function".

(** An assistant message whose content is a list of two text items. *)
Definition two_part_message : Api.QwenMessage :=
  {| Api.q_role := role_assistant;
     Api.q_content :=
       Api.CList [Api.ItemWithText (VStr (py "Hello, "));
                  Api.ItemWithText (VStr (py "world"))];
     Api.q_name := None |}.

(** An assistant message whose content is a list with an item whose [text]
    is [None]. *)
Definition none_text_message : Api.QwenMessage :=
  {| Api.q_role := role_assistant;
     Api.q_content :=
       Api.CList [Api.ItemWithText (VStr (py "Hello, "));
                  Api.ItemWithText VNone];
     Api.q_name := None |}.

(** A tool message. *)
Definition tool_message : Api.QwenMessage :=
  {| Api.q_role := role_function;
     Api.q_content := Api.CStr (py "three results");
     Api.q_name := Some (py "search") |}.

Definition repr_calls (_ : list PyValue) : pystr := py "[...]".

(** A provider that is rate-limited twice and then answers. *)
Definition twice_limited (attempt : nat) : Retry.CreateOutcome pystr :=
  if Nat.ltb attempt 2 then Retry.RaisedRateLimitError (py "429")
  else Retry.Created (py "stream").

(** A jitter source that always draws one half. *)
Definition half (_ : nat) : Q := (1 # 2)%Q.

(** A model that asks for one search and, once a tool reply is in the log,
    gives its answer. *)
Definition llm_searches_once (log : list BaseMessage)
    : PyResult BaseMessage :=
  if existsb (fun m => match tool_call_id m with
                       | Some _ => true
                       | None => false
                       end) log
  then Return {| msg_class := AIMessage;
                 content := py "<answer>three results</answer>";
                 tool_calls := []; tool_call_id := None |}
  else Return {| msg_class := AIMessage; content := py "Let me search.";
                 tool_calls := [call "search"]; tool_call_id := None |}.

End Samples.

(** * [backend-qwen/llm/oai.py]: what [_chat_stream] yields *)

(** The second half of [TextChatAtOAI._chat_stream]: once the provider has
    handed over a streaming response, the generator walks through its chunks
    and yields messages, piece by piece when [delta_stream] is set, as
    growing snapshots otherwise. A generator is given by the messages it
    yields, in order, and the way it ends. *)
Module Stream.

(** [choice.delta.tool_calls[0].function] *)
Record FunctionDelta : Type := {
  fn_name : PyValue;
  fn_arguments : pystr
}.

(** [choice.delta]: an attribute that is missing or [None] is [None] here. *)
Record Delta : Type := {
  content : option pystr;
  reasoning_content : option pystr;
  reasoning : option pystr;
  tool_calls : list FunctionDelta
}.

Record Choice : Type := { delta : Delta }.

Record Chunk : Type := { choices : list Choice }.

(** How iterating over the response stops: the stream is exhausted, or
    fetching the next chunk raises. *)
Inductive StreamEnd : Type :=
| EndOfStream
| StreamOpenAIError (ex : pystr)
| StreamOtherError (e : Exn).

Record Response : Type := {
  chunks : list Chunk;
  stream_end : StreamEnd
}.

(** A yielded [Message]; [m_reasoning_content] is [None] where the
    constructor call does not pass it. *)
Record Message : Type := {
  m_role : pystr;
  m_content : pystr;
  m_reasoning_content : option pystr
}.

(** How the generator ends. *)
Inductive GenExit : Type :=
| Finished
| ModelServiceErrorRaised (ex : pystr)
| ExceptionRaised (e : Exn).

Record Trace : Type := {
  yielded : list Message;
  ending : GenExit
}.

(** [hasattr(x, 'attr') and x.attr] *)
Definition attr_truthy (a : option pystr) : bool :=
  match a with
  | Some s => nonempty s
  | None => false
  end.

Definition attr_value (a : option pystr) : pystr :=
  match a with
  | Some s => s
  | None => []
  end.

(** [x.attr if hasattr(x, 'attr') and x.attr else ''] *)
Definition attr_or_empty (a : option pystr) : pystr :=
  if attr_truthy a then attr_value a else [].

Definition TOOL_CALL_OPEN : pystr := py "<tool_call>".
Definition TOOL_CALL_CLOSE : pystr := py "</tool_call>".

Definition CONTENT_THRESHOLD : Z := 50.
Definition REASONING_THRESHOLD : Z := 50.

(** The four local strings of the snapshot mode. *)
Record Buffers : Type := {
  full_response : pystr;
  full_reasoning_content : pystr;
  content_buffer : pystr;
  reasoning_content_buffer : pystr
}.

Definition empty_buffers : Buffers :=
  {| full_response := []; full_reasoning_content := [];
     content_buffer := []; reasoning_content_buffer := [] |}.

(** The exit of the generator when the iteration itself stops: the outer
    handler turns an [OpenAIError] into a [ModelServiceError]. *)
Definition leave (e : StreamEnd) : GenExit :=
  match e with
  | EndOfStream => Finished
  | StreamOpenAIError ex => ModelServiceErrorRaised ex
  | StreamOtherError e' => ExceptionRaised e'
  end.

Section ChatStream.

(** The role constant of [qwen_agent.llm.schema]. *)
Variable ASSISTANT : pystr.
Variable json_loads : pystr -> PyResult PyValue.
(** [json.dumps(_, ensure_ascii=False)] *)
Variable json_dumps : PyValue -> pystr.

(** [json.dumps({'name': ..., 'arguments': json.loads(...)})] for the first
    tool call of a delta. *)
Definition function_json (tc : FunctionDelta) : PyResult pystr :=
  arguments <- json_loads (fn_arguments tc) ;;
  Return (json_dumps (VDict [(py "name", fn_name tc);
                             (py "arguments", arguments)])).

Definition tool_call_tag (function_json0 : pystr) : pystr :=
  TOOL_CALL_OPEN ++ function_json0 ++ TOOL_CALL_CLOSE.

(** The body of [for chunk in response] under [delta_stream]: the messages
    yielded for one chunk, and the exception that ends the generator there,
    if any. *)
Definition delta_chunk (chunk : Chunk) : list Message * option Exn :=
  match choices chunk with
  | [] => ([], None)
  | choice :: _ =>
      let d := delta choice in
      let thought :=
        if attr_truthy (reasoning_content d)
        then [{| m_role := ASSISTANT; m_content := [];
                 m_reasoning_content :=
                   Some (attr_value (reasoning_content d)) |}]
        else [] in
      let text :=
        if attr_truthy (content d)
        then [{| m_role := ASSISTANT; m_content := attr_value (content d);
                 m_reasoning_content := Some [] |}]
        else [] in
      match tool_calls d with
      | [] => (thought ++ text, None)
      | tc :: _ =>
          match function_json tc with
          | Return function_json0 =>
              (thought ++ text ++
               [{| m_role := ASSISTANT;
                   m_content := tool_call_tag function_json0;
                   m_reasoning_content := None |}], None)
          | Raise e => (thought ++ text, Some e)
          end
      end
  end.

Fixpoint delta_loop (cs : list Chunk) (e : StreamEnd) : Trace :=
  match cs with
  | [] => {| yielded := []; ending := leave e |}
  | chunk :: rest =>
      match delta_chunk chunk with
      | (ys, Some ex) => {| yielded := ys; ending := ExceptionRaised ex |}
      | (ys, None) =>
          let t := delta_loop rest e in
          {| yielded := ys ++ yielded t; ending := ending t |}
      end
  end.

(** [Message(role=ASSISTANT, content=full_response,
    reasoning_content=full_reasoning_content)] *)
Definition snapshot (b : Buffers) : Message :=
  {| m_role := ASSISTANT; m_content := full_response b;
     m_reasoning_content := Some (full_reasoning_content b) |}.

(** The buffers once the body has taken in the new reasoning and the new
    content of a chunk, which it does before it looks at the tool calls. *)
Definition buffers_with_new_text (b : Buffers) (chunk : Chunk) : Buffers :=
  match choices chunk with
  | [] => b
  | choice :: _ =>
      let d := delta choice in
      let new_content := attr_or_empty (content d) in
      let new_reasoning := attr_or_empty (reasoning d) in
      let b1 :=
        if nonempty new_reasoning
        then {| full_response := full_response b;
                full_reasoning_content :=
                  full_reasoning_content b ++ new_reasoning;
                content_buffer := content_buffer b;
                reasoning_content_buffer :=
                  reasoning_content_buffer b ++ new_reasoning |}
        else b in
      if nonempty new_content
      then {| full_response := full_response b1 ++ new_content;
              full_reasoning_content := full_reasoning_content b1;
              content_buffer := content_buffer b1 ++ new_content;
              reasoning_content_buffer := reasoning_content_buffer b1 |}
      else b1
  end.

(** The body of [for chunk in response] in snapshot mode: the buffers after
    the chunk and the messages yielded for it; the decoding of a tool call's
    arguments may raise before anything is yielded. *)
Definition cumulative_chunk (b : Buffers) (chunk : Chunk)
    : PyResult (Buffers * list Message) :=
  match choices chunk with
  | [] => Return (b, [])
  | choice :: _ =>
      let d := delta choice in
      let new_content := attr_or_empty (content d) in
      let new_reasoning := attr_or_empty (reasoning d) in
      let b2 := buffers_with_new_text b chunk in
      b3 <- match tool_calls d with
            | [] => Return b2
            | tc :: _ =>
                function_json0 <- function_json tc ;;
                Return {| full_response :=
                            full_response b2 ++ tool_call_tag function_json0;
                          full_reasoning_content := full_reasoning_content b2;
                          content_buffer := content_buffer b2 ++ TOOL_CALL_OPEN;
                          reasoning_content_buffer :=
                            reasoning_content_buffer b2 |}
            end ;;
      if (len (content_buffer b3) >=? CONTENT_THRESHOLD)%Z
         || (len (reasoning_content_buffer b3) >=? REASONING_THRESHOLD)%Z
         || contains nl new_content
         || contains nl new_reasoning
      then Return ({| full_response := full_response b3;
                      full_reasoning_content := full_reasoning_content b3;
                      content_buffer := [];
                      reasoning_content_buffer := [] |},
                   [snapshot b3])
      else Return (b3, [])
  end.

(** The [for] loop of the snapshot mode over the chunks the stream delivers:
    the buffers when the loop is left, the messages yielded, and the
    exception raised by the body, if any. When the body raises, the buffers
    hold the new text of that chunk already. *)
Fixpoint cumulative_chunks (cs : list Chunk) (b : Buffers)
    : Buffers * list Message * option Exn :=
  match cs with
  | [] => (b, [], None)
  | chunk :: rest =>
      match cumulative_chunk b chunk with
      | Raise ex => (buffers_with_new_text b chunk, [], Some ex)
      | Return (b', ys) =>
          let '(b'', ys', err) := cumulative_chunks rest b' in
          (b'', ys ++ ys', err)
      end
  end.

(** The snapshot mode: the loop, then the last snapshot if a buffer holds
    text; that last [if] is skipped when the loop is left by an exception. *)
Definition cumulative_loop (cs : list Chunk) (e : StreamEnd) (b : Buffers)
    : Trace :=
  let '(b', ys, err) := cumulative_chunks cs b in
  match err with
  | Some ex => {| yielded := ys; ending := ExceptionRaised ex |}
  | None =>
      match e with
      | EndOfStream =>
          {| yielded :=
               ys ++ (if nonempty (content_buffer b')
                         || nonempty (reasoning_content_buffer b')
                      then [snapshot b'] else []);
             ending := Finished |}
      | _ => {| yielded := ys; ending := leave e |}
      end
  end.

(** What [_chat_stream] yields for a response it has obtained. *)
Definition stream_response (delta_stream : bool) (response : Response)
    : Trace :=
  if delta_stream
  then delta_loop (chunks response) (stream_end response)
  else cumulative_loop (chunks response) (stream_end response) empty_buffers.

(** The text a chunk adds to the reasoning in snapshot mode. *)
Definition chunk_reasoning (chunk : Chunk) : pystr :=
  match choices chunk with
  | [] => []
  | choice :: _ => attr_or_empty (reasoning (delta choice))
  end.

End ChatStream.

End Stream.

(** * [backend-qwen/api/research.py]: the two research endpoints *)

Module ApiRun.
Import Api.

(** [api/models.py]: [class ResearchRequest(BaseModel)], with the fields the
    endpoints read. *)
Record ResearchRequest : Type := {
  query : pystr;
  custom_instructions : option pystr
}.

(** What iterating over [research_agent._run(messages=...)] delivers: the
    batches it yields, and the exception that iteration raises after them,
    if any. *)
Record AgentRun : Type := {
  batches : list (list QwenMessage);
  failure : option Exn
}.

(** [api/models.py]: [class ResearchResponse(BaseModel)]; [error] keeps its
    default. *)
Record ResearchResponse : Type := {
  success : bool;
  final_answer : option pystr;
  messages : list Message;
  tools_used : list pystr;
  iterations : Z;
  is_complete : bool;
  session_id : pystr
}.

(** The endpoint returns a response or raises an [HTTPException]. *)
Inductive EndpointResult : Type :=
| Responded (response : ResearchResponse)
| HTTPException (status_code : Z) (detail : pystr).

(** The events that [stream_research_results] yields, before each is
    written as a [data:] line with [json.dumps]. *)
Inductive StreamEvent : Type :=
| MessageEvent (data : Message)
| CompleteEvent (session_id0 : pystr) (sources0 : list Source)
                (tools_used0 : list pystr)
| ErrorEvent (error : pystr) (session_id0 : pystr).

Definition is_agent_type (t : MessageType) : bool :=
  match t with AGENT_T => true | _ => false end.

(** [msg.toolName not in tools_used] is the negation of this. *)
Definition name_in (n : pystr) (names : list pystr) : bool :=
  existsb (PyStr.eqb n) names.

(** The loop over [all_messages] that picks the final answer and the tools
    used. *)
Fixpoint summarize (all_messages : list Message)
    (final_answer0 : option pystr) (tools_used0 : list pystr)
    : option pystr * list pystr :=
  match all_messages with
  | [] => (final_answer0, tools_used0)
  | msg :: rest =>
      if is_agent_type (msg_type msg) && negb (opt_truthy (toolName msg))
      then summarize rest (Some (content msg)) tools_used0
      else if is_tool_type (msg_type msg) && opt_truthy (toolName msg)
      then
        match toolName msg with
        | Some n =>
            if negb (name_in n tools_used0)
            then summarize rest final_answer0 (tools_used0 ++ [n])
            else summarize rest final_answer0 tools_used0
        | None => summarize rest final_answer0 tools_used0
        end
      else summarize rest final_answer0 tools_used0
  end.

(** [api_msg.type == MessageType.TOOL and
    api_msg.toolName in ['search', 'visit']] *)
Definition carries_sources (api_msg : Message) : bool :=
  is_tool_type (msg_type api_msg)
  && match toolName api_msg with
     | Some n => PyStr.eqb n (py "search") || PyStr.eqb n (py "visit")
     | None => false
     end.

(** [api_msg.result or ""] *)
Definition result_or_empty (api_msg : Message) : pystr :=
  match result api_msg with
  | Some s => if nonempty s then s else []
  | None => []
  end.

(** [api_msg.sources = extracted_sources] *)
Definition set_sources (api_msg : Message) (extracted : list Source)
    : Message :=
  {| id := id api_msg;
     msg_type := msg_type api_msg;
     content := content api_msg;
     agent := agent api_msg;
     toolName := toolName api_msg;
     result := result api_msg;
     role := role api_msg;
     tool_calls := tool_calls api_msg;
     sources := Some extracted |}.

(** The list the completion event reports, whatever was used. *)
Definition REPORTED_TOOLS : list pystr :=
  [py "search"; py "visit"; py "google_scholar"; py "PythonInterpreter"].

Section Endpoints.

Variables SYSTEM USER ASSISTANT FUNCTION : pystr.
(** [uuid4 k] is the value of [str(uuid.uuid4())] in the call numbered [k]
    of one request, counting from zero. *)
Variable uuid4 : nat -> pystr.
Variable research_agent_run : list QwenMessage -> AgentRun.
Variable json_loads : pystr -> PyResult PyValue.

(** The messages handed to the agent: the query, with the custom
    instructions in front when there are some. *)
Definition request_messages (request : ResearchRequest)
    : list QwenMessage :=
  let qwen_messages :=
    [{| q_role := USER; q_content := CStr (query request);
        q_name := None |}] in
  match custom_instructions request with
  | Some instructions =>
      if nonempty instructions
      then {| q_role := SYSTEM; q_content := CStr instructions;
              q_name := None |} :: qwen_messages
      else qwen_messages
  | None => qwen_messages
  end.

(** [for qwen_msg in response_batch] of [perform_research]; [k] counts the
    conversions made so far. *)
Fixpoint convert_batch (response_batch : list QwenMessage)
    (session_id0 : pystr) (k : nat) (all_messages : list Message)
    : PyResult (nat * list Message) :=
  match response_batch with
  | [] => Return (k, all_messages)
  | qwen_msg :: rest =>
      api_msg <- convert_qwen_message_to_api SYSTEM USER ASSISTANT FUNCTION
                   (uuid4 k) qwen_msg session_id0 ;;
      convert_batch rest session_id0 (S k) (all_messages ++ [api_msg])
  end.

(** [for response_batch in research_agent._run(...)] of
    [perform_research]. *)
Fixpoint collect (bs : list (list QwenMessage)) (failure0 : option Exn)
    (session_id0 : pystr) (k : nat) (all_messages : list Message)
    : PyResult (list Message) :=
  match bs with
  | [] =>
      match failure0 with
      | Some e => Raise e
      | None => Return all_messages
      end
  | response_batch :: rest =>
      r <- convert_batch response_batch session_id0 k all_messages ;;
      collect rest failure0 session_id0 (fst r) (snd r)
  end.

(** [session_id] is the value of [generate_session_id()]. *)
Definition perform_research (request : ResearchRequest)
    (session_id0 : pystr) : EndpointResult :=
  let run := research_agent_run (request_messages request) in
  match collect (batches run) (failure run) session_id0 0 [] with
  | Raise e => HTTPException 500 (exn_str e)
  | Return all_messages =>
      let summary := summarize all_messages None [] in
      Responded {| success := true;
                   final_answer := fst summary;
                   messages := all_messages;
                   tools_used := snd summary;
                   iterations := 1;
                   is_complete := true;
                   session_id := session_id0 |}
  end.

(** One message of [stream_research_results]: the converted message, with
    its sources when it is the output of a search or a visit, and the
    sources collected so far. *)
Definition stream_message (qwen_msg : QwenMessage) (session_id0 : pystr)
    (k : nat) (sources0 : list Source) : PyResult (Message * list Source) :=
  api_msg <- convert_qwen_message_to_api SYSTEM USER ASSISTANT FUNCTION
               (uuid4 k) qwen_msg session_id0 ;;
  if carries_sources api_msg
  then
    extracted_sources <-
      extract_sources_from_tool_output json_loads
        (result_or_empty api_msg) ;;
    Return (set_sources api_msg extracted_sources,
            sources0 ++ extracted_sources)
  else Return (api_msg, sources0).

(** The two nested loops of [stream_research_results]: the events yielded,
    and how the loops are left, with the conversion count and the sources
    at that point. *)
Fixpoint stream_batch (response_batch : list QwenMessage)
    (session_id0 : pystr) (k : nat) (sources0 : list Source)
    : list StreamEvent * PyResult (nat * list Source) :=
  match response_batch with
  | [] => ([], Return (k, sources0))
  | qwen_msg :: rest =>
      match stream_message qwen_msg session_id0 k sources0 with
      | Raise e => ([], Raise e)
      | Return (api_msg, sources1) =>
          let '(events, r) := stream_batch rest session_id0 (S k) sources1 in
          (MessageEvent api_msg :: events, r)
      end
  end.

Fixpoint stream_batches (bs : list (list QwenMessage))
    (failure0 : option Exn) (session_id0 : pystr) (k : nat)
    (sources0 : list Source)
    : list StreamEvent * PyResult (list Source) :=
  match bs with
  | [] =>
      match failure0 with
      | Some e => ([], Raise e)
      | None => ([], Return sources0)
      end
  | response_batch :: rest =>
      match stream_batch response_batch session_id0 k sources0 with
      | (events, Raise e) => (events, Raise e)
      | (events, Return (k', sources1)) =>
          let '(events', r) :=
            stream_batches rest failure0 session_id0 k' sources1 in
          (events ++ events', r)
      end
  end.

Definition stream_research_results (request : ResearchRequest)
    (session_id0 : pystr) : list StreamEvent :=
  let run := research_agent_run (request_messages request) in
  match stream_batches (batches run) (failure run) session_id0 0 [] with
  | (events, Return sources0) =>
      events ++ [CompleteEvent session_id0 sources0 REPORTED_TOOLS]
  | (events, Raise e) => events ++ [ErrorEvent (exn_str e) session_id0]
  end.

End Endpoints.

(** Vocabulary of the statements about the endpoints. *)

(** The sources a message carries. *)
Definition sources_of (api_msg : Message) : list Source :=
  match sources api_msg with
  | Some l => l
  | None => []
  end.

(** [streamed] is [api_msg], possibly with sources attached. *)
Definition same_but_sources (api_msg streamed : Message) : Prop :=
  streamed = api_msg \/ exists l, streamed = set_sources api_msg l.

End ApiRun.

(** * [backend-qwen/api/models.py]: LangChain messages to API messages *)

Module Models.
Import Api.

(** A LangChain message as [convert_langchain_messages_to_messages] reads
    it. *)
Record LangChainMessage : Type := {
  class_name_lower : pystr;
    (* [msg.__class__.__name__.lower()] *)
  lc_content : pystr;
    (* [msg.content] *)
  lc_tool_calls : option (list PyValue)
    (* [msg.tool_calls]; [None] when the attribute is missing *)
}.

(** [str(i)] for the index that [enumerate] gives. *)
Definition decimal (i : nat) : pystr :=
  py (NilEmpty.string_of_uint (Nat.to_uint i)).

(** The chain of comparisons on the lower-cased class name. *)
Definition type_of_class (lower : pystr) : MessageType :=
  if PyStr.eqb lower (py "systemmessage") then SYSTEM_T
  else if PyStr.eqb lower (py "humanmessage") then USER_T
  else if PyStr.eqb lower (py "aimessage") then AGENT_T
  else AGENT_T.

(** The body of the loop for the message at index [i]. *)
Definition convert_message (session_id : pystr) (i : nat)
    (msg : LangChainMessage) : Message :=
  {| id := session_id ++ py "_msg_" ++ decimal i;
     msg_type := type_of_class (class_name_lower msg);
     content := lc_content msg;
     agent := None;
     toolName := None;
     result := None;
     role := Some (class_name_lower msg);
     tool_calls :=
       match lc_tool_calls msg with
       | Some (c :: cs) => Some (c :: cs)
       | _ => None
       end;
     sources := None |}.

(** [for i, msg in enumerate(messages)], from index [i] on. *)
Fixpoint convert_from (session_id : pystr) (i : nat)
    (messages : list LangChainMessage) (messages_list : list Message)
    : list Message :=
  match messages with
  | [] => messages_list
  | msg :: rest =>
      convert_from session_id (S i) rest
                   (messages_list ++ [convert_message session_id i msg])
  end.

Definition convert_langchain_messages_to_messages
    (messages : list LangChainMessage) (session_id : pystr)
    : list Message :=
  convert_from session_id 0 messages [].

End Models.

(** * [backend/llm/openai_client.py]: the message dicts sent to the model *)

Module OpenAIClient.
Import Agent.

(** One entry of [message_dicts]: the dict with keys ["role"] and
    ["content"]. *)
Record MessageDict : Type := {
  d_role : pystr;
  d_content : pystr
}.

(** [msg.get("role") == "system"] *)
Definition is_system_dict (d : MessageDict) : bool :=
  PyStr.eqb (d_role d) (py "system").

Section DeepResearchLLM.

(** [self.system_prompt] *)
Variable system_prompt : pystr.
(** [current_date i] is the value of
    [datetime.now().strftime("%Y-%m-%d")] while the message at index [i] is
    handled; the index after the last message stands for the call made when
    a system message is inserted. *)
Variable current_date : nat -> pystr.

(** [f"{self.system_prompt}\n\nCurrent date: {current_date}"] *)
Definition enhanced_prompt (date : pystr) : pystr :=
  system_prompt ++ nl ++ nl ++ py "Current date: " ++ date.

(** The body of the loop for the message at index [i]; the content of a
    message is a string here, so that [str(message.content)] is the content
    itself. *)
Definition message_dict (i : nat) (message : BaseMessage) : MessageDict :=
  match msg_class message with
  | SystemMessage =>
      {| d_role := py "system";
         d_content :=
           enhanced_prompt (current_date i) ++ nl ++ nl ++ content message |}
  | HumanMessage =>
      {| d_role := py "user"; d_content := content message |}
  | AIMessage =>
      {| d_role := py "assistant"; d_content := content message |}
  | OtherMessage =>
      {| d_role := py "user"; d_content := content message |}
  end.

(** [for i, message in enumerate(messages)], from index [i] on. *)
Fixpoint message_dicts_from (i : nat) (messages : list BaseMessage)
    (message_dicts : list MessageDict) : list MessageDict :=
  match messages with
  | [] => message_dicts
  | message :: rest =>
      message_dicts_from (S i) rest (message_dicts ++ [message_dict i message])
  end.

Definition _create_message_dicts (messages : list BaseMessage)
    : list MessageDict :=
  let message_dicts := message_dicts_from 0 messages [] in
  if negb (existsb is_system_dict message_dicts)
  then {| d_role := py "system";
          d_content := enhanced_prompt (current_date (List.length messages)) |}
       :: message_dicts
  else message_dicts.

End DeepResearchLLM.

End OpenAIClient.

(** * [backend-qwen/tools/tool_python.py]: [PythonInterpreter.call] *)

Module PythonTool.

(** [s.split(sep)] for a separator that is not empty: the pieces between
    the occurrences of [sep], found from left to right without overlap.
    [skip] counts the characters of a separator still to be passed over and
    [cur] is the piece read so far. *)
Fixpoint split_go (sep s : pystr) (skip : nat) (cur : pystr)
    : list pystr :=
  match s with
  | [] => [cur]
  | c :: s' =>
      match skip with
      | S skip' => split_go sep s' skip' cur
      | O =>
          if startswith s sep
          then cur :: split_go sep s' (List.length sep - 1) []
          else split_go sep s' 0 (cur ++ [c])
      end
  end.

Definition split (sep s : pystr) : list pystr := split_go sep s 0 [].

(** [sep.join(parts)] *)
Fixpoint join (sep : pystr) (parts : list pystr) : pystr :=
  match parts with
  | [] => []
  | [p] => p
  | p :: rest => p ++ sep ++ join sep rest
  end.

(** One attempt: what [run_code] and the reading of its result give. *)
Inductive AttemptOutcome : Type :=
| Completed (stdout stderr : pystr) (execution_time : Q)
    (* the result came back; an output that is [None] counts as empty *)
| RaisedTimeout
    (* [requests.exceptions.Timeout] *)
| RaisedException (str_e : pystr).
    (* any other exception; [str_e] is [str(e)] *)

(** What [call] returns and how many times it ran the code. *)
Record CallTrace : Type := {
  returned : pystr;
  attempts : nat
}.

(** [params.split('<code>')[1].split('</code')[0]]: an object that is no
    string has no [split], a string without the tag has no item [1]. *)
Definition extract_code (params : PyValue) : PyResult pystr :=
  match params with
  | VStr s =>
      match split (py "<code>") s with
      | _ :: part :: _ =>
          match split (py "</code") part with
          | first :: _ => Return first
          | [] => Raise {| exn_class := OtherException;
                           exn_str := py "list index out of range" |}
          end
      | _ => Raise {| exn_class := OtherException;
                      exn_str := py "list index out of range" |}
      end
  | _ => Raise {| exn_class := OtherException;
                  exn_str := py "object has no attribute 'split'" |}
  end.

(** Vocabulary of the statements: [piece] is [s] cut at its first [sep],
    or all of [s] when [sep] does not occur in it. *)
Definition up_to (sep s piece : pystr) : Prop :=
  (exists more, s = piece ++ sep ++ more
                /\ Spec.first_at sep s (List.length piece) = true)
  \/ (contains sep s = false /\ piece = s).

Section Call.

(** [timeout], 50 unless the caller says otherwise. *)
Variable timeout : Q.
(** [random.choice(SANDBOX_FUSION_ENDPOINTS)] in the attempt numbered
    [attempt]. *)
Variable random_choice : nat -> pystr.
(** The outcome of the attempt numbered [attempt] for a code and an
    endpoint. *)
Variable run_code : nat -> pystr -> pystr -> AttemptOutcome.

(** What a completed attempt returns. *)
Definition format_result (stdout stderr : pystr) (execution_time : Q)
    : pystr :=
  let result :=
    (if nonempty stdout then [py "stdout:" ++ nl ++ stdout] else [])
    ++ (if nonempty stderr then [py "stderr:" ++ nl ++ stderr] else [])
    ++ (if Qle_bool (timeout - 1) execution_time
        then [py "[PythonInterpreter Error] TimeoutError: Execution timed out."]
        else []) in
  let joined := join nl result in
  if nonempty (strip joined) then joined else py "Finished execution.".

Definition timeout_error (endpoint : pystr) : pystr :=
  py "[Python Interpreter Error] TimeoutError: Execution timed out on endpoint "
  ++ endpoint ++ py ".".

Definition exception_error (str_e endpoint : pystr) : pystr :=
  py "[Python Interpreter Error]: " ++ str_e ++ py " on endpoint "
  ++ endpoint.

(** [for attempt in range(8)], from the iteration [attempt] with
    [remaining] iterations left. *)
Fixpoint attempt_loop (remaining attempt : nat) (last_error : option pystr)
    (code : pystr) : CallTrace :=
  match remaining with
  | O =>
      {| returned :=
           match last_error with
           | Some e =>
               if nonempty e then e
               else py "[Python Interpreter Error]: All attempts failed."
           | None => py "[Python Interpreter Error]: All attempts failed."
           end;
         attempts := attempt |}
  | S remaining' =>
      let endpoint := random_choice attempt in
      match run_code attempt code endpoint with
      | Completed stdout stderr execution_time =>
          {| returned := format_result stdout stderr execution_time;
             attempts := S attempt |}
      | RaisedTimeout =>
          let last_error' := timeout_error endpoint in
          if Nat.eqb attempt 4
          then {| returned := last_error'; attempts := S attempt |}
          else attempt_loop remaining' (S attempt) (Some last_error') code
      | RaisedException str_e =>
          let last_error' := exception_error str_e endpoint in
          if Nat.eqb attempt 4
          then {| returned := last_error'; attempts := S attempt |}
          else attempt_loop remaining' (S attempt) (Some last_error') code
      end
  end.

Definition call (params : PyValue) : CallTrace :=
  match extract_code params with
  | Raise _ =>
      {| returned := py "[Python Interpreter Error]: format error.";
         attempts := 0 |}
  | Return code =>
      if negb (nonempty (strip code))
      then {| returned := py "[Python Interpreter Error]: Empty code.";
              attempts := 0 |}
      else attempt_loop 8 0 None code
  end.

End Call.

End PythonTool.

(** * [backend-qwen/llm/oai.py]: [convert_messages_to_dicts] *)

Module QwenDicts.
Import Api.

(** [s.replace(old, new)] for an [old] that is not empty: the occurrences of
    [old] are replaced from left to right, without overlap. [skip] counts
    the characters of an occurrence still to be passed over. *)
Fixpoint replace_go (old new s : pystr) (skip : nat) : pystr :=
  match s with
  | [] => []
  | c :: s' =>
      match skip with
      | S skip' => replace_go old new s' skip'
      | O =>
          if startswith s old
          then new ++ replace_go old new s' (List.length old - 1)
          else c :: replace_go old new s' 0
      end
  end.

Definition replace (s old new : pystr) : pystr := replace_go old new s 0.

(** The two literals of the replacement. *)
Definition THINK_TWICE : pystr := py "<think>" ++ nl ++ py "<think>" ++ nl.
Definition THINK_ONCE : pystr := py "<think>" ++ nl ++ nl.

Section Convert.

(** The module constant [SYSTEM_PROMPT] and the value of
    [str(today_date())]. *)
Variable SYSTEM_PROMPT : pystr.
Variable today_date : pystr.

(** The body of the loop: a content that is no string has no [replace]. A
    dumped message is kept as a message with the same fields. *)
Definition clean (i : QwenMessage) : PyResult QwenMessage :=
  match q_content i with
  | CStr s =>
      Return {| q_role := q_role i;
                q_content := CStr (replace s THINK_TWICE THINK_ONCE);
                q_name := q_name i |}
  | CList _ =>
      Raise {| exn_class := OtherException;
               exn_str := py "'list' object has no attribute 'replace'" |}
  end.

Fixpoint clean_all (messages : list QwenMessage)
    (return_messages : list QwenMessage) : PyResult (list QwenMessage) :=
  match messages with
  | [] => Return return_messages
  | i :: rest =>
      cleaned <- clean i ;;
      clean_all rest (return_messages ++ [cleaned])
  end.

Definition convert_messages_to_dicts (messages : list QwenMessage)
    : PyResult (list QwenMessage) :=
  match messages with
  | [] => Raise {| exn_class := OtherException;
                   exn_str := py "list index out of range" |}
  | first :: rest =>
      clean_all
        ({| q_role := q_role first;
            q_content :=
              CStr (SYSTEM_PROMPT ++ py "Current date: " ++ today_date);
            q_name := q_name first |} :: rest)
        []
  end.

End Convert.

End QwenDicts.

(** * [backend-qwen/llm/oai.py]: [_chat_stream] as a whole *)

Module TextChatAtOAI.
Import Api.

Section ChatStream.

Variable SYSTEM_PROMPT : pystr.
Variable today_date : pystr.
Variable ASSISTANT : pystr.
Variable json_loads : pystr -> PyResult PyValue.
Variable json_dumps : PyValue -> pystr.
(** The outcome of the provider call made in iteration [attempt] for the
    dicts sent. *)
Variable chat_complete_create :
  list QwenMessage -> nat -> Retry.CreateOutcome Stream.Response.
Variable random_uniform_0_1 : nat -> Q.

(** The generator: the messages are turned into dicts before the [try], the
    response is obtained by the retry loop, and its chunks are walked
    through. A [ModelServiceError] of the retry loop is no [OpenAIError]
    and passes the outer handler; a loop that ran out would leave
    [response] as [None]. *)
Definition _chat_stream (messages : list QwenMessage) (delta_stream : bool)
    : Stream.Trace :=
  match QwenDicts.convert_messages_to_dicts SYSTEM_PROMPT today_date messages
  with
  | Raise e =>
      {| Stream.yielded := []; Stream.ending := Stream.ExceptionRaised e |}
  | Return dicts =>
      match Retry.exit (Retry._chat_stream (chat_complete_create dicts)
                                           random_uniform_0_1) with
      | Retry.Got response =>
          Stream.stream_response ASSISTANT json_loads json_dumps
                                 delta_stream response
      | Retry.ModelServiceError ex =>
          {| Stream.yielded := [];
             Stream.ending := Stream.ModelServiceErrorRaised ex |}
      | Retry.Propagated e =>
          {| Stream.yielded := []; Stream.ending := Stream.ExceptionRaised e |}
      | Retry.Exhausted =>
          {| Stream.yielded := [];
             Stream.ending :=
               Stream.ExceptionRaised
                 {| exn_class := TypeError;
                    exn_str := py "'NoneType' object is not iterable" |} |}
      end
  end.

End ChatStream.

End TextChatAtOAI.

(** * [backend/llm/ollama_client.py]: the Ollama client *)

Module OllamaClient.

(** A message as [invoke] reads it. *)
Record InputMessage : Type := {
  class_str : pystr;      (* [str(message.__class__)] *)
  im_content : pystr      (* [message.content] *)
}.

(** [str(SystemMessage)] for the class of [langchain_core]. *)
Definition SYSTEM_MESSAGE_CLASS : pystr :=
  py "<class 'langchain_core.messages.system.SystemMessage'>".

(** An element of the list given to [bind_tools]: an object with both a
    [name] and a [description] attribute, or anything else; a [dict], such
    as a tool definition, has neither attribute. *)
Inductive ToolLike : Type :=
| Described (name description : PyValue) (parameters : PyValue)
    (* [parameters] is [tool.args_schema.schema()], or [{}] *)
| ToolDefinition (tool_def : PyValue)
    (* a dict built by [bind_tools] *)
| Undescribed.

(** How a call of [bind_tools] ends: it returns the client itself, after
    [calls] calls in all, or the nesting exceeds the recursion limit. *)
Inductive BindOutcome : Type :=
| ReturnsSelf (calls : nat)
| RecursionError.

Definition tool_definition (name description parameters : PyValue)
    : PyValue :=
  VDict [(py "type", VStr (py "function"));
         (py "function",
          VDict [(py "name", name); (py "description", description);
                 (py "parameters", parameters)])].

(** The loop that builds [tool_definitions]. *)
Definition tool_definitions (tools : list ToolLike) : list ToolLike :=
  flat_map (fun tool =>
              match tool with
              | Described name description parameters =>
                  [ToolDefinition (tool_definition name description parameters)]
              | _ => []
              end)
           tools.

(** [bind_tools], which calls itself on the definitions it has built;
    [depth] bounds the nesting and [calls] counts the calls made before. *)
Fixpoint bind_tools (depth calls : nat) (tools : list ToolLike)
    : BindOutcome :=
  match depth with
  | O => RecursionError
  | S depth' =>
      match tool_definitions tools with
      | [] => ReturnsSelf (S calls)
      | d :: ds => bind_tools depth' (S calls) (d :: ds)
      end
  end.

Section Invoke.

(** [self._system_prompt] *)
Variable system_prompt : pystr.

(** [f"{self._system_prompt}\n\nCurrent date: {current_date}"] *)
Definition system_content (current_date : pystr) : pystr :=
  system_prompt ++ nl ++ nl ++ py "Current date: " ++ current_date.

(** The list [input] as [invoke] leaves it before it calls the parent class;
    both branches change the caller's list in place. [current_date] is the
    date at the moment of the call. *)
Definition preprocess (current_date : pystr) (input : list InputMessage)
    : list InputMessage :=
  match input with
  | [] => []
  | first :: rest =>
      if contains (py "SystemMessage") (class_str first)
      then {| class_str := class_str first;
              im_content :=
                system_content current_date ++ nl ++ nl ++ im_content first |}
           :: rest
      else {| class_str := SYSTEM_MESSAGE_CLASS;
              im_content := system_content current_date |}
           :: first :: rest
  end.

(** The list after the calls numbered [0] to [n - 1] were made with it. *)
Fixpoint preprocess_times (current_date : nat -> pystr) (n : nat)
    (input : list InputMessage) : list InputMessage :=
  match n with
  | O => input
  | S n' =>
      preprocess (current_date n') (preprocess_times current_date n' input)
  end.

End Invoke.

End OllamaClient.

(** * [backend-qwen/api/documents.py]: document generation *)

Module QwenDocuments.
Import Api ApiRun.

(** [api/models.py]: [class DocumentGenerationRequest(BaseModel)], with the
    fields the endpoint reads; [answers] holds the items of the dict in
    their order. *)
Record DocumentGenerationRequest : Type := {
  template_id : pystr;
  task : pystr;
  answers : list (pystr * pystr)
}.

(** The query built from the request. *)
Definition document_query (request : DocumentGenerationRequest) : pystr :=
  let query0 :=
    py "Generate a comprehensive document based on the following requirements:"
    ++ nl ++ nl ++ py "Template: " ++ template_id request ++ nl
    ++ py "Task: " ++ task request ++ nl ++ nl
    ++ py "Clarification Answers:" ++ nl in
  let query1 :=
    fold_left (fun query kv =>
                 query ++ py "- " ++ fst kv ++ py ": " ++ snd kv ++ nl)
              (answers request) query0 in
  query1 ++ nl ++ nl
  ++ py "Please conduct thorough research and generate a high-quality document that follows the template format and addresses all requirements. Include relevant data, analysis, and insights.".

(** [msg.type == MessageType.AGENT and not msg.toolName and
    len(msg.content) > 100] *)
Definition is_long_answer (msg : Message) : bool :=
  is_agent_type (msg_type msg) && negb (opt_truthy (toolName msg))
  && (len (content msg) >? 100)%Z.

(** The loop that picks the final answer and stops at the first hit. *)
Fixpoint first_long_answer (all_messages : list Message) : option pystr :=
  match all_messages with
  | [] => None
  | msg :: rest =>
      if is_long_answer msg then Some (content msg)
      else first_long_answer rest
  end.

Section Endpoint.

(** The role constants imported from [qwen_agent.llm.schema]. *)
Variables SYSTEM USER : pystr.
(** [hash_str content] is the text of [hash(content)] in this process. *)
Variable hash_str : pystr -> pystr.
Variable research_agent_run : list QwenMessage -> AgentRun.

(** [role_map.get(role, MessageType.AGENT)] on the dict literal of this
    module, in which a later key replaces an equal earlier one. *)
Definition type_of_role (r : pystr) : MessageType :=
  if PyStr.eqb r (py "function") then TOOL_T
  else if PyStr.eqb r (py "assistant") then AGENT_T
  else if PyStr.eqb r USER then USER_T
  else if PyStr.eqb r SYSTEM then SYSTEM_T
  else AGENT_T.

(** The loop over a list-valued content: the text of an item that has one,
    [str(item)] for any other. *)
Fixpoint join_text (items : list ContentItem) (acc : pystr)
    : PyResult pystr :=
  match items with
  | [] => Return acc
  | item :: rest =>
      acc' <- match item with
              | ItemWithText text => str_iadd acc text
              | ItemDict _ str_item => Return (acc ++ str_item)
              | ItemOther str_item => Return (acc ++ str_item)
              end ;;
      join_text rest acc'
  end.

(** The converter of this module, which differs from the one of
    [research.py]. *)
Definition convert_qwen_message_to_api (qwen_message : QwenMessage)
    (session_id0 : pystr) : PyResult Message :=
  let message_type := type_of_role (q_role qwen_message) in
  content0 <- match q_content qwen_message with
              | CStr s => Return s
              | CList items => join_text items []
              end ;;
  Return {| id := py "msg_" ++ session_id0 ++ py "_" ++ hash_str content0;
            msg_type := message_type;
            content := content0;
            agent := Some (py "qwen-agent");
            toolName := None;
            result := None;
            role := None;
            tool_calls := None;
            sources := None |}.

Fixpoint convert_batch (response_batch : list QwenMessage)
    (session_id0 : pystr) (all_messages : list Message)
    : PyResult (list Message) :=
  match response_batch with
  | [] => Return all_messages
  | qwen_msg :: rest =>
      api_msg <- convert_qwen_message_to_api qwen_msg session_id0 ;;
      convert_batch rest session_id0 (all_messages ++ [api_msg])
  end.

Fixpoint collect (bs : list (list QwenMessage)) (failure0 : option Exn)
    (session_id0 : pystr) (all_messages : list Message)
    : PyResult (list Message) :=
  match bs with
  | [] =>
      match failure0 with
      | Some e => Raise e
      | None => Return all_messages
      end
  | response_batch :: rest =>
      all_messages' <- convert_batch response_batch session_id0 all_messages ;;
      collect rest failure0 session_id0 all_messages'
  end.

Definition generate_document (request : DocumentGenerationRequest)
    (session_id0 : pystr) : EndpointResult :=
  let qwen_messages :=
    [{| q_role := USER; q_content := CStr (document_query request);
        q_name := None |}] in
  let run := research_agent_run qwen_messages in
  match collect (batches run) (failure run) session_id0 [] with
  | Raise e => HTTPException 500 (exn_str e)
  | Return all_messages =>
      Responded {| success := true;
                   final_answer := first_long_answer all_messages;
                   messages := all_messages;
                   tools_used := REPORTED_TOOLS;
                   iterations := 1;
                   is_complete := true;
                   session_id := session_id0 |}
  end.

End Endpoint.

End QwenDocuments.

(** * Sample data for the streaming and endpoint properties *)

Module Scenarios.

Definition text_chunk (s : string) : Stream.Chunk :=
  {| Stream.choices :=
       [{| Stream.delta :=
             {| Stream.content := Some (py s);
                Stream.reasoning_content := None;
                Stream.reasoning := None;
                Stream.tool_calls := [] |} |}] |}.

Definition thought_chunk (s : string) : Stream.Chunk :=
  {| Stream.choices :=
       [{| Stream.delta :=
             {| Stream.content := None;
                Stream.reasoning_content := Some (py s);
                Stream.reasoning := Some (py s);
                Stream.tool_calls := [] |} |}] |}.

Definition call_chunk (tool arguments : string) : Stream.Chunk :=
  {| Stream.choices :=
       [{| Stream.delta :=
             {| Stream.content := None;
                Stream.reasoning_content := None;
                Stream.reasoning := None;
                Stream.tool_calls :=
                  [{| Stream.fn_name := VStr (py tool);
                      Stream.fn_arguments := py arguments |}] |} |}] |}.

Definition keep_alive : Stream.Chunk := {| Stream.choices := [] |}.

(** A response that thinks, says a line, calls a tool and says a word. *)
Definition sample_response : Stream.Response :=
  {| Stream.chunks :=
       [keep_alive; thought_chunk "The user wants news.";
        text_chunk "Let me look."; call_chunk "search" "[1, 2]";
        text_chunk "Done"];
     Stream.stream_end := Stream.EndOfStream |}.

Definition sample_dumps (_ : PyValue) : pystr := py "{...}".

(** The prompt of a model client and a clock that stands still. *)
Definition client_prompt : pystr := py "You are a deep research assistant.".

Definition today (_ : nat) : pystr := py "2025-01-01".

(** A sandbox that times out twice and then prints a line, reached through
    a single endpoint. *)
Definition flaky_sandbox (attempt : nat) (_ _ : pystr)
    : PythonTool.AttemptOutcome :=
  if Nat.ltb attempt 2 then PythonTool.RaisedTimeout
  else PythonTool.Completed (py "1" ++ nl) [] (1 # 10)%Q.

Definition one_endpoint (_ : nat) : pystr := py "http://sandbox".

Definition sandbox_params : PyValue :=
  VStr (py "{} <code>print(1)</code>").

(** A tool output that is a JSON object and holds an address. *)
Definition json_object_with_address : pystr :=
  py "{" ++ dq ++ py "see" ++ dq ++ py ": " ++ dq ++ py "http://a.com" ++ dq
  ++ py "}".

(** A list with a single request, as a caller of the Ollama client holds
    it. *)
Definition ollama_input : list OllamaClient.InputMessage :=
  [{| OllamaClient.class_str :=
        py "<class 'langchain_core.messages.human.HumanMessage'>";
      OllamaClient.im_content := py "what is new?" |}].

End Scenarios.

Unset Implicit Arguments.

(* ================================================================== *)
(** * Properties of the string operations *)
(* ================================================================== *)
Module PyStrFacts.
Import Spec.

Lemma eqb_eq (a b : pystr) : PyStr.eqb a b = true <-> a = b.
Proof.
  revert b; induction a as [|x a IH]; intros [|y b]; simpl;
    try (split; [discriminate|discriminate]); [tauto|].
  rewrite andb_true_iff, N.eqb_eq, IH.
  split; [intros [-> ->]; reflexivity|intros H; inversion H; auto].
Qed.

Lemma eqb_refl (a : pystr) : PyStr.eqb a a = true.
Proof. now apply eqb_eq. Qed.

Lemma eqb_neq (a b : pystr) : a <> b -> PyStr.eqb a b = false.
Proof.
  intros H. destruct (PyStr.eqb a b) eqn:E; [|reflexivity].
  now apply eqb_eq in E.
Qed.

Lemma startswith_app (sub rest : pystr) : startswith (sub ++ rest) sub = true.
Proof.
  induction sub as [|x sub IH]; simpl; [reflexivity|].
  now rewrite N.eqb_refl, IH.
Qed.

Lemma startswith_inv (sub s : pystr) :
  startswith s sub = true -> exists rest, s = sub ++ rest.
Proof.
  revert s; induction sub as [|x sub IH]; intros s H.
  - now exists s.
  - destruct s as [|c s]; simpl in H; [discriminate|].
    apply andb_true_iff in H as [Hx Hs].
    apply N.eqb_eq in Hx; subst c.
    destruct (IH _ Hs) as [rest ->].
    now exists rest.
Qed.

Lemma first_at_app (sub pre rest : pystr) :
  first_at sub (pre ++ rest) (List.length pre) = true ->
  startswith rest sub = true.
Proof.
  induction pre as [|c pre IH]; intros H.
  - exact H.
  - cbn [List.length first_at app] in H.
    apply andb_true_iff in H as [_ H]; auto.
Qed.

(** [find] returns the index of the first occurrence. *)
Lemma find_from_first_at (sub : pystr) (n : nat) :
  forall (s : pystr) (i : Z),
    first_at sub s n = true -> find_from i s sub = (i + Z.of_nat n)%Z.
Proof.
  induction n as [|n IH]; intros s i H.
  - simpl in H. destruct s; simpl; rewrite H; lia.
  - cbn [first_at] in H. apply andb_true_iff in H as [Hno Hrest].
    apply negb_true_iff in Hno.
    destruct s as [|c s]; [discriminate|].
    cbn [find_from]. rewrite Hno, (IH _ _ Hrest). lia.
Qed.

Lemma find_first_at (sub s : pystr) (n : nat) :
  first_at sub s n = true -> find s sub = Z.of_nat n.
Proof. intros H; unfold find; now rewrite (find_from_first_at _ _ _ 0%Z H). Qed.

(** Conversely, a non-negative result of [find] is a first occurrence. *)
Lemma find_from_nonneg (sub s : pystr) :
  forall i r, (0 <= i)%Z -> find_from i s sub = r -> (0 <= r)%Z ->
    first_at sub s (Z.to_nat (r - i)) = true /\ (i <= r)%Z.
Proof.
  induction s as [|c s IH]; intros i r Hi Hf Hr.
  - cbn [find_from] in Hf. destruct (startswith [] sub) eqn:E.
    + subst r. now rewrite Z.sub_diag.
    + lia.
  - cbn [find_from] in Hf. destruct (startswith (c :: s) sub) eqn:E.
    + subst r. now rewrite Z.sub_diag.
    + destruct (IH (i + 1)%Z r ltac:(lia) Hf Hr) as [H1 H2].
      split; [|lia].
      replace (Z.to_nat (r - i)) with (S (Z.to_nat (r - (i + 1)))) by lia.
      cbn [first_at]. now rewrite E, H1.
Qed.

Lemma first_at_contains (sub : pystr) (n : nat) :
  forall s, first_at sub s n = true -> contains sub s = true.
Proof.
  induction n as [|n IH]; intros s H.
  - simpl in H. destruct s; simpl; now rewrite H.
  - cbn [first_at] in H. apply andb_true_iff in H as [_ H].
    destruct s as [|c s]; [discriminate|].
    cbn [contains]. rewrite (IH _ H). apply orb_true_r.
Qed.

Lemma slice_middle (pre mid post : pystr) :
  slice (pre ++ mid ++ post) (len pre) (len pre + len mid) = mid.
Proof.
  unfold slice, clamp, len.
  rewrite !length_app.
  assert (H1 : (Z.of_nat (List.length pre) <? 0)%Z = false)
    by (apply Z.ltb_ge; lia).
  assert (H2 : (Z.of_nat (List.length pre) + Z.of_nat (List.length mid) <? 0)%Z
               = false) by (apply Z.ltb_ge; lia).
  rewrite H1, H2.
  rewrite !Z.min_l by lia.
  rewrite Nat2Z.id.
  replace (Z.to_nat _) with (List.length mid) by lia.
  rewrite skipn_app, skipn_all, Nat.sub_diag. simpl.
  rewrite firstn_app, firstn_all, Nat.sub_diag. simpl.
  apply app_nil_r.
Qed.

Lemma len_app (a b : pystr) : len (a ++ b) = (len a + len b)%Z.
Proof. unfold len; rewrite length_app; lia. Qed.

Lemma geb_false_of_lt (a b : Z) : (a < b)%Z -> (a >=? b)%Z = false.
Proof. intros H. rewrite Z.geb_leb. apply Z.leb_gt. exact H. Qed.

End PyStrFacts.

(* ================================================================== *)
(** * Properties of the orchestration state machine *)
(* ================================================================== *)
Module AgentProps.
Import Agent Spec PyStrFacts.

Section Session.

Variable max_llm_calls : Z.
Variable reasoning : bool.
Variable client : Client.
Variable current_date : Z -> pystr.
Variable llm : list BaseMessage -> PyResult BaseMessage.
Variable system_prompt : pystr.
Variable tools : list BaseTool.
Variable recursion_limit : nat.

Local Notation "'reason'" :=
  (researcher_reason max_llm_calls reasoning client current_date llm).
Local Notation "'dispatch'" := (tool_executor_execute tools).
Local Notation "'gstep'" :=
  (graph_step max_llm_calls reasoning client current_date llm system_prompt
              tools).
Local Notation "'gsteps'" :=
  (steps max_llm_calls reasoning client current_date llm system_prompt tools).
Local Notation "'grun'" :=
  (run max_llm_calls reasoning client current_date llm system_prompt tools).
Local Notation "'start'" := (initial_state max_llm_calls).
(** The log of a state as the model call of its reasoning step leaves it. *)
Local Notation "'after_call' s" :=
  (messages_after_invoke reasoning client (current_date (iteration_count s))
                         (messages s))
  (at level 10, s at level 9).

(** ** The reasoning step, case by case *)

Lemma reason_budget_exhausted (s : ResearchState) :
  (max_llm_calls <= iteration_count s)%Z ->
  reason s =
  {| messages := messages s; current_task := current_task s;
     tools_used := tools_used s; iteration_count := iteration_count s;
     max_iterations := max_iterations s;
     final_answer := Some iteration_limit_notice;
     is_complete := true; session_id := session_id s |}.
Proof.
  intros H. unfold researcher_reason.
  now rewrite (proj2 (Z.geb_le _ _) H).
Qed.

Lemma reason_model_raised (s : ResearchState) (e : Exn) :
  (iteration_count s < max_llm_calls)%Z ->
  llm (current_messages reasoning (messages s)) = Raise e ->
  reason s =
  {| messages := after_call s; current_task := current_task s;
     tools_used := tools_used s; iteration_count := iteration_count s;
     max_iterations := max_iterations s;
     final_answer := Some (py "Research failed due to error: " ++ exn_str e);
     is_complete := true; session_id := session_id s |}.
Proof.
  intros Hlt Hllm. unfold researcher_reason.
  now rewrite (geb_false_of_lt _ _ Hlt), Hllm.
Qed.

Lemma reason_final_answer (s : ResearchState) (response : BaseMessage) :
  (iteration_count s < max_llm_calls)%Z ->
  llm (current_messages reasoning (messages s)) = Return response ->
  contains OPEN_TAG (content response) = true ->
  contains CLOSE_TAG (content response) = true ->
  reason s =
  {| messages := after_call s ++ [response]; current_task := current_task s;
     tools_used := tools_used s;
     iteration_count := (iteration_count s + 1)%Z;
     max_iterations := max_iterations s;
     final_answer := Some (extract_final_answer (content response));
     is_complete := true; session_id := session_id s |}.
Proof.
  intros Hlt Hllm Ho Hc. unfold researcher_reason.
  now rewrite (geb_false_of_lt _ _ Hlt), Hllm, Ho, Hc.
Qed.

Lemma reason_no_final_answer (s : ResearchState) (response : BaseMessage) :
  (iteration_count s < max_llm_calls)%Z ->
  llm (current_messages reasoning (messages s)) = Return response ->
  contains OPEN_TAG (content response) && contains CLOSE_TAG (content response)
    = false ->
  reason s =
  {| messages := after_call s ++ [response]; current_task := current_task s;
     tools_used := tools_used s;
     iteration_count := (iteration_count s + 1)%Z;
     max_iterations := max_iterations s;
     final_answer := final_answer s;
     is_complete := is_complete s; session_id := session_id s |}.
Proof.
  intros Hlt Hllm Hno. unfold researcher_reason.
  now rewrite (geb_false_of_lt _ _ Hlt), Hllm, Hno.
Qed.

(** The four cases are all there are. *)
Lemma reason_cases (s : ResearchState) :
  (reason s).(is_complete) = true /\
    ((reason s).(iteration_count) = iteration_count s
     \/ ((iteration_count s < max_llm_calls)%Z
         /\ (reason s).(iteration_count) = (iteration_count s + 1)%Z))
  \/ ((iteration_count s < max_llm_calls)%Z
      /\ (reason s).(iteration_count) = (iteration_count s + 1)%Z
      /\ (reason s).(is_complete) = is_complete s).
Proof.
  destruct (Z.le_gt_cases max_llm_calls (iteration_count s)) as [Hge|Hlt].
  - left. rewrite (reason_budget_exhausted _ Hge). simpl. auto.
  - destruct (llm (current_messages reasoning (messages s))) as [r|e] eqn:E.
    + destruct (contains OPEN_TAG (content r) && contains CLOSE_TAG (content r))
        eqn:T.
      * apply andb_true_iff in T as [To Tc].
        left. rewrite (reason_final_answer _ _ Hlt E To Tc). simpl. auto.
      * right. rewrite (reason_no_final_answer _ _ Hlt E T). simpl. auto.
    + left. rewrite (reason_model_raised _ _ Hlt E). simpl. auto.
Qed.

Lemma reason_frame (s : ResearchState) :
  (reason s).(max_iterations) = max_iterations s.
Proof.
  unfold researcher_reason.
  destruct (iteration_count s >=? max_llm_calls)%Z; [reflexivity|].
  destruct (llm _); [|reflexivity].
  now destruct (contains OPEN_TAG _ && contains CLOSE_TAG _).
Qed.

Lemma reason_keeps_complete (s : ResearchState) :
  is_complete s = true -> (reason s).(is_complete) = true.
Proof.
  intros H. destruct (reason_cases s) as [[Hc _]|(_ & _ & Hc)]; congruence.
Qed.

(** ** The tool-dispatch step *)

(** A call that carries both keys leaves a message; one that lacks a key
    raises [KeyError]. *)
Lemma run_tool_call_keys (tc : ToolCall) :
  (tc_name tc <> None /\ tc_arguments tc <> None ->
   exists result, run_tool_call tools tc = Return result)
  /\ (tc_name tc = None \/ tc_arguments tc = None ->
      exists e,
        run_tool_call tools tc = Raise e
        /\ exn_class e = KeyError
        /\ exn_str e = match tc_name tc with
                       | None => py "'name'"
                       | Some _ => py "'arguments'"
                       end).
Proof.
  unfold run_tool_call.
  destruct (tc_name tc) as [n|], (tc_arguments tc) as [a|]; cbn [getitem bind];
    (split; [intros [Hn Ha]|intros [H|H]]); try congruence;
    try (eexists; repeat split; reflexivity).
  destruct (get_tool_by_name tools n) as [tool|];
    [destruct (execute tool a)|]; eexists; reflexivity.
Qed.

(** The loop returns exactly when every call does, and then it has appended
    the results of the calls in their order. *)
Lemma run_tool_calls_return (calls : list ToolCall) :
  forall acc r,
    run_tool_calls tools calls acc = Return r ->
    exists results,
      Forall2 (fun tc result => run_tool_call tools tc = Return result)
              calls results
      /\ r = (fst acc ++ map fst results, snd acc ++ flat_map snd results).
Proof.
  induction calls as [|tc calls IH]; intros [ms used] r H; cbn in H.
  - inversion H; subst. exists []. split; [constructor|].
    cbn. now rewrite !app_nil_r.
  - destruct (run_tool_call tools tc) as [res|e] eqn:E; cbn in H;
      [|discriminate].
    destruct (IH _ _ H) as (results & Hall & ->).
    exists (res :: results). split; [now constructor|].
    cbn. now rewrite <- !app_assoc.
Qed.

Lemma run_tool_calls_all (calls : list ToolCall) :
  forall results acc,
    Forall2 (fun tc result => run_tool_call tools tc = Return result)
            calls results ->
    run_tool_calls tools calls acc
    = Return (fst acc ++ map fst results, snd acc ++ flat_map snd results).
Proof.
  induction calls as [|tc calls IH]; intros results [ms used] H;
    inversion H as [|? res ? results' Hres Hrest]; subst; cbn.
  - now rewrite !app_nil_r.
  - rewrite Hres. cbn [bind]. rewrite (IH _ _ Hrest). cbn.
    now rewrite <- !app_assoc.
Qed.


Lemma results_of_well_formed (calls : list ToolCall) :
  Forall (fun tc => tc_name tc <> None /\ tc_arguments tc <> None) calls ->
  exists results,
    Forall2 (fun tc result => run_tool_call tools tc = Return result)
            calls results.
Proof.
  induction 1 as [|tc calls Htc _ [results IH]].
  - exists []. constructor.
  - destruct (proj1 (run_tool_call_keys tc) Htc) as [res Hres].
    exists (res :: results). now constructor.
Qed.

Lemma dispatch_frame (s s' : ResearchState) :
  dispatch s = Return s' ->
  iteration_count s' = iteration_count s
  /\ max_iterations s' = max_iterations s
  /\ is_complete s' = is_complete s
  /\ final_answer s' = final_answer s
  /\ current_task s' = current_task s
  /\ session_id s' = session_id s.
Proof.
  unfold tool_executor_execute.
  destruct (last_message (messages s)) as [last|];
    [|intros H; inversion H; subst; repeat split; reflexivity].
  destruct (negb (is_ai last));
    [intros H; inversion H; subst; repeat split; reflexivity|].
  destruct (tool_calls last) as [|tc calls];
    [intros H; inversion H; subst; repeat split; reflexivity|].
  destruct (run_tool_calls tools (tc :: calls) _) as [r|e]; cbn [bind];
    intros H; inversion H; subst.
  repeat split; reflexivity.
Qed.

(** The dispatch step on a turn with tool calls, in terms of the loop. *)
Lemma dispatch_turn (s : ResearchState) (last : BaseMessage) :
  last_message (messages s) = Some last ->
  is_ai last = true ->
  tool_calls last <> [] ->
  dispatch s
  = (r <- run_tool_calls tools (tool_calls last)
                         (messages s, tools_used s) ;;
     Return {| messages := fst r;
               current_task := current_task s;
               tools_used := snd r;
               iteration_count := iteration_count s;
               max_iterations := max_iterations s;
               final_answer := final_answer s;
               is_complete := is_complete s;
               session_id := session_id s |}).
Proof.
  intros Hlast Hai Hcalls. unfold tool_executor_execute.
  rewrite Hlast, Hai. cbn [negb].
  destruct (tool_calls last) as [|tc calls]; [contradiction|reflexivity].
Qed.

(** ** Sessions *)

Lemma steps_add (k j : nat) :
  forall cfg,
    gsteps (k + j) cfg =
    match gsteps k cfg with
    | Some cfg' => gsteps j cfg'
    | None => None
    end.
Proof.
  induction k as [|k IH]; intros cfg; simpl; [reflexivity|].
  destruct (gstep cfg) as [[cfg1|e]|]; [apply IH|reflexivity|reflexivity].
Qed.

Lemma steps_from_END (j : nat) (s : ResearchState) :
  gsteps (S j) (END, s) = None.
Proof. reflexivity. Qed.

Lemma steps_S (k : nat) (cfg cfg' : Node * ResearchState) :
  gsteps (S k) cfg = Some cfg' ->
  exists cfg1, gstep cfg = Some (Return cfg1) /\ gsteps k cfg1 = Some cfg'.
Proof.
  cbn [steps]. destruct (gstep cfg) as [[cfg1|e]|]; try discriminate.
  intros H. now exists cfg1.
Qed.

Lemma invariant_step (cfg cfg' : Node * ResearchState) :
  (0 <= max_llm_calls)%Z ->
  session_invariant max_llm_calls cfg ->
  gstep cfg = Some (Return cfg') ->
  session_invariant max_llm_calls cfg'.
Proof.
  intros Hmax Hinv Hstep. destruct cfg as [node s].
  destruct Hinv as (Hm & Hi & Hc).
  destruct node; cbn [graph_step] in Hstep.
  - (* researcher_initialize *)
    inversion Hstep; subst cfg'.
    simpl. repeat split; try lia; discriminate.
  - (* researcher_reason *)
    inversion Hstep; subst cfg'.
    unfold session_invariant.
    rewrite reason_frame.
    unfold workflow_controller_decide_next.
    destruct (reason_cases s) as [[Hd Hn]|(Hlt & Hn & Hd)].
    + rewrite Hd. simpl. repeat split; try assumption;
        destruct Hn as [Hn|[Hlt Hn]]; rewrite Hn; lia.
    + assert (Hf : is_complete s = false).
      { destruct (is_complete s); [|reflexivity].
        specialize (Hc eq_refl). discriminate. }
      rewrite Hn. repeat split; try assumption; try lia.
      rewrite Hd, Hf. discriminate.
  - (* tool_executor_execute *)
    destruct (dispatch s) as [s1|e] eqn:D; cbn [bind] in Hstep;
      inversion Hstep; subst cfg'.
    destruct (dispatch_frame s s1 D) as (Hi' & Hm' & Hc' & _).
    unfold session_invariant. rewrite Hi', Hm', Hc'.
    repeat split; try assumption; try lia.
    intros Ht. specialize (Hc Ht). discriminate.
  - discriminate.
Qed.

Lemma invariant_steps (k : nat) :
  forall cfg cfg',
    (0 <= max_llm_calls)%Z ->
    session_invariant max_llm_calls cfg ->
    gsteps k cfg = Some cfg' ->
    session_invariant max_llm_calls cfg'.
Proof.
  induction k as [|k IH]; intros cfg cfg' Hmax Hinv Hk.
  - simpl in Hk. now inversion Hk; subst.
  - destruct (steps_S _ _ _ Hk) as (cfg1 & E & Hk1).
    exact (IH _ _ Hmax (invariant_step _ _ Hmax Hinv E) Hk1).
Qed.

Lemma invariant_initially (query ci : pystr) (sid : option pystr) :
  (0 <= max_llm_calls)%Z ->
  session_invariant max_llm_calls (NodeInitialize, start query ci sid).
Proof. intros H. simpl. repeat split; try lia; discriminate. Qed.

(** Running the graph passes through the configurations [steps] lists. *)
Lemma run_after_steps (k : nat) :
  forall fuel cfg cfg',
    gsteps k cfg = Some cfg' ->
    grun (k + fuel) cfg = grun fuel cfg'.
Proof.
  induction k as [|k IH]; intros fuel cfg cfg' Hk.
  - simpl in Hk. now inversion Hk.
  - destruct (steps_S _ _ _ Hk) as (cfg1 & E & Hk1).
    simpl. rewrite E. cbn [bind]. now apply IH.
Qed.

(** ** The claims about the state machine *)

(** C1, as amended. In every session with a budget that is not negative the
    iteration count stays within [max_iterations]; the reasoning step changes
    the count only when its guard has not fired, and then by one; no step of
    the loop turns [is_complete] from true to false; and a configuration
    with [is_complete] set is the terminal one, after which the session has
    no further configuration, so the flag is raised at most once. *)
Theorem C1_iteration_bound_and_single_completion
    (query ci : pystr) (sid : option pystr) (k : nat)
    (node : Node) (s : ResearchState) :
  (0 <= max_llm_calls)%Z ->
  gsteps k (NodeInitialize, start query ci sid) = Some (node, s) ->
  (iteration_count s <= max_iterations s)%Z
  /\ (forall s0,
        iteration_count (reason s0) <> iteration_count s0 ->
        (iteration_count s0 < max_llm_calls)%Z
        /\ iteration_count (reason s0) = (iteration_count s0 + 1)%Z)
  /\ (forall s0,
        is_complete s0 = true ->
        is_complete (reason s0) = true
        /\ forall s1, dispatch s0 = Return s1 -> is_complete s1 = true)
  /\ (is_complete s = true ->
      node = END
      /\ forall j,
           gsteps (k + S j) (NodeInitialize, start query ci sid) = None).
Proof.
  intros Hmax Hk.
  pose proof (invariant_steps k _ _ Hmax
                (invariant_initially query ci sid Hmax) Hk) as (Hm & Hi & Hc).
  repeat split.
  - rewrite Hm. lia.
  - destruct (reason_cases s0) as [[_ [Hn|[Hlt _]]]|(Hlt & _ & _)];
      [contradiction|exact Hlt|exact Hlt].
  - destruct (reason_cases s0) as [[_ [Hn|[_ Hn]]]|(_ & Hn & _)];
      [contradiction|exact Hn|exact Hn].
  - now apply reason_keeps_complete.
  - intros s1 D. destruct (dispatch_frame s0 s1 D) as (_ & _ & Hd & _).
    congruence.
  - auto.
  - intros j. rewrite steps_add, Hk, (Hc H). reflexivity.
Qed.

(** C2, as amended. When the response holds the open tag, then at least one
    character, then the close tag, these being the first occurrences of the
    two tags, the reasoning step completes the session with the text between
    the tags, stripped, as the final answer, and the controller routes to the
    end whatever tool calls the response carries. *)
Theorem C2_final_answer_between_tags
    (s : ResearchState) (response : BaseMessage) (pre ans post : pystr) :
  (iteration_count s < max_llm_calls)%Z ->
  llm (current_messages reasoning (messages s)) = Return response ->
  content response = pre ++ OPEN_TAG ++ ans ++ CLOSE_TAG ++ post ->
  first_at OPEN_TAG (content response) (List.length pre) = true ->
  first_at CLOSE_TAG (content response)
           (List.length pre + List.length OPEN_TAG + List.length ans) = true ->
  ans <> [] ->
  is_complete (reason s) = true
  /\ final_answer (reason s) = Some (strip ans)
  /\ workflow_controller_decide_next (reason s) = RouteEnd
  /\ gstep (NodeReason, s) = Some (Return (END, reason s)).
Proof.
  intros Hlt Hllm Hshape Hopen Hclose Hans.
  pose proof (first_at_contains _ _ _ Hopen) as Co.
  pose proof (first_at_contains _ _ _ Hclose) as Cc.
  assert (Hr := reason_final_answer s response Hlt Hllm Co Cc).
  assert (Hfa : extract_final_answer (content response) = strip ans).
  { unfold extract_final_answer.
    rewrite (find_first_at _ _ _ Hopen), (find_first_at _ _ _ Hclose).
    assert (Hgt : (Z.of_nat (List.length pre + List.length OPEN_TAG
                             + List.length ans)
                   >? Z.of_nat (List.length pre) + len OPEN_TAG)%Z = true).
    { apply Z.gtb_lt. unfold len.
      destruct ans; [contradiction|simpl List.length; lia]. }
    rewrite Hgt, Hshape.
    replace (pre ++ OPEN_TAG ++ ans ++ CLOSE_TAG ++ post)
      with ((pre ++ OPEN_TAG) ++ ans ++ (CLOSE_TAG ++ post))
      by now rewrite <- !app_assoc.
    replace (Z.of_nat (List.length pre) + len OPEN_TAG)%Z
      with (len (pre ++ OPEN_TAG)) by (rewrite len_app; reflexivity).
    replace (Z.of_nat (List.length pre + List.length OPEN_TAG
                       + List.length ans))
      with (len (pre ++ OPEN_TAG) + len ans)%Z
      by (unfold len; rewrite length_app; lia).
    now rewrite slice_middle. }
  assert (Hc : is_complete (reason s) = true) by now rewrite Hr.
  assert (Hd : workflow_controller_decide_next (reason s) = RouteEnd)
    by (unfold workflow_controller_decide_next; now rewrite Hc).
  repeat split.
  - exact Hc.
  - rewrite Hr. simpl. now rewrite Hfa.
  - exact Hd.
  - simpl. now rewrite Hd.
Qed.

(** C3, as amended. When the model call of a reasoning step raises, the step
    catches the exception and completes the session with a final answer that
    carries the failure text; the graph ends there and [research] returns
    normally, with [success] true, [is_complete] true and that final
    answer, and with the log as the call left it. *)
Theorem C3_model_failure_becomes_final_answer
    (query ci : pystr) (sid : option pystr) (k : nat)
    (s : ResearchState) (e : Exn) :
  gsteps k (NodeInitialize, start query ci sid) = Some (NodeReason, s) ->
  k < recursion_limit ->
  (iteration_count s < max_llm_calls)%Z ->
  llm (current_messages reasoning (messages s)) = Raise e ->
  is_complete (reason s) = true
  /\ final_answer (reason s)
     = Some (py "Research failed due to error: " ++ exn_str e)
  /\ gstep (NodeReason, s) = Some (Return (END, reason s))
  /\ research max_llm_calls reasoning client current_date llm system_prompt
              tools recursion_limit query ci sid
     = {| r_success := true;
          r_final_answer :=
            Some (py "Research failed due to error: " ++ exn_str e);
          r_error := None;
          r_messages := after_call s;
          r_tools_used := tools_used s;
          r_iterations := iteration_count s;
          r_is_complete := true;
          r_session_id := sid |}.
Proof.
  intros Hk Hfuel Hlt Hllm.
  assert (Hr := reason_model_raised s e Hlt Hllm).
  assert (Hstep : gstep (NodeReason, s) = Some (Return (END, reason s))).
  { simpl. unfold workflow_controller_decide_next. now rewrite Hr. }
  repeat split; try (rewrite Hr; reflexivity); try exact Hstep.
  unfold research, ainvoke.
  replace recursion_limit with (k + S (recursion_limit - S k)) by lia.
  rewrite (run_after_steps k _ _ _ Hk).
  cbn [run]. rewrite Hstep. cbn [bind run graph_step snd].
  destruct (recursion_limit - S k); cbn [run graph_step snd];
    rewrite Hr; reflexivity.
Qed.

(** C4, as amended. A response that holds the open tag but no close tag is
    not taken for a final answer: the reasoning step appends it to the log
    (the list as the call left it), counts the iteration and leaves
    [is_complete] and [final_answer] as they were, so an incomplete session
    goes on. *)
Theorem C4_open_tag_alone_is_no_final_answer
    (s : ResearchState) (response : BaseMessage) :
  (iteration_count s < max_llm_calls)%Z ->
  llm (current_messages reasoning (messages s)) = Return response ->
  contains OPEN_TAG (content response) = true ->
  contains CLOSE_TAG (content response) = false ->
  reason s =
    {| messages := after_call s ++ [response];
       current_task := current_task s;
       tools_used := tools_used s;
       iteration_count := (iteration_count s + 1)%Z;
       max_iterations := max_iterations s;
       final_answer := final_answer s;
       is_complete := is_complete s;
       session_id := session_id s |}
  /\ (client = OpenAI -> after_call s = messages s)
  /\ (is_complete s = false ->
      workflow_controller_decide_next (reason s) <> RouteEnd).
Proof.
  intros Hlt Hllm Ho Hc.
  assert (Hr := reason_no_final_answer s response Hlt Hllm
                  ltac:(rewrite Ho, Hc; reflexivity)).
  split; [exact Hr|]. split.
  { intros ->. reflexivity. }
  intros Hf. rewrite Hr. unfold workflow_controller_decide_next. simpl.
  rewrite Hf.
  destruct (last_message _) as [m|]; [|discriminate].
  destruct (is_ai m && _); discriminate.
Qed.


(** C9. The tool-dispatch step returns the state unchanged when the log has
    no last message that is an assistant message with tool calls; and
    whenever it returns a state, that state has the [iteration_count],
    [max_iterations], [is_complete], [final_answer], [current_task] and
    [session_id] of the state it was given. *)
Theorem C9_tool_executor_frame (s : ResearchState) :
  ((forall last,
       last_message (messages s) = Some last ->
       is_ai last = false \/ tool_calls last = []) ->
   dispatch s = Return s)
  /\ (forall s',
        dispatch s = Return s' ->
        iteration_count s' = iteration_count s
        /\ max_iterations s' = max_iterations s
        /\ is_complete s' = is_complete s
        /\ final_answer s' = final_answer s
        /\ current_task s' = current_task s
        /\ session_id s' = session_id s).
Proof.
  split; [|apply dispatch_frame].
  intros H. unfold tool_executor_execute.
  destruct (last_message (messages s)) as [last|]; [|reflexivity].
  destruct (H last eq_refl) as [Hai|Hno].
  - now rewrite Hai.
  - rewrite Hno. now destruct (negb (is_ai last)).
Qed.

End Session.

(** ** The claims at concrete sessions *)
Section Concrete.
Import Samples.

Lemma C1_witness :
  exists node s,
    steps 3 false OpenAI date (llm_says (py "Let me search.") []) prompt
          tools 2 (NodeInitialize, initial_state 3 question [] None)
    = Some (node, s)
    /\ (iteration_count s <= max_iterations s)%Z.
Proof.
  eexists. eexists. split; [reflexivity|].
  refine (proj1 (C1_iteration_bound_and_single_completion
                   3 false OpenAI date (llm_says (py "Let me search.") [])
                   prompt tools question [] None 2 _ _ _ _)).
  - lia.
  - reflexivity.
Defined.

(** The claim as stated fails for a negative budget, which [__init__] keeps
    ([-1 or settings.max_llm_calls] is [-1]): the initialized state has
    [iteration_count] 0 and [max_iterations] -1, and so has the state the
    session ends with. *)
Lemma C1_counterexample_negative_budget :
  let s := researcher_initialize (-1) prompt
             (initial_state (-1) question [] None) in
  let r := research (-1) false OpenAI date (llm_says (py "Let me search.") [])
                    prompt tools 25 question [] None in
  steps (-1) false OpenAI date (llm_says (py "Let me search.") []) prompt
        tools 1 (NodeInitialize, initial_state (-1) question [] None)
  = Some (NodeReason, s)
  /\ iteration_count s = 0%Z
  /\ max_iterations s = (-1)%Z
  /\ (iteration_count s > max_iterations s)%Z
  /\ r_success r = true
  /\ r_iterations r = 0%Z.
Proof.
  repeat split; reflexivity.
Qed.

Lemma C2_witness :
  final_answer
    (researcher_reason 3 false OpenAI date
                       (llm_says answer_text [call "search"]) state0)
  = Some (py "42").
Proof.
  refine (proj1 (proj2 (C2_final_answer_between_tags
                   3 false OpenAI date (llm_says answer_text [call "search"])
                   prompt tools state0
                   {| msg_class := AIMessage; content := answer_text;
                      tool_calls := [call "search"]; tool_call_id := None |}
                   (py "Done. ") (py " 42 ") (py " bye")
                   _ _ _ _ _ _))).
  - simpl. lia.
  - reflexivity.
  - reflexivity.
  - reflexivity.
  - reflexivity.
  - discriminate.
Defined.

(** The claim as stated fails when nothing stands between the tags, and
    when a close tag comes before the open tag that a later close tag
    matches: the tags are paired by their first occurrences and, unless the
    first close tag lies beyond the end of the first open tag, the final
    answer is the whole content, tags included. *)
Lemma C2_counterexample_whole_content :
  let s1 := researcher_reason 3 false OpenAI date (llm_says adjacent_tags [])
                              state0 in
  let s2 := researcher_reason 3 false OpenAI date (llm_says stray_close [])
                              state0 in
  adjacent_tags = OPEN_TAG ++ [] ++ CLOSE_TAG
  /\ is_complete s1 = true
  /\ final_answer s1 = Some adjacent_tags
  /\ final_answer s1 <> Some (strip [])
  /\ stray_close = CLOSE_TAG ++ OPEN_TAG ++ py "a" ++ CLOSE_TAG
  /\ is_complete s2 = true
  /\ final_answer s2 = Some stray_close
  /\ final_answer s2 <> Some (strip (py "a")).
Proof.
  repeat split; try reflexivity; discriminate.
Qed.

Lemma C3_witness :
  r_success (research 3 true OpenAI date llm_raises prompt tools 25
                      question [] None)
  = true.
Proof.
  pose proof (C3_model_failure_becomes_final_answer
                3 true OpenAI date llm_raises prompt tools 25 question []
                None 1
                (researcher_initialize 3 prompt
                   (initial_state 3 question [] None))
                boom) as H.
  destruct H as (_ & _ & _ & H).
  - reflexivity.
  - lia.
  - simpl. lia.
  - reflexivity.
  - rewrite H. reflexivity.
Defined.

(** The claim as stated fails: the model call raises in the first reasoning
    step, and [research] reports [success] true. *)
Lemma C3_counterexample_success_reported :
  let result := research 3 true OpenAI date llm_raises prompt tools 25
                         question [] None in
  llm_raises
    (current_messages true
       (messages (researcher_initialize 3 prompt
                    (initial_state 3 question [] None))))
  = Raise boom
  /\ r_success result <> false
  /\ r_is_complete result = true
  /\ r_error result = None
  /\ r_final_answer result
     = Some (py "Research failed due to error: connection refused").
Proof.
  repeat split; try reflexivity. discriminate.
Qed.

Lemma C4_witness :
  is_complete
    (researcher_reason 3 false OpenAI date (llm_says unclosed_answer [])
                       state0) = false
  /\ final_answer
       (researcher_reason 3 false OpenAI date (llm_says unclosed_answer [])
                          state0) = None.
Proof.
  pose proof (C4_open_tag_alone_is_no_final_answer
                3 false OpenAI date (llm_says unclosed_answer []) state0
                {| msg_class := AIMessage; content := unclosed_answer;
                   tool_calls := []; tool_call_id := None |}) as H.
  destruct H as [H _].
  - simpl. lia.
  - reflexivity.
  - reflexivity.
  - reflexivity.
  - rewrite H. split; reflexivity.
Defined.

(** The claim as stated fails: the response opens an answer and never closes
    it, and the reasoning step neither completes the session nor sets a final
    answer. *)
Lemma C4_counterexample_unclosed_answer :
  let s' := researcher_reason 3 false OpenAI date
                              (llm_says unclosed_answer []) state0 in
  contains OPEN_TAG unclosed_answer = true
  /\ contains CLOSE_TAG unclosed_answer = false
  /\ is_complete s' = false
  /\ final_answer s' = None
  /\ workflow_controller_decide_next s' = RouteReason.
Proof.
  repeat split; reflexivity.
Qed.



Lemma C9_witness : tool_executor_execute tools state0 = Return state0.
Proof.
  refine (proj1 (C9_tool_executor_frame tools state0) _).
  intros last H. left.
  vm_compute in H. inversion H. reflexivity.
Defined.

End Concrete.

End AgentProps.

(* ================================================================== *)
(** * Properties of the retry loop *)
(* ================================================================== *)
Module RetryProps.
Import Retry.

Section Loop.

Variable R : Type.
Variable create : nat -> CreateOutcome R.
Variable jitter : nat -> Q.

Local Notation "'loop'" := (retry_loop create jitter).

(** The loop stops in iteration [attempt]: this call was the last one and no
    sleep was added. [E] names the equation for the call's outcome. *)
Ltac loop_stops attempt E :=
  cbn [calls slept exit];
  replace (S attempt - 1 - attempt) with 0 by lia;
  replace (S attempt - 1) with attempt by lia;
  rewrite E, app_nil_r; repeat split; try lia; intros i Hi; lia.

(** The loop from iteration [attempt] on, when [attempt] calls were made
    before and [remaining] iterations are left of the five. *)
Lemma retry_loop_spec (remaining : nat) :
  forall attempt slept0,
    attempt + remaining = MAX_RETRIES ->
    0 < remaining ->
    let t := loop remaining attempt slept0 attempt in
    attempt < calls t <= MAX_RETRIES
    /\ slept t
       = slept0 ++ map (delay jitter) (seq attempt (calls t - 1 - attempt))
    /\ (forall i, attempt <= i < calls t - 1 ->
                  exists ex, create i = RaisedRateLimitError ex)
    /\ match create (calls t - 1) with
       | Created response => exit t = Got response
       | RaisedRateLimitError ex =>
           calls t = MAX_RETRIES /\ exit t = ModelServiceError ex
       | RaisedOpenAIError ex => exit t = ModelServiceError ex
       | RaisedOther ex => exit t = Propagated ex
       end.
Proof.
  induction remaining as [|remaining IH]; intros attempt slept0 Hsum Hpos;
    [lia|].
  cbn [retry_loop].
  destruct (create attempt) as [r|ex|ex|ex] eqn:E.
  - loop_stops attempt E.
  - destruct (Nat.eqb attempt (MAX_RETRIES - 1)) eqn:Elast.
    + apply Nat.eqb_eq in Elast. loop_stops attempt E.
    + apply Nat.eqb_neq in Elast.
      assert (Hrem : 0 < remaining) by (unfold MAX_RETRIES in *; lia).
      specialize (IH (S attempt) (slept0 ++ [delay jitter attempt])
                     ltac:(lia) Hrem).
      cbv zeta in IH. destruct IH as (Hc & Hs & Hr & Hl).
      set (t := loop remaining (S attempt) _ _) in *.
      repeat split; try lia.
      * rewrite Hs, <- app_assoc. f_equal.
        replace (calls t - 1 - attempt) with (S (calls t - 1 - S attempt))
          by lia.
        reflexivity.
      * intros i Hi.
        destruct (Nat.eq_dec i attempt) as [->|Hne]; [now exists ex|].
        apply Hr. lia.
      * exact Hl.
  - loop_stops attempt E.
  - loop_stops attempt E.
Qed.

Lemma delay_bounds (i : nat) :
  (0 <= jitter i)%Q /\ (jitter i < 1)%Q ->
  (inject_Z (INITIAL_DELAY * 2 ^ Z.of_nat i) <= delay jitter i)%Q
  /\ (delay jitter i < inject_Z (INITIAL_DELAY * 2 ^ Z.of_nat i) + 1)%Q.
Proof.
  intros [H0 H1]. unfold delay.
  generalize (inject_Z (INITIAL_DELAY * 2 ^ Z.of_nat i)). intros b.
  split; lra.
Qed.

(** C6. Whatever the provider does, the loop calls it at least once and at
    most five times; every call but the last one made ended in a rate-limit
    error and was followed by a sleep of [2 * 2 ^ attempt] plus that
    iteration's jitter, which lies in [[0, 1)]; the last call decides the
    outcome: a response is kept, a rate-limit error there means it was the
    fifth call and becomes a [ModelServiceError], any other provider error
    becomes a [ModelServiceError] on the spot. *)
Theorem C6_retry_policy :
  (forall i, (0 <= jitter i)%Q /\ (jitter i < 1)%Q) ->
  let t := _chat_stream create jitter in
  1 <= calls t <= 5
  /\ slept t = map (delay jitter) (seq 0 (calls t - 1))
  /\ (forall i, i < calls t - 1 ->
        (exists ex, create i = RaisedRateLimitError ex)
        /\ (inject_Z (2 * 2 ^ Z.of_nat i) <= delay jitter i)%Q
        /\ (delay jitter i < inject_Z (2 * 2 ^ Z.of_nat i) + 1)%Q)
  /\ match create (calls t - 1) with
     | Created response => exit t = Got response
     | RaisedRateLimitError ex =>
         calls t = 5 /\ exit t = ModelServiceError ex
     | RaisedOpenAIError ex => exit t = ModelServiceError ex
     | RaisedOther ex => exit t = Propagated ex
     end.
Proof.
  intros Hj t.
  destruct (retry_loop_spec MAX_RETRIES 0 [] eq_refl
              ltac:(unfold MAX_RETRIES; lia))
    as (Hc & Hs & Hr & Hl).
  fold (_chat_stream create jitter) in Hc, Hs, Hr, Hl. fold t in Hc, Hs, Hr, Hl.
  unfold MAX_RETRIES in *.
  repeat split; try lia.
  - rewrite Hs. simpl. now rewrite Nat.sub_0_r.
  - apply Hr. lia.
  - apply (delay_bounds i (Hj i)).
  - apply (delay_bounds i (Hj i)).
  - exact Hl.
Qed.

End Loop.

Import Samples.

Lemma C6_witness :
  calls (_chat_stream twice_limited half) = 3
  /\ slept (_chat_stream twice_limited half)
     = [(inject_Z 2 + (1 # 2))%Q; (inject_Z 4 + (1 # 2))%Q]
  /\ exit (_chat_stream twice_limited half) = Got (py "stream").
Proof.
  pose proof (C6_retry_policy pystr twice_limited half) as H.
  destruct H as (_ & Hslept & _ & Hexit).
  - intros i. unfold half. split; [unfold Qle|unfold Qlt]; simpl; lia.
  - split; [reflexivity|]. split; [exact Hslept|exact Hexit].
Defined.

End RetryProps.

(* ================================================================== *)
(** * Properties of the matcher *)
(* ================================================================== *)
Module ReFacts.
Import Re Spec PyStrFacts.







End ReFacts.

(* ================================================================== *)
(** * Properties of message conversion and source extraction *)
(* ================================================================== *)
Module ApiProps.
Import Re Api Spec PyStrFacts ReFacts.













(** ** The claims about extraction and conversion *)




(** The loop over a list-valued content, in terms of what each item adds. *)
Lemma join_items_pieces (items : list ContentItem) :
  forall pieces acc,
    map item_piece items = map VStr pieces ->
    join_items items acc = Return (acc ++ List.concat pieces).
Proof.
  induction items as [|item items IH]; intros [|p pieces] acc H;
    try discriminate.
  - cbn. now rewrite app_nil_r.
  - cbn [map] in H. injection H as Hp Hrest.
    cbn [join_items List.concat].
    destruct item as [text|entries str_item|str_item]; cbn [item_piece] in Hp.
    + rewrite Hp. cbn [str_iadd bind].
      rewrite (IH _ _ Hrest). now rewrite app_assoc.
    + destruct (dict_has entries (py "text"));
        [rewrite Hp|inversion Hp; subst]; cbn [str_iadd bind];
        rewrite (IH _ _ Hrest); now rewrite app_assoc.
    + inversion Hp; subst. cbn [bind].
      rewrite (IH _ _ Hrest). now rewrite app_assoc.
Qed.

Lemma str_iadd_cases (acc : pystr) (x : PyValue) :
  (exists s, x = VStr s /\ str_iadd acc x = Return (acc ++ s))
  \/ (exists e, str_iadd acc x = Raise e /\ exn_class e = TypeError).
Proof.
  destruct x; try (right; eexists; split; reflexivity).
  left. eexists. split; reflexivity.
Qed.

(** An item that adds something other than a string makes the loop raise
    [TypeError], at that item or at an earlier one of its kind. *)
Lemma join_items_type_error (items : list ContentItem) (item : ContentItem) :
  In item items ->
  (forall s, item_piece item <> VStr s) ->
  forall acc,
    exists e, join_items items acc = Raise e /\ exn_class e = TypeError.
Proof.
  induction items as [|first items IH]; intros Hin Hbad acc; [destruct Hin|].
  assert (Hnext : forall s acc',
             item_piece first = VStr s ->
             exists e, join_items items acc' = Raise e
                       /\ exn_class e = TypeError).
  { intros s acc' Hs. apply IH; [|exact Hbad].
    destruct Hin as [<-|Hin]; [|exact Hin]. exfalso. exact (Hbad s Hs). }
  cbn [join_items].
  destruct first as [text|entries str_item|str_item]; cbn [item_piece] in Hnext.
  - destruct (str_iadd_cases acc text) as [(s & Hs & ->)|(e & -> & He)];
      cbn [bind]; [exact (Hnext s _ Hs)|now exists e].
  - destruct (dict_has entries (py "text")).
    + destruct (str_iadd_cases acc (dict_get entries (py "text")))
        as [(s & Hs & ->)|(e & -> & He)];
        cbn [bind]; [exact (Hnext s _ Hs)|now exists e].
    + cbn [bind]. exact (Hnext str_item _ eq_refl).
  - cbn [bind]. exact (Hnext str_item _ eq_refl).
Qed.

(** C8, as amended. For a message with one of the four roles (the role
    constants being four different strings), converting to the API shape and
    back keeps the role; it keeps a string content as it is; and it keeps
    the name of a tool message whose name is not empty, any other message
    coming back without a name. Of a list content each item adds its [text]
    attribute if it has one, its entry ['text'] if it is a dict with that
    key, and its [str] otherwise: when all these are strings the content
    comes back as one string, their concatenation; when one of them is not
    a string the conversion raises [TypeError] and nothing comes back. *)
Theorem C8_round_trip (SYSTEM USER ASSISTANT FUNCTION : pystr)
    (str_of_tool_calls : list PyValue -> pystr)
    (uuid session_id : pystr) (m : QwenMessage) :
  NoDup [SYSTEM; USER; ASSISTANT; FUNCTION] ->
  In (q_role m) [SYSTEM; USER; ASSISTANT; FUNCTION] ->
  (forall text,
     q_content m = CStr text
     \/ (exists items pieces,
           q_content m = CList items
           /\ map item_piece items = map VStr pieces
           /\ text = List.concat pieces) ->
     exists a,
       convert_qwen_message_to_api SYSTEM USER ASSISTANT FUNCTION
                                   uuid m session_id = Return a
       /\ q_role (convert_api_message_to_qwen SYSTEM USER ASSISTANT FUNCTION
                                              str_of_tool_calls a) = q_role m
       /\ q_content (convert_api_message_to_qwen SYSTEM USER ASSISTANT
                                                 FUNCTION str_of_tool_calls a)
          = CStr text
       /\ q_name (convert_api_message_to_qwen SYSTEM USER ASSISTANT FUNCTION
                                              str_of_tool_calls a)
          = if PyStr.eqb (q_role m) FUNCTION && opt_truthy (q_name m)
            then q_name m else None)
  /\ (forall items item,
        q_content m = CList items ->
        In item items ->
        (forall s, item_piece item <> VStr s) ->
        exists e,
          convert_qwen_message_to_api SYSTEM USER ASSISTANT FUNCTION
                                      uuid m session_id = Raise e
          /\ exn_class e = TypeError).
Proof.
  intros Hdup Hrole. destruct m as [r c n].
  cbn [q_role q_content q_name] in *.
  assert (Hd : SYSTEM <> USER /\ SYSTEM <> ASSISTANT /\ SYSTEM <> FUNCTION
               /\ USER <> ASSISTANT /\ USER <> FUNCTION
               /\ ASSISTANT <> FUNCTION).
  { repeat (apply NoDup_cons_iff in Hdup as [? Hdup]).
    cbn [In] in *. repeat split; intros E; subst; tauto. }
  destruct Hd as (Hsu & Hsa & Hsf & Hua & Huf & Haf).
  split.
  - intros text Hcontent.
    assert (Hc : match c with
                 | CStr s => Return s
                 | CList items => join_items items []
                 end = Return text).
    { destruct Hcontent as [->|(items & pieces & -> & Hp & ->)];
        [reflexivity|].
      now rewrite (join_items_pieces items pieces [] Hp). }
    unfold convert_qwen_message_to_api, type_of_role.
    cbn [q_role q_content q_name].
    rewrite Hc. cbn [bind]. eexists. split; [reflexivity|].
    unfold convert_api_message_to_qwen.
    cbn [msg_type content tool_calls toolName q_role q_content q_name].
    destruct Hrole as [<-|[<-|[<-|[<-|[]]]]];
      rewrite ?eqb_refl, ?(eqb_neq _ _ Hsu), ?(eqb_neq _ _ Hsa),
        ?(eqb_neq _ _ Hsf), ?(eqb_neq _ _ Hua), ?(eqb_neq _ _ Huf),
        ?(eqb_neq _ _ Haf);
      cbn [andb is_tool_type];
      destruct n as [[|x n]|]; repeat split; reflexivity.
  - intros items item -> Hin Hbad.
    destruct (join_items_type_error items item Hin Hbad []) as (e & He & Hc).
    exists e. split; [|exact Hc].
    unfold convert_qwen_message_to_api. cbn [q_content].
    now rewrite He.
Qed.

Lemma C8_witness :
  exists a,
    convert_qwen_message_to_api
      Samples.role_system Samples.role_user Samples.role_assistant
      Samples.role_function (py "id-1") Samples.tool_message (py "s-1")
    = Return a
    /\ convert_api_message_to_qwen
         Samples.role_system Samples.role_user Samples.role_assistant
         Samples.role_function Samples.repr_calls a
       = Samples.tool_message.
Proof.
  destruct (C8_round_trip
              Samples.role_system Samples.role_user Samples.role_assistant
              Samples.role_function Samples.repr_calls (py "id-1") (py "s-1")
              Samples.tool_message)
    as [H _].
  - repeat constructor; cbn [In]; intros H;
      repeat (destruct H as [H|H]; [discriminate|]); exact H.
  - right. right. right. left. reflexivity.
  - destruct (H (py "three results")) as (a & Ha & Hr & Hc & Hn).
    + left. reflexivity.
    + exists a. split; [exact Ha|].
      destruct (convert_api_message_to_qwen _ _ _ _ _ a) as [r c n].
      cbn [q_role q_content q_name] in Hr, Hc, Hn. now subst.
Defined.

(** The claim as stated fails for a content given as a list: it comes back
    as a string, and when the text of an item is [None] nothing comes back,
    the conversion raises. *)
Lemma C8_counterexample_list_content :
  (exists a,
     convert_qwen_message_to_api
       Samples.role_system Samples.role_user Samples.role_assistant
       Samples.role_function (py "id-1") Samples.two_part_message (py "s-1")
     = Return a
     /\ q_content (convert_api_message_to_qwen
                     Samples.role_system Samples.role_user
                     Samples.role_assistant Samples.role_function
                     Samples.repr_calls a)
        = CStr (py "Hello, world")
     /\ q_content (convert_api_message_to_qwen
                     Samples.role_system Samples.role_user
                     Samples.role_assistant Samples.role_function
                     Samples.repr_calls a)
        <> q_content Samples.two_part_message)
  /\ (exists e,
        convert_qwen_message_to_api
          Samples.role_system Samples.role_user Samples.role_assistant
          Samples.role_function (py "id-1") Samples.none_text_message
          (py "s-1")
        = Raise e
        /\ exn_class e = TypeError).
Proof.
  split; [|eexists; split; reflexivity].
  eexists. split; [reflexivity|]. split; [reflexivity|]. discriminate.
Qed.

(** C10. For every input, and whatever [json.loads] returns or raises on it,
    extraction returns a list; on the empty input the list is empty. *)
Theorem C10_extraction_is_total (json_loads : pystr -> PyResult PyValue)
    (tool_output : pystr) :
  (exists sources,
     extract_sources_from_tool_output json_loads tool_output = Return sources)
  /\ extract_sources_from_tool_output json_loads [] = Return [].
Proof.
  split; [|reflexivity].
  unfold extract_sources_from_tool_output.
  destruct (negb (nonempty tool_output)); [eexists; reflexivity|].
  destruct (json_loads tool_output) as [v|e]; cbn [bind try_except].
  - destruct v; eexists; reflexivity.
  - destruct (is_JSONDecodeError (exn_class e)); eexists; reflexivity.
Qed.

End ApiProps.

(* ================================================================== *)
(** * Further properties of the orchestration state machine *)
(* ================================================================== *)
Module AgentExtra.
Import Agent Spec PyStrFacts AgentProps.

Section Session.

Variable max_llm_calls : Z.
Variable reasoning : bool.
Variable client : Client.
Variable current_date : Z -> pystr.
Variable llm : list BaseMessage -> PyResult BaseMessage.
Variable system_prompt : pystr.
Variable tools : list BaseTool.
Variable recursion_limit : nat.

Local Notation "'reason'" :=
  (researcher_reason max_llm_calls reasoning client current_date llm).
Local Notation "'initialize'" :=
  (researcher_initialize max_llm_calls system_prompt).
Local Notation "'dispatch'" := (tool_executor_execute tools).
Local Notation "'gstep'" :=
  (graph_step max_llm_calls reasoning client current_date llm system_prompt
              tools).
Local Notation "'gsteps'" :=
  (steps max_llm_calls reasoning client current_date llm system_prompt tools).
Local Notation "'grun'" :=
  (run max_llm_calls reasoning client current_date llm system_prompt tools).
Local Notation "'start'" := (initial_state max_llm_calls).
Local Notation "'lookup'" := (get_tool_by_name tools).
Local Notation "'after_call' s" :=
  (messages_after_invoke reasoning client (current_date (iteration_count s))
                         (messages s))
  (at level 10, s at level 9).
(** A tool call that carries both keys the dispatcher indexes. *)
Local Notation "'has_both_keys'" :=
  (fun tc : ToolCall => tc_name tc <> None /\ tc_arguments tc <> None).

(** ** The reasoning step either finishes the session or goes on *)

Lemma reason_done_or_continue (s : ResearchState) :
  (is_complete (reason s) = true
   /\ final_answer (reason s) <> None
   /\ (iteration_count (reason s) <= Z.max (iteration_count s) max_llm_calls)%Z)
  \/ ((iteration_count s < max_llm_calls)%Z
      /\ iteration_count (reason s) = (iteration_count s + 1)%Z
      /\ is_complete (reason s) = is_complete s
      /\ final_answer (reason s) = final_answer s
      /\ exists response,
           llm (current_messages reasoning (messages s)) = Return response
           /\ contains OPEN_TAG (content response)
              && contains CLOSE_TAG (content response) = false
           /\ messages (reason s) = after_call s ++ [response]).
Proof.
  destruct (Z.le_gt_cases max_llm_calls (iteration_count s)) as [Hge|Hlt].
  - left. rewrite (reason_budget_exhausted _ _ _ _ _ _ Hge). simpl.
    repeat split; try discriminate; try lia.
  - destruct (llm (current_messages reasoning (messages s))) as [r|e] eqn:E.
    + destruct (contains OPEN_TAG (content r) && contains CLOSE_TAG (content r))
        eqn:T.
      * apply andb_true_iff in T as [To Tc].
        left. rewrite (reason_final_answer _ _ _ _ _ _ _ Hlt E To Tc). simpl.
        repeat split; try discriminate; try lia.
      * right. rewrite (reason_no_final_answer _ _ _ _ _ _ _ Hlt E T). simpl.
        repeat split; try assumption. now exists r.
    + left. rewrite (reason_model_raised _ _ _ _ _ _ _ Hlt E). simpl.
      repeat split; try discriminate; try lia.
Qed.

(** The log after a reasoning step: the log as it was, or as the model call
    left it, with the response appended when the call returned. *)
Lemma reason_messages (s : ResearchState) :
  messages (reason s) = messages s
  \/ messages (reason s) = after_call s
  \/ exists response,
       llm (current_messages reasoning (messages s)) = Return response
       /\ messages (reason s) = after_call s ++ [response].
Proof.
  unfold researcher_reason.
  destruct (iteration_count s >=? max_llm_calls)%Z; [now left|].
  destruct (llm (current_messages reasoning (messages s))) as [r|e];
    [|right; now left].
  right. right. exists r. split; [reflexivity|].
  now destruct (contains OPEN_TAG _ && contains CLOSE_TAG _).
Qed.

Lemma reason_tools_used (s : ResearchState) :
  tools_used (reason s) = tools_used s.
Proof.
  unfold researcher_reason.
  destruct (iteration_count s >=? max_llm_calls)%Z; [reflexivity|].
  destruct (llm _); [|reflexivity].
  now destruct (contains OPEN_TAG _ && contains CLOSE_TAG _).
Qed.

Lemma complete_routes_to_end (s : ResearchState) :
  route_target (workflow_controller_decide_next s) = END <->
  is_complete s = true.
Proof.
  unfold workflow_controller_decide_next.
  destruct (is_complete s); [split; reflexivity|].
  destruct (last_message (messages s)) as [m|];
    [destruct (is_ai m && _)|]; split; discriminate.
Qed.

(** ** What the model call leaves of the log *)

(** A log that starts with a system message keeps its length and every
    message after the first; the first keeps its class and its tool calls,
    and its content ends with the content it had. *)
Lemma after_invoke_head (date : pystr) (sys : BaseMessage)
    (rest : list BaseMessage) :
  is_system sys = true ->
  exists sys',
    messages_after_invoke reasoning client date (sys :: rest) = sys' :: rest
    /\ is_system sys' = true
    /\ (exists added, content sys' = added ++ content sys)
    /\ (client = OpenAI -> sys' = sys).
Proof.
  intros Hsys. unfold messages_after_invoke.
  destruct client as [|p].
  - exists sys. repeat split; auto. now exists [].
  - rewrite Hsys. eexists. split; [reflexivity|].
    repeat split; [exact Hsys| |discriminate].
    cbn [enhanced content]. eexists. now rewrite !app_assoc.
Qed.

(** Every message of a log has a counterpart with the same tool calls in
    the log the call leaves. *)
Lemma after_invoke_keeps_calls (date : pystr) (ms : list BaseMessage)
    (m : BaseMessage) :
  In m ms ->
  exists m',
    In m' (messages_after_invoke reasoning client date ms)
    /\ tool_calls m' = tool_calls m.
Proof.
  intros Hin. unfold messages_after_invoke.
  destruct client as [|p]; [now exists m|].
  destruct ms as [|first rest]; [destruct Hin|].
  destruct (is_system first).
  - destruct Hin as [<-|Hin].
    + eexists. split; [now left|reflexivity].
    + exists m. split; [now right|reflexivity].
  - destruct reasoning; exists m; split; auto. now right.
Qed.

(** ** The tool-dispatch step, in terms of the calls it serves *)

Lemma Forall2_In_right {A B : Type} (R : A -> B -> Prop)
    (l : list A) (l' : list B) (y : B) :
  Forall2 R l l' -> In y l' -> exists x, In x l /\ R x y.
Proof.
  induction 1 as [|x y0 l l' Hxy _ IH]; [intros []|].
  intros [<-|Hin].
  - exists x. split; [now left|exact Hxy].
  - destruct (IH Hin) as (x' & Hx' & HR). exists x'. split; [now right|exact HR].
Qed.

Lemma last_message_snoc (ms : list BaseMessage) (m : BaseMessage) :
  last_message (ms ++ [m]) = Some m.
Proof.
  unfold last_message. rewrite map_app. simpl. apply last_last.
Qed.

Lemma last_message_In (ms : list BaseMessage) (m : BaseMessage) :
  last_message ms = Some m -> In m ms.
Proof.
  induction ms as [|x ms' _] using rev_ind; [discriminate|].
  rewrite last_message_snoc. intros H. inversion H; subst.
  apply in_or_app. right. now left.
Qed.

Lemma reply_has_no_calls (tc : ToolCall) (result : BaseMessage * list pystr) :
  run_tool_call tools tc = Return result ->
  is_ai (fst result) = true /\ tool_calls (fst result) = [].
Proof.
  unfold run_tool_call.
  destruct (tc_name tc) as [n|], (tc_arguments tc) as [a|];
    cbn [getitem bind]; try discriminate.
  destruct (get_tool_by_name tools n) as [tool|];
    [destruct (execute tool a) as [r|e]|];
    intros H; inversion H; subst; split; reflexivity.
Qed.

Lemma names_of_call (tc : ToolCall) (result : BaseMessage * list pystr)
    (n : pystr) :
  run_tool_call tools tc = Return result ->
  In n (snd result) ->
  tc_name tc = Some n /\ lookup n <> None.
Proof.
  unfold run_tool_call.
  destruct (tc_name tc) as [n0|], (tc_arguments tc) as [a|];
    cbn [getitem bind]; try discriminate.
  destruct (get_tool_by_name tools n0) as [tool|] eqn:E;
    [destruct (execute tool a) as [r|e]|];
    intros H; inversion H; subst; cbn [snd]; try contradiction.
  intros [<-|[]]. split; [reflexivity|]. rewrite E. discriminate.
Qed.

Lemma dispatch_spec (s s' : ResearchState) :
  dispatch s = Return s' ->
  s' = s
  \/ exists last results,
       last_message (messages s) = Some last
       /\ is_ai last = true
       /\ tool_calls last <> []
       /\ Forall2 (fun tc result => run_tool_call tools tc = Return result)
                  (tool_calls last) results
       /\ messages s' = messages s ++ map fst results
       /\ tools_used s' = tools_used s ++ flat_map snd results.
Proof.
  destruct (last_message (messages s)) as [last|] eqn:L;
    [|unfold tool_executor_execute; rewrite L; intros H; inversion H;
      now left].
  destruct (is_ai last) eqn:A;
    [|unfold tool_executor_execute; rewrite L, A; intros H; inversion H;
      now left].
  destruct (tool_calls last) as [|tc calls] eqn:C;
    [unfold tool_executor_execute; rewrite L, A, C; intros H; inversion H;
     now left|].
  assert (Hne : tool_calls last <> []) by (rewrite C; discriminate).
  rewrite (dispatch_turn tools s last L A Hne).
  destruct (run_tool_calls tools (tool_calls last) _) as [r|e] eqn:R;
    cbn [bind]; intros H; inversion H; subst s'; clear H.
  destruct (run_tool_calls_return tools _ _ _ R) as (results & Hall & ->).
  right. exists last, results. cbn [fst snd messages tools_used].
  repeat split; auto.
Qed.

(** The step returns when the calls of the last message carry both keys. *)
Lemma dispatch_returns (s : ResearchState) :
  (forall last, last_message (messages s) = Some last ->
                Forall has_both_keys (tool_calls last)) ->
  exists s', dispatch s = Return s'.
Proof.
  intros Hkeys.
  destruct (last_message (messages s)) as [last|] eqn:L;
    [|unfold tool_executor_execute; rewrite L; now eexists].
  destruct (is_ai last) eqn:A;
    [|unfold tool_executor_execute; rewrite L, A; now eexists].
  destruct (tool_calls last) as [|tc calls] eqn:C;
    [unfold tool_executor_execute; rewrite L, A, C; now eexists|].
  assert (Hne : tool_calls last <> []) by (rewrite C; discriminate).
  rewrite (dispatch_turn tools s last L A Hne).
  destruct (results_of_well_formed tools _ (Hkeys last eq_refl))
    as [results Hall].
  rewrite (run_tool_calls_all tools _ _ (messages s, tools_used s) Hall).
  cbn [bind]. now eexists.
Qed.

(** ** Invariants of sessions *)

Lemma steps_invariant (P : Node * ResearchState -> Prop) :
  (forall cfg cfg', P cfg -> gstep cfg = Some (Return cfg') -> P cfg') ->
  forall k cfg cfg', P cfg -> gsteps k cfg = Some cfg' -> P cfg'.
Proof.
  intros Hstep. induction k as [|k IH]; intros cfg cfg' HP Hk.
  - simpl in Hk. now inversion Hk; subst.
  - destruct (steps_S _ _ _ _ _ _ _ _ _ _ Hk) as (cfg1 & E & Hk1).
    exact (IH _ _ (Hstep _ _ HP E) Hk1).
Qed.

(** The steps out of the three nodes. *)
Lemma step_cases (node : Node) (s : ResearchState)
    (cfg' : Node * ResearchState) :
  gstep (node, s) = Some (Return cfg') ->
  (node = NodeInitialize /\ cfg' = (NodeReason, initialize s))
  \/ (node = NodeReason
      /\ cfg' = (route_target (workflow_controller_decide_next (reason s)),
                 reason s))
  \/ (node = NodeToolExecutor
      /\ exists s', dispatch s = Return s' /\ cfg' = (NodeReason, s')).
Proof.
  destruct node; cbn [graph_step]; intros H.
  - inversion H. now left.
  - inversion H. right. now left.
  - destruct (dispatch s) as [s'|e]; cbn [bind] in H; inversion H.
    right. right. split; [reflexivity|]. now exists s'.
  - discriminate.
Qed.

Lemma ends_answered_step (cfg cfg' : Node * ResearchState) :
  (0 <= max_llm_calls)%Z ->
  ends_answered max_llm_calls cfg -> gstep cfg = Some (Return cfg') ->
  ends_answered max_llm_calls cfg'.
Proof.
  intros Hmax [Hinv Hend] Hstep.
  split; [exact (invariant_step _ _ _ _ _ _ _ _ _ Hmax Hinv Hstep)|].
  destruct cfg as [node s]. destruct Hinv as (_ & _ & Hc).
  destruct (step_cases _ _ _ Hstep)
    as [[-> ->]|[[-> ->]|(-> & s' & _ & ->)]]; cbn [fst snd];
    try discriminate.
  intros Hroute. apply complete_routes_to_end in Hroute.
  split; [exact Hroute|].
  destruct (reason_done_or_continue s) as [(_ & Hf & _)|(_ & _ & Hsame & _)];
    [exact Hf|].
  rewrite Hsame in Hroute. specialize (Hc Hroute). discriminate.
Qed.

Lemma run_S (fuel : nat) (cfg : Node * ResearchState) :
  grun (S fuel) cfg =
  match gstep cfg with
  | None => Return (snd cfg)
  | Some next => cfg' <- next ;; grun fuel cfg'
  end.
Proof. reflexivity. Qed.

Lemma run_END (fuel : nat) (s : ResearchState) : grun fuel (END, s) = Return s.
Proof. destruct fuel; reflexivity. Qed.

(** What the graph returns is the state of a configuration at [END] that the
    session reaches. *)
Lemma run_returns_reachable (fuel : nat) :
  forall cfg s',
    grun fuel cfg = Return s' ->
    exists k, gsteps k cfg = Some (END, s').
Proof.
  induction fuel as [|fuel IH]; intros [node s] s' H.
  - destruct node; simpl in H; try discriminate.
    inversion H; subst. now exists 0.
  - rewrite run_S in H.
    destruct (gstep (node, s)) as [[cfg1|e]|] eqn:E; cbn [bind] in H.
    + destruct (IH _ _ H) as [k Hk]. exists (S k). cbn [steps].
      now rewrite E.
    + discriminate.
    + destruct node; simpl in E; try discriminate.
      inversion H; subst. now exists 0.
Qed.

(** From a reasoning step with [n] calls left in the budget the graph needs
    at most [2 * n + 1] steps, when the tool calls the model asks for carry
    both keys. *)
Lemma run_from_reason (n : nat) :
  forall s fuel,
    (0 <= max_llm_calls)%Z ->
    (forall log response,
        llm log = Return response ->
        Forall has_both_keys (tool_calls response)) ->
    session_invariant max_llm_calls (NodeReason, s) ->
    Z.to_nat (max_llm_calls - iteration_count s) <= n ->
    2 * n + 1 <= fuel ->
    exists s', grun fuel (NodeReason, s) = Return s'.
Proof.
  induction n as [|n IH]; intros s fuel Hmax Hkeys Hinv Hn Hfuel;
    (destruct fuel as [|fuel]; [lia|]);
    rewrite run_S;
    pose proof (invariant_step max_llm_calls reasoning client current_date
                  llm system_prompt tools (NodeReason, s) _ Hmax Hinv
                  eq_refl) as Hinv1;
    cbn [graph_step bind];
    destruct (reason_done_or_continue s)
      as [(Hdone & _)|(Hlt & Hic & Hsame & _ & r & Hr & _ & Hlog)].
  - apply complete_routes_to_end in Hdone. rewrite Hdone.
    eexists. apply run_END.
  - lia.
  - apply complete_routes_to_end in Hdone. rewrite Hdone.
    eexists. apply run_END.
  - destruct (workflow_controller_decide_next (reason s)) eqn:R;
      cbn [route_target] in *.
    + eexists. apply run_END.
    + destruct fuel as [|fuel]; [lia|]. rewrite run_S. cbn [graph_step].
      destruct (dispatch_returns (reason s)) as [s1 D].
      { intros last. rewrite Hlog, last_message_snoc.
        intros H. inversion H; subst last. exact (Hkeys _ _ Hr). }
      assert (Hstep : gstep (NodeToolExecutor, reason s)
                      = Some (Return (NodeReason, s1)))
        by (cbn [graph_step]; now rewrite D).
      pose proof (invariant_step max_llm_calls reasoning client current_date
                    llm system_prompt tools (NodeToolExecutor, reason s) _
                    Hmax Hinv1 Hstep) as Hinv2.
      rewrite D. cbn [bind].
      apply IH; try assumption; [|lia].
      destruct (dispatch_frame tools (reason s) s1 D) as (-> & _). lia.
    + apply IH; try assumption; lia.
Qed.

Lemma initialize_step (s0 : ResearchState) :
  gstep (NodeInitialize, s0) = Some (Return (NodeReason, initialize s0)).
Proof. reflexivity. Qed.

(** With enough steps allowed, and tool calls that carry both keys,
    [research] returns the state of the [END] configuration that the session
    reaches. *)
Lemma research_reaches_end (query ci : pystr) (sid : option pystr) :
  (0 <= max_llm_calls)%Z ->
  2 * Z.to_nat max_llm_calls + 2 <= recursion_limit ->
  (forall log response,
      llm log = Return response ->
      Forall has_both_keys (tool_calls response)) ->
  exists k s',
    gsteps k (NodeInitialize, start query ci sid) = Some (END, s')
    /\ research max_llm_calls reasoning client current_date llm
                system_prompt tools recursion_limit query ci sid
       = {| r_success := true;
            r_final_answer := final_answer s';
            r_error := None;
            r_messages := messages s';
            r_tools_used := tools_used s';
            r_iterations := iteration_count s';
            r_is_complete := is_complete s';
            r_session_id := sid |}.
Proof.
  intros Hmax Hlimit Hkeys.
  destruct recursion_limit as [|fuel] eqn:L; [lia|].
  pose proof (invariant_step max_llm_calls reasoning client current_date llm
                system_prompt tools
                (NodeInitialize, start query ci sid) _ Hmax
                (invariant_initially _ query ci sid Hmax) eq_refl) as Hinv.
  destruct (run_from_reason (Z.to_nat max_llm_calls)
              (initialize (start query ci sid)) fuel Hmax Hkeys Hinv)
    as [s' Hs']; [simpl; lia|lia|].
  assert (Hrun : grun (S fuel) (NodeInitialize, start query ci sid)
                 = Return s') by (rewrite run_S; exact Hs').
  destruct (run_returns_reachable _ _ _ Hrun) as [k Hk].
  exists k, s'. split; [exact Hk|].
  unfold research, ainvoke. now rewrite Hrun.
Qed.

(** X1. When the graph may take at least [2 * max_llm_calls + 2] steps and
    every tool call the model asks for carries the keys ['name'] and
    ['arguments'], every call of [research] returns with [success] and
    [is_complete] true, a final answer, no error, and an iteration count
    between zero and the budget. *)
Theorem X1_research_always_completes
    (query ci : pystr) (sid : option pystr) :
  (0 <= max_llm_calls)%Z ->
  2 * Z.to_nat max_llm_calls + 2 <= recursion_limit ->
  (forall log response,
      llm log = Return response ->
      Forall (fun tc => tc_name tc <> None /\ tc_arguments tc <> None)
             (tool_calls response)) ->
  let r := research max_llm_calls reasoning client current_date llm
                    system_prompt tools recursion_limit query ci sid in
  r_success r = true
  /\ r_is_complete r = true
  /\ r_final_answer r <> None
  /\ r_error r = None
  /\ (0 <= r_iterations r <= max_llm_calls)%Z.
Proof.
  intros Hmax Hlimit Hkeys r.
  destruct (research_reaches_end query ci sid Hmax Hlimit Hkeys)
    as (k & s' & Hk & Hr).
  subst r. rewrite Hr. cbn.
  assert (H0 : ends_answered max_llm_calls
                 (NodeInitialize, start query ci sid)).
  { split; [exact (invariant_initially _ query ci sid Hmax)|discriminate]. }
  pose proof (steps_invariant _
                (fun c c' => ends_answered_step c c' Hmax) k _ _ H0 Hk)
    as [(_ & Hi & _) Hend].
  destruct (Hend eq_refl) as [Hc Hf]. cbn [snd] in *.
  repeat split; try assumption; lia.
Qed.

(** X2. When the model always answers, never gives both answer tags, and
    asks only for tool calls that carry the keys ['name'] and ['arguments'],
    the session uses the whole budget: [research] returns the
    iteration-limit notice as final answer and an iteration count equal to
    the budget. *)
Theorem X2_budget_exhaustion (query ci : pystr) (sid : option pystr) :
  (0 <= max_llm_calls)%Z ->
  2 * Z.to_nat max_llm_calls + 2 <= recursion_limit ->
  (forall log, exists response,
      llm log = Return response
      /\ contains OPEN_TAG (content response)
         && contains CLOSE_TAG (content response) = false
      /\ Forall (fun tc => tc_name tc <> None /\ tc_arguments tc <> None)
                (tool_calls response)) ->
  let r := research max_llm_calls reasoning client current_date llm
                    system_prompt tools recursion_limit query ci sid in
  r_success r = true
  /\ r_is_complete r = true
  /\ r_final_answer r = Some iteration_limit_notice
  /\ r_iterations r = max_llm_calls.
Proof.
  intros Hmax Hlimit Hquiet r.
  assert (Hkeys : forall log response,
             llm log = Return response ->
             Forall has_both_keys (tool_calls response)).
  { intros log response Hl. destruct (Hquiet log) as (r0 & Hl0 & _ & Hk0).
    rewrite Hl in Hl0. inversion Hl0; subst. exact Hk0. }
  destruct (research_reaches_end query ci sid Hmax Hlimit Hkeys)
    as (k & s' & Hk & Hr).
  subst r. rewrite Hr. cbn.
  set (P := fun cfg : Node * ResearchState =>
              ends_answered max_llm_calls cfg
              /\ (is_complete (snd cfg) = true ->
                  final_answer (snd cfg) = Some iteration_limit_notice
                  /\ iteration_count (snd cfg) = max_llm_calls)).
  assert (Hstep : forall cfg cfg',
             P cfg -> gstep cfg = Some (Return cfg') -> P cfg').
  { intros cfg cfg' [Hea HP] Hs.
    split; [exact (ends_answered_step _ _ Hmax Hea Hs)|].
    destruct cfg as [node s]. destruct Hea as [(_ & Hi & Hc) _].
    cbn [snd] in *.
    destruct (step_cases _ _ _ Hs)
      as [[-> ->]|[[-> ->]|(-> & s1 & D & ->)]]; cbn [snd].
    - discriminate.
    - destruct (Z.le_gt_cases max_llm_calls (iteration_count s)) as [Hge|Hlt].
      + rewrite (reason_budget_exhausted _ _ _ _ _ _ Hge). simpl.
        intros _. split; [reflexivity|lia].
      + destruct (Hquiet (current_messages reasoning (messages s)))
          as (resp & Hl & Hno & _).
        rewrite (reason_no_final_answer _ _ _ _ _ _ _ Hlt Hl Hno). simpl.
        intros Ht. specialize (Hc Ht). discriminate.
    - destruct (dispatch_frame tools s s1 D) as (_ & _ & -> & _).
      intros Ht. specialize (Hc Ht). discriminate. }
  assert (H0 : P (NodeInitialize, start query ci sid)).
  { split; [split; [exact (invariant_initially _ query ci sid Hmax)
                   |discriminate]|discriminate]. }
  destruct (steps_invariant P Hstep k _ _ H0 Hk) as [[_ Hend] HP].
  destruct (Hend eq_refl) as [Hc _]. cbn [snd] in *.
  destruct (HP Hc) as [Hf Hi]. now rewrite Hc, Hf, Hi.
Qed.

(** After its first step a session's log starts with a system message
    followed by the request. The content of the system message ends with the
    agent's system prompt; with the OpenAI client the message is the one
    that initialization made. *)
Lemma session_log_prefix
    (query ci : pystr) (sid : option pystr) (k : nat)
    (node : Node) (s : ResearchState) :
  gsteps (S k) (NodeInitialize, start query ci sid) = Some (node, s) ->
  exists sys suffix,
    messages s = sys :: initial_messages query ci ++ suffix
    /\ is_system sys = true
    /\ (exists added, content sys = added ++ system_prompt)
    /\ (client = OpenAI -> sys = mk_message SystemMessage system_prompt).
Proof.
  intros Hk.
  set (P := fun cfg : Node * ResearchState =>
              exists sys suffix,
                messages (snd cfg) = sys :: initial_messages query ci ++ suffix
                /\ is_system sys = true
                /\ (exists added, content sys = added ++ system_prompt)
                /\ (client = OpenAI ->
                    sys = mk_message SystemMessage system_prompt)).
  assert (Hstep : forall cfg cfg',
             P cfg -> gstep cfg = Some (Return cfg') -> P cfg').
  { intros [n0 s0] cfg' (sys & suffix & Hs & Hsys & Hend & Hopen) H.
    cbn [snd] in Hs.
    destruct (step_cases _ _ _ H)
      as [[-> ->]|[[-> ->]|(-> & s1 & D & ->)]]; unfold P; cbn [snd].
    - unfold researcher_initialize. cbn [messages]. rewrite Hs.
      cbn [existsb]. rewrite Hsys. cbn [orb negb].
      exists sys, suffix. auto.
    - destruct (after_invoke_head (current_date (iteration_count s0)) sys
                  (initial_messages query ci ++ suffix) Hsys)
        as (sys' & Hafter & Hsys' & [added' Hadd] & Hopen').
      rewrite <- Hs in Hafter.
      assert (Hend' : exists added, content sys' = added ++ system_prompt).
      { destruct Hend as [added Hc]. exists (added' ++ added).
        now rewrite Hadd, Hc, app_assoc. }
      assert (Hsame : client = OpenAI ->
                      sys' = mk_message SystemMessage system_prompt).
      { intros Hc. now rewrite (Hopen' Hc), (Hopen Hc). }
      destruct (reason_messages s0) as [->|[->|(r & _ & ->)]].
      + rewrite Hs. exists sys, suffix. auto.
      + rewrite Hafter. exists sys', suffix. auto.
      + rewrite Hafter. exists sys', (suffix ++ [r]).
        split; [now rewrite <- app_comm_cons, <- app_assoc|auto].
    - destruct (dispatch_spec _ _ D)
        as [->|(last & results & _ & _ & _ & _ & -> & _)].
      + exists sys, suffix. auto.
      + rewrite Hs. exists sys, (suffix ++ map fst results).
        split; [now rewrite <- app_comm_cons, <- app_assoc|auto]. }
  destruct (steps_S _ _ _ _ _ _ _ _ _ _ Hk) as (cfg1 & E & Hk1).
  cbn [graph_step] in E. inversion E; subst cfg1; clear E.
  assert (H0 : P (NodeReason, initialize (start query ci sid))).
  { exists (mk_message SystemMessage system_prompt), [].
    cbn [snd]. rewrite app_nil_r. repeat split; auto. now exists []. }
  exact (steps_invariant P Hstep k _ _ H0 Hk1).
Qed.

(** X3. Once the session is initialized its log starts with a system message
    followed by the request; the content of the system message ends with the
    agent's system prompt and, with the OpenAI client, is that prompt. A
    reasoning step keeps every message after the first and appends at most
    the response (never the thinking prompt); the first message keeps the
    end of its content, the Ollama client may have put text in front of it,
    the OpenAI client leaves it alone. A dispatch step that returns appends
    one message for each tool call. *)
Theorem X3_log_is_append_only
    (query ci : pystr) (sid : option pystr) (k : nat)
    (node : Node) (s : ResearchState) :
  gsteps (S k) (NodeInitialize, start query ci sid) = Some (node, s) ->
  exists sys suffix,
    messages s = sys :: initial_messages query ci ++ suffix
    /\ is_system sys = true
    /\ (exists added, content sys = added ++ system_prompt)
    /\ (client = OpenAI -> sys = mk_message SystemMessage system_prompt)
    /\ (exists sys' appended,
          messages (reason s)
          = sys' :: initial_messages query ci ++ suffix ++ appended
          /\ (appended = []
              \/ exists response,
                   llm (current_messages reasoning (messages s))
                   = Return response
                   /\ appended = [response])
          /\ is_system sys' = true
          /\ (exists added, content sys' = added ++ content sys)
          /\ (client = OpenAI -> sys' = sys))
    /\ (forall s',
          dispatch s = Return s' ->
          exists replies,
            messages s' = messages s ++ replies
            /\ (s' = s \/
                exists last, last_message (messages s) = Some last
                             /\ List.length replies
                                = List.length (tool_calls last))).
Proof.
  intros Hk.
  destruct (session_log_prefix query ci sid k node s Hk)
    as (sys & suffix & Hs & Hsys & Hend & Hopen).
  exists sys, suffix. repeat split; try assumption.
  - destruct (after_invoke_head (current_date (iteration_count s)) sys
                (initial_messages query ci ++ suffix) Hsys)
      as (sys' & Hafter & Hsys' & Hadd & Hopen').
    rewrite <- Hs in Hafter.
    destruct (reason_messages s) as [->|[->|(r & Hr & ->)]].
    + exists sys, []. rewrite app_nil_r. repeat split; auto.
      now exists [].
    + exists sys', []. rewrite app_nil_r. repeat split; auto.
    + exists sys', [r]. rewrite Hafter, <- app_comm_cons, <- app_assoc.
      repeat split; auto. right. now exists r.
  - intros s' D.
    destruct (dispatch_spec _ _ D)
      as [->|(last & results & Hl & _ & _ & Hall & Hm & _)].
    + exists []. rewrite app_nil_r. split; [reflexivity|now left].
    + exists (map fst results). split; [exact Hm|]. right. exists last.
      split; [exact Hl|].
      rewrite length_map. symmetry. exact (Forall2_length Hall).
Qed.

(** X4. Initialization is idempotent; it leaves a log that holds a system
    message, made of the given log with at most the system prompt put in
    front; and it keeps whatever final answer the state carried. *)
Theorem X4_initialize_idempotent (s : ResearchState) :
  initialize (initialize s) = initialize s
  /\ existsb is_system (messages (initialize s)) = true
  /\ (messages (initialize s) = messages s
      \/ messages (initialize s)
         = mk_message SystemMessage system_prompt :: messages s)
  /\ (existsb is_system (messages s) = true ->
      messages (initialize s) = messages s)
  /\ final_answer (initialize s) = final_answer s.
Proof.
  unfold researcher_initialize. cbn [messages final_answer current_task
    session_id].
  destruct (existsb is_system (messages s)) eqn:E; cbn [negb].
  - rewrite E. cbn [negb]. repeat split; auto.
  - cbn [existsb is_system mk_message msg_class orb negb].
    repeat split; auto. discriminate.
Qed.

(** X5. In every configuration of a session, each name in [tools_used] is
    the name of a registered tool and was requested by a tool call of a
    message in the log. *)
Theorem X5_tools_used_are_registered_and_requested
    (query ci : pystr) (sid : option pystr) (k : nat)
    (node : Node) (s : ResearchState) :
  gsteps k (NodeInitialize, start query ci sid) = Some (node, s) ->
  Forall (fun n =>
            lookup n <> None
            /\ exists m tc, In m (messages s) /\ In tc (tool_calls m)
                            /\ tc_name tc = Some n)
         (tools_used s).
Proof.
  set (Q := fun (ms : list BaseMessage) (n : pystr) =>
              lookup n <> None
              /\ exists m tc, In m ms /\ In tc (tool_calls m)
                              /\ tc_name tc = Some n).
  assert (Hmono : forall ms extra n, Q ms n -> Q (ms ++ extra) n).
  { intros ms extra n [Hl (m & tc & Hm & Htc & Hn)]. split; [exact Hl|].
    exists m, tc. repeat split; auto. apply in_or_app. now left. }
  assert (Hafter : forall date ms n,
             Q ms n -> Q (messages_after_invoke reasoning client date ms) n).
  { intros date ms n [Hl (m & tc & Hm & Htc & Hn)]. split; [exact Hl|].
    destruct (after_invoke_keeps_calls date ms m Hm) as (m' & Hm' & Hcalls).
    exists m', tc. rewrite Hcalls. auto. }
  set (P := fun cfg : Node * ResearchState =>
              Forall (Q (messages (snd cfg))) (tools_used (snd cfg))).
  assert (Hstep : forall cfg cfg',
             P cfg -> gstep cfg = Some (Return cfg') -> P cfg').
  { intros [n0 s0] cfg' HP H. unfold P in *. cbn [snd] in HP.
    destruct (step_cases _ _ _ H)
      as [[-> ->]|[[-> ->]|(-> & s1 & D & ->)]]; cbn [snd].
    - constructor.
    - rewrite reason_tools_used.
      destruct (reason_messages s0) as [->|[->|(r & _ & ->)]];
        [exact HP| |];
        (eapply Forall_impl; [|exact HP]); intros n Hn;
        [|apply Hmono]; now apply Hafter.
    - destruct (dispatch_spec _ _ D)
        as [->|(last & results & Hl & _ & _ & Hall & -> & ->)];
        [exact HP|].
      apply Forall_app. split.
      + eapply Forall_impl; [|exact HP]. intros n; apply Hmono.
      + apply Forall_forall. intros n Hn.
        apply in_flat_map in Hn as (result & Hres & Hn).
        destruct (Forall2_In_right _ _ _ _ Hall Hres) as (tc & Htc & Hrun).
        destruct (names_of_call _ _ _ Hrun Hn) as [Hname Hreg].
        split; [exact Hreg|]. exists last, tc. repeat split; auto.
        apply in_or_app. left. now apply last_message_In. }
  intros Hk.
  assert (H0 : P (NodeInitialize, start query ci sid)) by constructor.
  exact (steps_invariant P Hstep k _ _ H0 Hk).
Qed.

(** X6. [get_tool_by_name] returns a tool that is available and has exactly
    the name asked for, the first such tool of the list; it returns nothing
    exactly when no available tool has that name. *)
Theorem X6_get_tool_by_name_lookup (n : pystr) :
  (forall tool, lookup n = Some tool ->
     name tool = n
     /\ exists before after,
          tools = before ++ tool :: after
          /\ forall other, In other before -> name other <> n)
  /\ (lookup n = None <-> forall tool, In tool tools -> name tool <> n).
Proof.
  unfold get_tool_by_name. induction tools as [|t ts [IH1 IH2]].
  - split; [discriminate|]. split; [intros _ tool []|reflexivity].
  - cbn [find_tool]. destruct (PyStr.eqb (name t) n) eqn:E.
    + apply eqb_eq in E. split.
      * intros tool H. inversion H; subst tool. split; [exact E|].
        exists [], ts. split; [reflexivity|intros other []].
      * split; [discriminate|]. intros H. exfalso.
        exact (H t (or_introl eq_refl) E).
    + assert (Hne : name t <> n)
        by (intros H; apply eqb_eq in H; congruence).
      split.
      * intros tool H. destruct (IH1 tool H) as (Hn & b & a & -> & Hb).
        split; [exact Hn|]. exists (t :: b), a. split; [reflexivity|].
        intros other [<-|Ho]; auto.
      * rewrite IH2. split.
        -- intros H tool [<-|Ht]; auto.
        -- intros H tool Ht. apply H. now right.
Qed.

(** X7. Tool dispatch is idempotent: the replies it appends carry no tool
    calls, so running the step again on a state it returned returns that
    state unchanged. *)
Theorem X7_dispatch_idempotent (s s' : ResearchState) :
  dispatch s = Return s' -> dispatch s' = Return s'.
Proof.
  intros D.
  destruct (dispatch_spec _ _ D)
    as [->|(last & results & _ & _ & Hne & Hall & Hm & _)];
    [exact D|].
  destruct results as [|result0 results0] eqn:R.
  { inversion Hall as [Hnil|]. symmetry in Hnil. contradiction. }
  rewrite <- R in *.
  destruct (exists_last (l := results)) as (front & result & Hr);
    [rewrite R; discriminate|].
  assert (Hin : In result results)
    by (rewrite Hr; apply in_or_app; right; now left).
  destruct (Forall2_In_right _ _ _ _ Hall Hin) as (tc & _ & Hrun).
  rewrite Hr, map_app, app_assoc in Hm. cbn [map] in Hm.
  unfold tool_executor_execute.
  rewrite Hm, last_message_snoc.
  destruct (reply_has_no_calls _ _ Hrun) as [-> ->]. reflexivity.
Qed.

(** X30. With the Ollama client the system message of a session's log
    grows with every model call: in a configuration from which the session
    goes on, the log starts with a system message whose content is, for each
    call made so far, the latest first, the client's prompt, the date of the
    call and a blank line, and then the agent's system prompt; the request
    follows it. *)
Theorem X30_ollama_system_message_grows
    (client_prompt : pystr)
    (query ci : pystr) (sid : option pystr) (k : nat)
    (node : Node) (s : ResearchState) :
  client = Ollama client_prompt ->
  gsteps (S k) (NodeInitialize, start query ci sid) = Some (node, s) ->
  node <> END ->
  (0 <= iteration_count s)%Z
  /\ exists suffix,
       messages s
       = {| msg_class := SystemMessage;
            content :=
              ollama_prefixes client_prompt current_date
                              (Z.to_nat (iteration_count s))
              ++ system_prompt;
            tool_calls := [];
            tool_call_id := None |}
         :: initial_messages query ci ++ suffix.
Proof.
  intros Hclient Hk.
  set (sys := fun n : nat =>
                {| msg_class := SystemMessage;
                   content := ollama_prefixes client_prompt current_date n
                              ++ system_prompt;
                   tool_calls := [];
                   tool_call_id := None |}).
  set (P := fun cfg : Node * ResearchState =>
              fst cfg <> NodeInitialize
              /\ (fst cfg <> END ->
                  (0 <= iteration_count (snd cfg))%Z
                  /\ exists suffix,
                       messages (snd cfg)
                       = sys (Z.to_nat (iteration_count (snd cfg)))
                         :: initial_messages query ci ++ suffix)).
  assert (Hstep : forall cfg cfg',
             P cfg -> gstep cfg = Some (Return cfg') -> P cfg').
  { intros [n0 s0] cfg' [Hnode HP] H.
    destruct (step_cases _ _ _ H)
      as [[-> ->]|[[-> ->]|(-> & s1 & D & ->)]]; unfold P;
      cbn [fst snd] in *.
    - contradiction.
    - split.
      { destruct (workflow_controller_decide_next (reason s0));
          discriminate. }
      intros Hroute.
      destruct (HP ltac:(discriminate)) as (Hpos & suffix & Hs).
      assert (Hgo : is_complete (reason s0) <> true).
      { intros Hc. apply Hroute. now apply complete_routes_to_end. }
      destruct (reason_done_or_continue s0)
        as [(Hdone & _)|(Hlt & Hic & _ & _ & r & _ & _ & Hlog)];
        [contradiction|].
      rewrite Hic, Hlog. split; [lia|]. exists (suffix ++ [r]).
      rewrite Hs. unfold messages_after_invoke. rewrite Hclient.
      cbn [is_system msg_class sys].
      replace (Z.to_nat (iteration_count s0 + 1))
        with (S (Z.to_nat (iteration_count s0))) by lia.
      unfold sys, enhanced.
      cbn [ollama_prefixes content msg_class tool_calls tool_call_id].
      rewrite Z2Nat.id by exact Hpos.
      rewrite <- app_comm_cons, <- !app_assoc. reflexivity.
    - split; [discriminate|]. intros _.
      destruct (HP ltac:(discriminate)) as (Hpos & suffix & Hs).
      destruct (dispatch_frame tools s0 s1 D) as (-> & _).
      split; [exact Hpos|].
      destruct (dispatch_spec _ _ D)
        as [->|(last & results & _ & _ & _ & _ & -> & _)].
      + now exists suffix.
      + rewrite Hs. exists (suffix ++ map fst results).
        now rewrite <- app_comm_cons, <- app_assoc. }
  destruct (steps_S _ _ _ _ _ _ _ _ _ _ Hk) as (cfg1 & E & Hk1).
  cbn [graph_step] in E. inversion E; subst cfg1; clear E.
  assert (H0 : P (NodeReason, initialize (start query ci sid))).
  { split; [discriminate|]. intros _. cbn [snd].
    split; [cbn; lia|]. exists []. rewrite app_nil_r. reflexivity. }
  intros Hnode.
  exact (proj2 (steps_invariant P Hstep k _ _ H0 Hk1) Hnode).
Qed.

End Session.

Section ConcreteSessions.
Import Samples.

Lemma X30_witness :
  exists s,
    steps 3 false (Ollama ollama_prompt) date llm_searches_once prompt tools
          3 (NodeInitialize, initial_state 3 question [] None)
    = Some (NodeReason, s)
    /\ iteration_count s = 1%Z
    /\ map content (firstn 1 (messages s))
       = [py "You can search the web." ++ nl ++ nl
          ++ py "Current date: 2025-06-01" ++ nl ++ nl
          ++ py "You are a research assistant."].
Proof.
  destruct (X30_ollama_system_message_grows
              3 false (Ollama ollama_prompt) date llm_searches_once prompt
              tools ollama_prompt question [] None 2 _ _
              eq_refl eq_refl ltac:(discriminate))
    as (_ & suffix & Hm).
  eexists. split; [reflexivity|]. split; [reflexivity|].
  rewrite Hm. reflexivity.
Defined.

Lemma X1_witness :
  let r := research 3 false OpenAI date llm_searches_once prompt tools 25
                    question [] None in
  r_success r = true
  /\ r_is_complete r = true
  /\ r_final_answer r <> None
  /\ r_error r = None
  /\ (0 <= r_iterations r <= 3)%Z.
Proof.
  refine (X1_research_always_completes 3 false OpenAI date llm_searches_once
            prompt tools 25 question [] None _ _ _).
  - lia.
  - simpl. lia.
  - intros log response. unfold llm_searches_once.
    destruct (existsb _ log); intros H; inversion H;
      repeat constructor; discriminate.
Defined.

Lemma X2_witness :
  let r := research 3 false OpenAI date
                    (llm_says (py "Let me search.") [call "search"])
                    prompt tools 25 question [] None in
  r_success r = true
  /\ r_is_complete r = true
  /\ r_final_answer r = Some iteration_limit_notice
  /\ r_iterations r = 3%Z.
Proof.
  refine (X2_budget_exhaustion 3 false OpenAI date
            (llm_says (py "Let me search.") [call "search"]) prompt
            tools 25 question [] None _ _ _).
  - lia.
  - simpl. lia.
  - intros log. eexists. split; [reflexivity|]. split; [reflexivity|].
    repeat constructor; discriminate.
Defined.

Lemma X3_witness :
  exists node s sys suffix,
    steps 3 false (Ollama ollama_prompt) date llm_searches_once prompt tools
          4 (NodeInitialize, initial_state 3 question [] None)
    = Some (node, s)
    /\ messages s = sys :: initial_messages question [] ++ suffix
    /\ is_system sys = true.
Proof.
  destruct (X3_log_is_append_only 3 false (Ollama ollama_prompt) date
              llm_searches_once prompt tools question [] None 3
              _ _ eq_refl) as (sys & suffix & Hm & Hs & _).
  eexists. eexists. exists sys, suffix.
  split; [reflexivity|]. split; assumption.
Defined.

Lemma X7_witness :
  exists s',
    tool_executor_execute tools state_with_calls = Return s'
    /\ tool_executor_execute tools s' = Return s'.
Proof.
  eexists. split; [reflexivity|].
  apply (X7_dispatch_idempotent tools state_with_calls).
  reflexivity.
Defined.

Lemma X5_witness :
  exists node s,
    steps 3 false OpenAI date llm_searches_once prompt tools 4
          (NodeInitialize, initial_state 3 question [] None)
    = Some (node, s)
    /\ tools_used s = [py "search"]
    /\ Forall (fun n =>
                 get_tool_by_name tools n <> None
                 /\ exists m tc, In m (messages s) /\ In tc (tool_calls m)
                                 /\ tc_name tc = Some n)
              (tools_used s).
Proof.
  eexists. eexists. split; [reflexivity|]. split; [reflexivity|].
  refine (X5_tools_used_are_registered_and_requested 3 false OpenAI date
            llm_searches_once prompt tools question [] None 4 _ _ _).
  reflexivity.
Defined.

End ConcreteSessions.

End AgentExtra.

(** * Properties of the streamed messages *)

Module StreamProps.
Import Stream PyStrFacts.

Lemma attr_or_empty_nonempty (a : option pystr) :
  nonempty (attr_or_empty a) = attr_truthy a.
Proof. now destruct a as [[|c s]|]. Qed.

Lemma attr_or_empty_value (a : option pystr) :
  attr_or_empty a = attr_value a.
Proof. now destruct a as [[|c s]|]. Qed.

Section ChatStream.

Variable ASSISTANT : pystr.
Variable json_loads : pystr -> PyResult PyValue.
Variable json_dumps : PyValue -> pystr.

Local Notation "'piecewise'" :=
  (delta_chunk ASSISTANT json_loads json_dumps).
Local Notation "'growing'" :=
  (cumulative_chunk ASSISTANT json_loads json_dumps).
Local Notation "'pieces'" := (delta_loop ASSISTANT json_loads json_dumps).
Local Notation "'loop'" :=
  (cumulative_chunks ASSISTANT json_loads json_dumps).
Local Notation "'snapshots'" :=
  (cumulative_loop ASSISTANT json_loads json_dumps).

(** The text of the pieces that the piecewise mode yields. *)
Local Notation "'text_of'" := (fun ms => List.concat (map m_content ms)).

(** What a chunk adds to the content buffer. *)
Local Notation "'held_of'" :=
  (fun c => match choices c with
            | [] => []
            | choice :: _ =>
                attr_or_empty (content (delta choice))
                ++ match tool_calls (delta choice) with
                   | [] => []
                   | _ :: _ => TOOL_CALL_OPEN
                   end
            end).

(** One chunk in snapshot mode, when the body does not raise: the piecewise
    mode does not raise either, the two full strings grow by the text of the
    chunk's pieces and by its reasoning, and either nothing is yielded and
    the buffers grow, or the new snapshot is yielded and the buffers are
    emptied. *)
Lemma cumulative_chunk_return (b b' : Buffers) (c : Chunk)
    (ys : list Message) :
  growing b c = Return (b', ys) ->
  exists ps,
    piecewise c = (ps, None)
    /\ full_response b' = full_response b ++ text_of ps
    /\ full_reasoning_content b'
       = full_reasoning_content b ++ chunk_reasoning c
    /\ (held_of c = [] -> text_of ps = [])
    /\ ((ys = []
         /\ content_buffer b' = content_buffer b ++ held_of c
         /\ reasoning_content_buffer b'
            = reasoning_content_buffer b ++ chunk_reasoning c
         /\ (choices c <> [] ->
             (len (content_buffer b') < CONTENT_THRESHOLD)%Z
             /\ (len (reasoning_content_buffer b') < REASONING_THRESHOLD)%Z))
        \/ (ys = [snapshot ASSISTANT b']
            /\ content_buffer b' = []
            /\ reasoning_content_buffer b' = [])).
Proof.
  unfold cumulative_chunk, buffers_with_new_text, delta_chunk,
    chunk_reasoning.
  destruct (choices c) as [|[d] other].
  - intros H. inversion H; subst. exists [].
    cbn. rewrite !app_nil_r. repeat split; auto. left.
    repeat split; auto; contradiction.
  - cbn [delta]. rewrite !attr_or_empty_nonempty, !attr_or_empty_value.
    set (thought := if attr_truthy (reasoning_content d) then _ else _).
    assert (Hthought : forall rest, text_of (thought ++ rest) = text_of rest).
    { intros rest. unfold thought.
      now destruct (attr_truthy (reasoning_content d)). }
    destruct (reasoning d) as [[|y r]|], (content d) as [[|x s]|];
      cbn [attr_truthy attr_value nonempty];
      (destruct (tool_calls d) as [|tc calls];
       [|destruct (function_json json_loads json_dumps tc) as [fj|ex];
         [|discriminate]]);
      cbn [bind full_response full_reasoning_content content_buffer
           reasoning_content_buffer];
      match goal with
      | |- (if ?cond then _ else _) = _ -> _ =>
          destruct cond eqn:Hflush
      end.
    all: intros H; inversion H; subst; clear H.
    all: eexists; split; [reflexivity|]; rewrite ?Hthought;
      cbn [map List.concat m_content app full_response
           full_reasoning_content content_buffer reasoning_content_buffer
           snapshot];
      rewrite ?app_nil_r, <- ?app_assoc; cbn [app].
    all: split; [try reflexivity|].
    all: split; [try reflexivity|].
    all: split; [try reflexivity; intros Hh; try discriminate Hh|].
    all: first [right; repeat split; reflexivity|left; split; [reflexivity|]].
    all: try (split; [reflexivity|]).
    all: try (split; [reflexivity|]).
    all: intros _; rewrite <- ?app_assoc in Hflush; cbn [app] in Hflush;
      apply orb_false_iff in Hflush as [Hflush _];
      apply orb_false_iff in Hflush as [Hflush _];
      apply orb_false_iff in Hflush as [H1 H2];
      rewrite Z.geb_leb in H1, H2; apply Z.leb_gt in H1, H2;
      split; assumption.
Qed.

(** When the body raises in snapshot mode, the piecewise mode raises the
    same exception at the same chunk. *)
Lemma cumulative_chunk_raise (b : Buffers) (c : Chunk) (ex : Exn) :
  growing b c = Raise ex -> exists ps, piecewise c = (ps, Some ex).
Proof.
  unfold cumulative_chunk, buffers_with_new_text, delta_chunk.
  destruct (choices c) as [|[d] other]; [discriminate|].
  cbn [delta].
  destruct (tool_calls d) as [|tc calls].
  - cbn [bind]. now destruct (_ || _).
  - destruct (function_json json_loads json_dumps tc) as [fj|ex'].
    + cbn [bind]. now destruct (_ || _).
    + cbn [bind]. intros H. inversion H; subst. eexists. reflexivity.
Qed.


(** The snapshot mode, one chunk at a time. *)
Lemma cumulative_loop_cons (c : Chunk) (rest : list Chunk) (e : StreamEnd)
    (b : Buffers) :
  snapshots (c :: rest) e b
  = match growing b c with
    | Raise ex => {| yielded := []; ending := ExceptionRaised ex |}
    | Return (b', ys) =>
        {| yielded := ys ++ yielded (snapshots rest e b');
           ending := ending (snapshots rest e b') |}
    end.
Proof.
  unfold cumulative_loop. cbn [cumulative_chunks].
  destruct (growing b c) as [[b' ys]|ex]; [|reflexivity].
  destruct (loop rest b') as [[b'' ys'] [ex|]]; [reflexivity|].
  destruct e; cbn [yielded ending]; now rewrite ?app_assoc.
Qed.

Lemma same_ending (cs : list Chunk) (e : StreamEnd) :
  forall b, ending (snapshots cs e b) = ending (pieces cs e).
Proof.
  induction cs as [|c rest IH]; intros b.
  - unfold cumulative_loop. cbn. now destruct e.
  - rewrite cumulative_loop_cons. cbn [delta_loop].
    destruct (growing b c) as [[b' ys]|ex] eqn:E.
    + destruct (cumulative_chunk_return _ _ _ _ E) as (ps & -> & _).
      cbn [ending]. apply IH.
    + destruct (cumulative_chunk_raise _ _ _ E) as (ps & ->). reflexivity.
Qed.

(** A message that shows at least the text accumulated in [b]. *)
Local Notation "'extends'" :=
  (fun b m => exists x y,
       m_content m = full_response b ++ x
       /\ m_reasoning_content m = Some (full_reasoning_content b ++ y)).

Local Notation "'grows'" :=
  (fun m m' => exists x r y,
       m_content m' = m_content m ++ x
       /\ m_reasoning_content m = Some r
       /\ m_reasoning_content m' = Some (r ++ y)).

Lemma snapshots_extend (cs : list Chunk) (e : StreamEnd) :
  forall b, Forall (extends b) (yielded (snapshots cs e b)).
Proof.
  induction cs as [|c rest IH]; intros b.
  - unfold cumulative_loop. cbn [cumulative_chunks].
    destruct e; cbn [yielded app]; try constructor.
    destruct (_ || _); constructor; [|constructor].
    exists [], []. cbn. now rewrite !app_nil_r.
  - rewrite cumulative_loop_cons.
    destruct (growing b c) as [[b' ys]|ex] eqn:E; [|constructor].
    destruct (cumulative_chunk_return _ _ _ _ E)
      as (ps & _ & Hf & Hr & _ & Hys).
    cbn [yielded]. apply Forall_app. split.
    + destruct Hys as [(-> & _)|(-> & _)]; constructor; [|constructor].
      eexists; eexists. cbn. split; [exact Hf|now rewrite Hr].
    + eapply Forall_impl; [|apply IH].
      intros m (x & y & Hx & Hy). rewrite Hf in Hx. rewrite Hr in Hy.
      rewrite <- app_assoc in Hx, Hy. eauto.
Qed.

Lemma snapshots_grow (cs : list Chunk) (e : StreamEnd) :
  forall b, ForallOrdPairs grows (yielded (snapshots cs e b)).
Proof.
  induction cs as [|c rest IH]; intros b.
  - unfold cumulative_loop. cbn [cumulative_chunks].
    destruct e; cbn [yielded app]; try constructor.
    destruct (_ || _); repeat constructor.
  - rewrite cumulative_loop_cons.
    destruct (growing b c) as [[b' ys]|ex] eqn:E; [|constructor].
    destruct (cumulative_chunk_return _ _ _ _ E)
      as (ps & _ & _ & _ & _ & [(-> & _)|(-> & _)]);
      cbn [yielded app]; [apply IH|].
    constructor; [|apply IH].
    eapply Forall_impl; [|apply snapshots_extend].
    intros m (x & y & Hx & Hy). exists x, (full_reasoning_content b'), y.
    cbn. auto.
Qed.

Lemma pieces_cons (c : Chunk) (rest : list Chunk) (e : StreamEnd)
    (ps : list Message) :
  piecewise c = (ps, None) ->
  yielded (pieces (c :: rest) e) = ps ++ yielded (pieces rest e).
Proof. intros H. cbn [delta_loop]. now rewrite H. Qed.

(** When the snapshot mode finishes, its last message shows everything:
    the text of all pieces and the reasoning of all chunks, after what the
    buffers held at the start. *)
Lemma last_snapshot (cs : list Chunk) (e : StreamEnd) :
  forall b,
    ending (snapshots cs e b) = Finished ->
    (yielded (snapshots cs e b) = []
     /\ content_buffer b = [] /\ reasoning_content_buffer b = []
     /\ text_of (yielded (pieces cs e)) = []
     /\ List.concat (map chunk_reasoning cs) = [])
    \/ exists earlier,
         yielded (snapshots cs e b)
         = earlier ++
           [{| m_role := ASSISTANT;
               m_content :=
                 full_response b ++ text_of (yielded (pieces cs e));
               m_reasoning_content :=
                 Some (full_reasoning_content b
                       ++ List.concat (map chunk_reasoning cs)) |}].
Proof.
  induction cs as [|c rest IH]; intros b.
  - unfold cumulative_loop. cbn [cumulative_chunks].
    destruct e; cbn [ending yielded leave app]; try discriminate.
    intros _. destruct (content_buffer b) as [|x s] eqn:Ec;
      [destruct (reasoning_content_buffer b) as [|y r] eqn:Er|];
      cbn [nonempty orb].
    + left. cbn. auto.
    + right. exists []. cbn. now rewrite !app_nil_r.
    + right. exists []. cbn. now rewrite !app_nil_r.
  - rewrite cumulative_loop_cons.
    destruct (growing b c) as [[b' ys]|ex] eqn:E; [|discriminate].
    destruct (cumulative_chunk_return _ _ _ _ E)
      as (ps & Hp & Hf & Hr & Hheld & Hys).
    cbn [ending yielded]. intros Hend.
    rewrite (pieces_cons _ rest e _ Hp), map_app, concat_app.
    cbn [map List.concat].
    destruct (IH b' Hend) as [(Hy & Hc & Hrb & Ht & Hrs)|(earlier & Hy)].
    + rewrite Hy, Ht, Hrs, !app_nil_r.
      destruct Hys as [(-> & Hc' & Hr' & _)|(-> & _)].
      * left. rewrite Hc in Hc'. rewrite Hrb in Hr'.
        symmetry in Hc', Hr'.
        apply app_eq_nil in Hc' as [Hcb Hh].
        apply app_eq_nil in Hr' as [Hrb' Hcr].
        rewrite (Hheld Hh), Hcr. auto.
      * right. exists []. unfold snapshot. now rewrite Hf, Hr.
    + right. exists (ys ++ earlier). rewrite Hy, Hf, Hr.
      now rewrite <- !app_assoc.
Qed.

(** What the body has added to the two buffers when it comes to the tool
    calls of a chunk. *)
Lemma buffers_with_new_text_spec (b : Buffers) (c : Chunk) (choice : Choice)
    (others : list Choice) :
  choices c = choice :: others ->
  content_buffer (buffers_with_new_text b c)
  = content_buffer b ++ attr_or_empty (content (delta choice))
  /\ reasoning_content_buffer (buffers_with_new_text b c)
     = reasoning_content_buffer b ++ attr_or_empty (reasoning (delta choice)).
Proof.
  intros Hc. unfold buffers_with_new_text. rewrite Hc.
  destruct (attr_or_empty (content (delta choice))) as [|x s],
           (attr_or_empty (reasoning (delta choice))) as [|y r];
    cbn [nonempty content_buffer reasoning_content_buffer];
    now rewrite ?app_nil_r.
Qed.

(** Neither buffer holds as much as a threshold once a chunk is done. When
    the body raises, the buffers hold what they held after the chunk before,
    and the new text of the chunk at which it raises. *)
Lemma buffers_stay_short (cs : list Chunk) :
  forall b,
    (len (content_buffer b) < CONTENT_THRESHOLD)%Z
    /\ (len (reasoning_content_buffer b) < REASONING_THRESHOLD)%Z ->
    match loop cs b with
    | (b', _, None) =>
        (len (content_buffer b') < CONTENT_THRESHOLD)%Z
        /\ (len (reasoning_content_buffer b') < REASONING_THRESHOLD)%Z
    | (b', _, Some ex) =>
        exists b0 c choice others,
          In c cs
          /\ choices c = choice :: others
          /\ growing b0 c = Raise ex
          /\ (len (content_buffer b0) < CONTENT_THRESHOLD)%Z
          /\ (len (reasoning_content_buffer b0) < REASONING_THRESHOLD)%Z
          /\ content_buffer b'
             = content_buffer b0 ++ attr_or_empty (content (delta choice))
          /\ reasoning_content_buffer b'
             = reasoning_content_buffer b0
               ++ attr_or_empty (reasoning (delta choice))
    end.
Proof.
  induction cs as [|c rest IH]; intros b Hb; [exact Hb|].
  cbn [cumulative_chunks].
  destruct (growing b c) as [[b' ys]|ex] eqn:E.
  - assert (Hb' : (len (content_buffer b') < CONTENT_THRESHOLD)%Z
                  /\ (len (reasoning_content_buffer b')
                      < REASONING_THRESHOLD)%Z).
    { destruct (cumulative_chunk_return _ _ _ _ E)
        as (ps & _ & _ & _ & _ & [(_ & Hc & Hr & Hlt)|(_ & -> & ->)]).
      - destruct (choices c) as [|ch other] eqn:Ech.
        + unfold chunk_reasoning in Hr. rewrite Ech in Hr.
          rewrite app_nil_r in Hc, Hr. now rewrite Hc, Hr.
        + apply Hlt. discriminate.
      - unfold CONTENT_THRESHOLD, REASONING_THRESHOLD. cbn. lia. }
    specialize (IH b' Hb').
    destruct (loop rest b') as [[b'' ys'] [ex|]]; [|exact IH].
    destruct IH as (b0 & c0 & choice & others & Hin & IH).
    exists b0, c0, choice, others. split; [now right|exact IH].
  - destruct (choices c) as [|choice others] eqn:Ech.
    { unfold cumulative_chunk in E. rewrite Ech in E. discriminate. }
    destruct (buffers_with_new_text_spec b c choice others Ech) as [Hc Hr].
    exists b, c, choice, others.
    repeat split; try assumption; try apply Hb. now left.
Qed.

Lemma pieces_ending (cs : list Chunk) (e : StreamEnd) :
  (ending (pieces cs e) = Finished -> e = EndOfStream)
  /\ (forall ex, ending (pieces cs e) = ModelServiceErrorRaised ex ->
        e = StreamOpenAIError ex)
  /\ ((forall c choice others tc calls,
         In c cs -> choices c = choice :: others ->
         tool_calls (delta choice) = tc :: calls ->
         exists arguments, json_loads (fn_arguments tc) = Return arguments) ->
      ending (pieces cs e) = leave e).
Proof.
  induction cs as [|c rest (IH1 & IH2 & IH3)].
  - cbn. destruct e as [|x|x]; repeat split; try discriminate; auto.
    intros ex H. now inversion H.
  - cbn [delta_loop]. unfold delta_chunk.
    destruct (choices c) as [|[d] others] eqn:Ec.
    + cbn [ending]. repeat split; auto.
      intros H. apply IH3. intros c0 ch o tc calls Hin. apply H. now right.
    + cbn [delta].
      destruct (tool_calls d) as [|tc calls] eqn:Et.
      * cbn [ending]. repeat split; auto.
        intros H. apply IH3. intros c0 ch o tc calls Hin. apply H.
        now right.
      * unfold function_json.
        destruct (json_loads (fn_arguments tc)) as [arguments|ex] eqn:Ej;
          cbn [bind ending].
        -- repeat split; auto.
           intros H. apply IH3. intros c0 ch o tc0 calls0 Hin. apply H.
           now right.
        -- repeat split; try discriminate.
           intros H.
           destruct (H c {| delta := d |} others tc calls
                       (or_introl eq_refl) Ec Et) as [a Ha].
           congruence.
Qed.

(** X8. In snapshot mode the yielded messages are cumulative: each one
    carries the text and the reasoning of every message yielded before it,
    with more text appended. *)
Theorem X8_snapshots_are_cumulative (response : Response) :
  ForallOrdPairs
    (fun m m' => exists x r y,
         m_content m' = m_content m ++ x
         /\ m_reasoning_content m = Some r
         /\ m_reasoning_content m' = Some (r ++ y))
    (yielded (stream_response ASSISTANT json_loads json_dumps false
                              response)).
Proof. apply snapshots_grow. Qed.

(** X9. When the snapshot mode finishes, nothing of the stream is missing
    from its last message: the content is the concatenation of the contents
    that the piecewise mode yields for the same response, the reasoning the
    concatenation of the chunks' [reasoning] texts. It yields nothing only
    when both are empty. *)
Theorem X9_last_snapshot_is_complete (response : Response) :
  let snaps :=
    stream_response ASSISTANT json_loads json_dumps false response in
  let parts :=
    stream_response ASSISTANT json_loads json_dumps true response in
  ending snaps = Finished ->
  (yielded snaps = []
   /\ List.concat (map m_content (yielded parts)) = []
   /\ List.concat (map chunk_reasoning (chunks response)) = [])
  \/ exists earlier,
       yielded snaps
       = earlier ++
         [{| m_role := ASSISTANT;
             m_content := List.concat (map m_content (yielded parts));
             m_reasoning_content :=
               Some (List.concat (map chunk_reasoning (chunks response))) |}].
Proof.
  intros snaps parts Hend.
  destruct (last_snapshot _ _ _ Hend) as [(H1 & _ & _ & H2 & H3)|H];
    [left; auto|right; exact H].
Qed.

(** X10. Both modes end the same way on the same response. The generator
    finishes only if the stream was exhausted, raises [ModelServiceError]
    only for an [OpenAIError] of the stream, and, when the arguments of
    every tool call it meets decode, ends exactly as the stream does. *)
Theorem X10_both_modes_end_alike (response : Response) :
  let snaps :=
    stream_response ASSISTANT json_loads json_dumps false response in
  let parts :=
    stream_response ASSISTANT json_loads json_dumps true response in
  ending snaps = ending parts
  /\ (ending snaps = Finished -> stream_end response = EndOfStream)
  /\ (forall ex, ending snaps = ModelServiceErrorRaised ex ->
        stream_end response = StreamOpenAIError ex)
  /\ ((forall c choice others tc calls,
         In c (chunks response) -> choices c = choice :: others ->
         tool_calls (delta choice) = tc :: calls ->
         exists arguments, json_loads (fn_arguments tc) = Return arguments) ->
      ending snaps = leave (stream_end response)).
Proof.
  intros snaps parts. subst snaps parts. unfold stream_response.
  rewrite same_ending.
  destruct (pieces_ending (chunks response) (stream_end response))
    as (H1 & H2 & H3).
  repeat split; auto.
Qed.

(** X11. In snapshot mode, whatever the chunks are, neither buffer holds as
    many as fifty characters when the loop is left at the end of the stream.
    When the body raises at a chunk, which it does before it compares the
    buffers with the thresholds, each buffer holds fewer than fifty
    characters followed by the new text of that chunk. *)
Theorem X11_buffers_stay_below_threshold (cs : list Chunk) :
  match loop cs empty_buffers with
  | (b, _, None) =>
      (len (content_buffer b) < 50)%Z
      /\ (len (reasoning_content_buffer b) < 50)%Z
  | (b, _, Some ex) =>
      exists b0 c choice others,
        In c cs
        /\ choices c = choice :: others
        /\ growing b0 c = Raise ex
        /\ (len (content_buffer b0) < 50)%Z
        /\ (len (reasoning_content_buffer b0) < 50)%Z
        /\ content_buffer b
           = content_buffer b0 ++ attr_or_empty (content (delta choice))
        /\ reasoning_content_buffer b
           = reasoning_content_buffer b0
             ++ attr_or_empty (reasoning (delta choice))
  end.
Proof.
  apply (buffers_stay_short cs empty_buffers). cbn.
  unfold CONTENT_THRESHOLD, REASONING_THRESHOLD. lia.
Qed.

End ChatStream.

Import Scenarios.

Lemma X9_witness :
  let snaps :=
    stream_response Samples.role_assistant Json.loads sample_dumps false
                    sample_response in
  let parts :=
    stream_response Samples.role_assistant Json.loads sample_dumps true
                    sample_response in
  (yielded snaps = []
   /\ List.concat (map m_content (yielded parts)) = []
   /\ List.concat (map chunk_reasoning (chunks sample_response)) = [])
  \/ exists earlier,
       yielded snaps
       = earlier ++
         [{| m_role := Samples.role_assistant;
             m_content := List.concat (map m_content (yielded parts));
             m_reasoning_content :=
               Some (List.concat
                       (map chunk_reasoning (chunks sample_response))) |}].
Proof.
  apply (X9_last_snapshot_is_complete Samples.role_assistant Json.loads
           sample_dumps sample_response).
  reflexivity.
Defined.

End StreamProps.

(** * Properties of the research endpoints *)

Module ApiRunProps.
Import Api ApiRun PyStrFacts.

Lemma extraction_returns (json_loads : pystr -> PyResult PyValue)
    (tool_output : pystr) :
  exists l, extract_sources_from_tool_output json_loads tool_output
            = Return l.
Proof.
  unfold extract_sources_from_tool_output.
  destruct (negb (nonempty tool_output)); [eexists; reflexivity|].
  destruct (json_loads tool_output) as [v|e]; cbn [bind try_except].
  - destruct v; eexists; reflexivity.
  - destruct (is_JSONDecodeError (exn_class e)); eexists; reflexivity.
Qed.

Lemma name_in_In (n : pystr) (names : list pystr) :
  name_in n names = true <-> In n names.
Proof.
  unfold name_in. rewrite existsb_exists. split.
  - intros (x & Hx & E). apply eqb_eq in E. now subst.
  - intros H. exists n. split; [exact H|apply eqb_refl].
Qed.

Lemma opt_truthy_some (o : option pystr) :
  opt_truthy o = true <-> exists n, o = Some n /\ n <> [].
Proof.
  destruct o as [[|c s]|]; cbn; split; intros H; try discriminate H;
    try reflexivity.
  - destruct H as (n & H & Hn). inversion H; subst. contradiction.
  - eexists. split; [reflexivity|discriminate].
  - destruct H as (n & H & _). discriminate.
Qed.

(** ** The summary loop *)

(** A message that names a tool. *)
Local Notation "'names_tool'" :=
  (fun n m => msg_type m = TOOL_T /\ toolName m = Some n /\ n <> []).

(** A message that the loop takes as an answer. *)
Local Notation "'answers'" :=
  (fun m => is_agent_type (msg_type m) && negb (opt_truthy (toolName m))).

Lemma summarize_tools (ms : list Message) :
  forall fa tu,
    NoDup tu ->
    NoDup (snd (summarize ms fa tu))
    /\ forall n, In n (snd (summarize ms fa tu))
                 <-> In n tu \/ exists m, In m ms /\ names_tool n m.
Proof.
  induction ms as [|m ms IH]; intros fa tu Hnd.
  - cbn. split; [exact Hnd|]. intros n. split; [now left|].
    intros [H|(m & [] & _)]. exact H.
  - cbn [summarize].
    assert (Hskip : (forall n, ~ names_tool n m) ->
                    forall fa', NoDup (snd (summarize ms fa' tu))
                    /\ forall n, In n (snd (summarize ms fa' tu))
                       <-> In n tu \/ exists m0, In m0 (m :: ms)
                                                  /\ names_tool n m0).
    { intros Hno fa'. destruct (IH fa' tu Hnd) as [H1 H2].
      split; [exact H1|]. intros n. rewrite H2. split.
      - intros [H|(m0 & Hin & H)]; [now left|].
        right. exists m0. split; [now right|exact H].
      - intros [H|(m0 & [<-|Hin] & H)]; [now left| |].
        + exfalso. exact (Hno n H).
        + right. now exists m0. }
    destruct (is_agent_type (msg_type m) && negb (opt_truthy (toolName m)))
      eqn:Ea.
    + apply Hskip. intros n (Ht & _).
      apply andb_prop in Ea as [Ea _]. rewrite Ht in Ea. discriminate.
    + destruct (is_tool_type (msg_type m) && opt_truthy (toolName m))
        eqn:Et.
      * apply andb_prop in Et as [Et1 Et2].
        apply opt_truthy_some in Et2 as (n0 & Hn0 & Hne).
        assert (Htool : msg_type m = TOOL_T)
          by (destruct (msg_type m); try discriminate; reflexivity).
        rewrite Hn0.
        destruct (name_in n0 tu) eqn:Ein; cbn [negb].
        -- apply name_in_In in Ein. destruct (IH fa tu Hnd) as [H1 H2].
           split; [exact H1|]. intros n. rewrite H2. split.
           ++ intros [H|(m0 & Hin & H)]; [now left|].
              right. exists m0. split; [now right|exact H].
           ++ intros [H|(m0 & [<-|Hin] & H)]; [now left| |].
              ** destruct H as (_ & H & _). rewrite Hn0 in H.
                 inversion H; subst. now left.
              ** right. now exists m0.
        -- assert (Hnot : ~ In n0 tu).
           { intros H. apply name_in_In in H. congruence. }
           assert (Hnd' : NoDup (tu ++ [n0])).
           { apply NoDup_app; [exact Hnd|repeat constructor; intros []|].
             intros x Hx [<-|[]]. contradiction. }
           destruct (IH fa (tu ++ [n0]) Hnd') as [H1 H2].
           split; [exact H1|]. intros n. rewrite H2, in_app_iff. split.
           ++ intros [[H|[<-|[]]]|(m0 & Hin & H)].
              ** now left.
              ** right. exists m. split; [now left|]. auto.
              ** right. exists m0. split; [now right|exact H].
           ++ intros [H|(m0 & [<-|Hin] & H)].
              ** left. now left.
              ** destruct H as (_ & H & _). rewrite Hn0 in H.
                 inversion H; subst. left. right. now left.
              ** right. now exists m0.
      * apply Hskip. intros n (Ht & Hn & Hne).
        rewrite Ht, Hn in Et. cbn in Et. destruct n; [contradiction|].
        discriminate.
Qed.

(** The tools are listed in the order in which they first occur. *)
Lemma summarize_tools_prefix (ms : list Message) :
  forall fa tu, exists added, snd (summarize ms fa tu) = tu ++ added.
Proof.
  induction ms as [|m ms IH]; intros fa tu.
  - exists []. cbn. now rewrite app_nil_r.
  - cbn [summarize].
    destruct (is_agent_type (msg_type m) && _); [apply IH|].
    destruct (is_tool_type (msg_type m) && _); [|apply IH].
    destruct (toolName m) as [n|]; [|apply IH].
    destruct (negb (name_in _ _)); [|apply IH].
    destruct (IH fa (tu ++ [n])) as [added ->].
    exists (n :: added). now rewrite <- app_assoc.
Qed.

Lemma summarize_answer_none (ms : list Message) :
  forall fa tu,
    (forall m, In m ms -> answers m = false) ->
    fst (summarize ms fa tu) = fa.
Proof.
  induction ms as [|m ms IH]; intros fa tu Hno; [reflexivity|].
  cbn [summarize]. rewrite (Hno m (or_introl eq_refl)).
  assert (Hrest : forall m0, In m0 ms -> answers m0 = false)
    by (intros m0 H; apply Hno; now right).
  destruct (is_tool_type (msg_type m) && _); [|now apply IH].
  destruct (toolName m); [|now apply IH].
  destruct (negb (name_in _ _)); now apply IH.
Qed.

Lemma summarize_answer_last (before : list Message) :
  forall m after fa tu,
    answers m = true ->
    (forall m', In m' after -> answers m' = false) ->
    fst (summarize (before ++ m :: after) fa tu) = Some (content m).
Proof.
  induction before as [|m0 before IH]; intros m after fa tu Hm Hafter.
  - cbn [app summarize]. rewrite Hm. now apply summarize_answer_none.
  - cbn [app summarize].
    destruct (is_agent_type (msg_type m0) && _); [now apply IH|].
    destruct (is_tool_type (msg_type m0) && _); [|now apply IH].
    destruct (toolName m0); [|now apply IH].
    destruct (negb (name_in _ _)); now apply IH.
Qed.

Lemma summarize_answer_some (ms : list Message) :
  forall fa tu,
    fst (summarize ms fa tu) = fa
    \/ exists m, In m ms /\ answers m = true
                 /\ fst (summarize ms fa tu) = Some (content m).
Proof.
  induction ms as [|m ms IH]; intros fa tu; [now left|].
  cbn [summarize].
  assert (Hlift : forall fa' tu',
             fst (summarize ms fa' tu') = fa'
             \/ (exists m0, In m0 ms /\ answers m0 = true
                  /\ fst (summarize ms fa' tu') = Some (content m0)) ->
             fst (summarize ms fa' tu') = fa'
             \/ exists m0, In m0 (m :: ms) /\ answers m0 = true
                  /\ fst (summarize ms fa' tu') = Some (content m0)).
  { intros fa' tu' [H|(m0 & Hin & H)]; [now left|].
    right. exists m0. split; [now right|exact H]. }
  destruct (answers m) eqn:Ea.
  - right. destruct (IH (Some (content m)) tu) as [H|(m0 & Hin & H)].
    + exists m. split; [now left|]. split; [exact Ea|exact H].
    + exists m0. split; [now right|exact H].
  - destruct (is_tool_type (msg_type m) && _); [|apply Hlift, IH].
    destruct (toolName m); [|apply Hlift, IH].
    destruct (negb (name_in _ _)); apply Hlift, IH.
Qed.

Lemma summarize_answer_found (ms : list Message) :
  forall fa tu,
    (exists m, In m ms /\ answers m = true) ->
    fst (summarize ms fa tu) <> None.
Proof.
  induction ms as [|m ms IH]; intros fa tu (m0 & Hin & Hm0); [destruct Hin|].
  cbn [summarize]. destruct (answers m) eqn:Ea.
  - destruct (summarize_answer_some ms (Some (content m)) tu)
      as [->|(m1 & _ & _ & ->)]; discriminate.
  - assert (Hrest : exists m1, In m1 ms /\ answers m1 = true).
    { destruct Hin as [<-|Hin]; [congruence|now exists m0]. }
    destruct (is_tool_type (msg_type m) && _); [|now apply IH].
    destruct (toolName m); [|now apply IH].
    destruct (negb (name_in _ _)); now apply IH.
Qed.

Lemma Forall2_In_l {A B : Type} (R : A -> B -> Prop) (l : list A)
    (l' : list B) (x : A) :
  Forall2 R l l' -> In x l -> exists y, In y l' /\ R x y.
Proof.
  induction 1 as [|a b l l' Hab _ IH]; intros Hin; [destruct Hin|].
  destruct Hin as [<-|Hin].
  - exists b. split; [now left|exact Hab].
  - destruct (IH Hin) as (y & Hy & Hr). exists y. split; [now right|exact Hr].
Qed.

Lemma Forall2_In_r {A B : Type} (R : A -> B -> Prop) (l : list A)
    (l' : list B) (y : B) :
  Forall2 R l l' -> In y l' -> exists x, In x l /\ R x y.
Proof.
  induction 1 as [|a b l l' Hab _ IH]; intros Hin; [destruct Hin|].
  destruct Hin as [<-|Hin].
  - exists a. split; [now left|exact Hab].
  - destruct (IH Hin) as (x & Hx & Hr). exists x. split; [now right|exact Hr].
Qed.

Section Endpoints.

Variables SYSTEM USER ASSISTANT FUNCTION : pystr.
Variable uuid4 : nat -> pystr.
Variable research_agent_run : list QwenMessage -> AgentRun.
Variable json_loads : pystr -> PyResult PyValue.

Local Notation "'convert'" :=
  (convert_qwen_message_to_api SYSTEM USER ASSISTANT FUNCTION).
Local Notation "'kind'" := (type_of_role SYSTEM USER ASSISTANT FUNCTION).

(** ** One conversion *)

(** The text of a message's content, as the converter computes it. *)
Local Notation "'text_of'" :=
  (fun q => match q_content q with
            | CStr s => Return s
            | CList items => join_items items []
            end).

Lemma convert_eq (u : pystr) (q : QwenMessage) (sid : pystr) :
  convert u q sid
  = match text_of q with
    | Raise e => Raise e
    | Return text =>
        let named := PyStr.eqb (q_role q) FUNCTION && opt_truthy (q_name q) in
        Return {| id := u;
                  msg_type := kind (q_role q);
                  content := text;
                  agent := Some (py "qwen-agent");
                  toolName := if named then q_name q else None;
                  result := if named then Some text else None;
                  role := Some (q_role q);
                  tool_calls := None;
                  sources := None |}
    end.
Proof.
  unfold convert_qwen_message_to_api.
  destruct (q_content q) as [s|items]; [reflexivity|].
  now destruct (join_items items []).
Qed.

Lemma kind_tool (r : pystr) : kind r = TOOL_T <-> r = FUNCTION.
Proof.
  unfold type_of_role. destruct (PyStr.eqb r FUNCTION) eqn:E.
  - apply eqb_eq in E. tauto.
  - split; [|intros ->; rewrite eqb_refl in E; discriminate].
    destruct (PyStr.eqb r ASSISTANT), (PyStr.eqb r USER),
      (PyStr.eqb r SYSTEM); discriminate.
Qed.

(** What every converted message looks like. *)
Local Notation "'converted'" :=
  (fun q m =>
     msg_type m = kind (q_role q)
     /\ role m = Some (q_role q)
     /\ text_of q = Return (content m)
     /\ toolName m
        = (if PyStr.eqb (q_role q) FUNCTION && opt_truthy (q_name q)
           then q_name q else None)
     /\ sources m = None).

Lemma convert_return (u : pystr) (q : QwenMessage) (sid : pystr)
    (m : Message) :
  convert u q sid = Return m -> id m = u /\ converted q m.
Proof.
  rewrite convert_eq. destruct (text_of q) as [text|e] eqn:E;
    [|discriminate].
  intros H. inversion H; subst; clear H.
  cbn [id msg_type role content toolName sources]. repeat split; auto.
Qed.

Lemma convert_raise (u : pystr) (q : QwenMessage) (sid : pystr) (e : Exn) :
  convert u q sid = Raise e -> text_of q = Raise e.
Proof.
  rewrite convert_eq. destruct (text_of q) as [text|e']; [discriminate|].
  intros H. now inversion H.
Qed.

Lemma converted_answers (q : QwenMessage) (m : Message) :
  converted q m -> answers m = is_agent_type (msg_type m).
Proof.
  intros (Ht & _ & _ & Hn & _).
  destruct (PyStr.eqb (q_role q) FUNCTION) eqn:E.
  - apply eqb_eq in E. rewrite Ht, (proj2 (kind_tool _) E). reflexivity.
  - cbn in Hn. rewrite Hn. cbn. apply andb_true_r.
Qed.

(** ** The collecting loops *)

Section Loops.

Variable sid : pystr.

Lemma convert_batch_spec (batch : list QwenMessage) :
  forall k all,
    match convert_batch SYSTEM USER ASSISTANT FUNCTION uuid4 batch sid k all
    with
    | Return (k', all') =>
        k' = k + List.length batch
        /\ exists new,
             all' = all ++ new
             /\ Forall2 converted batch new
             /\ forall i m, nth_error new i = Some m -> id m = uuid4 (k + i)
    | Raise e => exists q, In q batch /\ text_of q = Raise e
    end.
Proof.
  induction batch as [|q batch IH]; intros k all.
  - cbn. split; [lia|]. exists []. rewrite app_nil_r.
    repeat split; auto. intros [|i] m; discriminate.
  - cbn [convert_batch].
    destruct (convert (uuid4 k) q sid) as [m|e] eqn:E; cbn [bind].
    + apply convert_return in E as [Hid Hm].
      specialize (IH (S k) (all ++ [m])).
      destruct (convert_batch _ _ _ _ _ batch sid (S k) (all ++ [m]))
        as [[k' all']|e].
      * destruct IH as (Hk & new & -> & Hall & Hids).
        split; [cbn; lia|]. exists (m :: new).
        rewrite <- app_assoc. repeat split; auto.
        intros [|i] m0 H; cbn in H.
        -- inversion H; subst. now rewrite Nat.add_0_r.
        -- rewrite (Hids i m0 H). f_equal. lia.
      * destruct IH as (q0 & Hin & H). exists q0. split; [now right|exact H].
    + exists q. split; [now left|]. exact (convert_raise _ _ _ _ E).
Qed.

Lemma collect_spec (bs : list (list QwenMessage)) (failure0 : option Exn) :
  forall k all,
    match collect SYSTEM USER ASSISTANT FUNCTION uuid4 bs failure0 sid k all
    with
    | Return all' =>
        failure0 = None
        /\ exists new,
             all' = all ++ new
             /\ Forall2 converted (List.concat bs) new
             /\ forall i m, nth_error new i = Some m -> id m = uuid4 (k + i)
    | Raise e =>
        (failure0 = Some e
         /\ forall q, In q (List.concat bs) ->
                      exists text, text_of q = Return text)
        \/ exists q, In q (List.concat bs) /\ text_of q = Raise e
    end.
Proof.
  induction bs as [|batch bs IH]; intros k all.
  - cbn. destruct failure0 as [e|].
    + left. split; [reflexivity|intros q []].
    + split; [reflexivity|]. exists []. rewrite app_nil_r.
      repeat split; auto. intros [|i] m; discriminate.
  - cbn [collect List.concat].
    pose proof (convert_batch_spec batch k all) as Hb.
    destruct (convert_batch _ _ _ _ _ batch sid k all) as [[k' all']|e];
      cbn [bind fst snd].
    + destruct Hb as (Hk & new & -> & Hall & Hids).
      specialize (IH k' (all ++ new)).
      destruct (collect _ _ _ _ _ bs failure0 sid k' (all ++ new))
        as [all''|e].
      * destruct IH as (Hf & new' & -> & Hall' & Hids').
        split; [exact Hf|]. exists (new ++ new').
        rewrite <- app_assoc. repeat split; auto.
        -- now apply Forall2_app.
        -- intros i m H.
           destruct (Nat.lt_ge_cases i (List.length new)) as [Hlt|Hge].
           ++ rewrite nth_error_app1 in H by exact Hlt. now apply Hids.
           ++ rewrite nth_error_app2 in H by exact Hge.
              rewrite (Hids' _ _ H). f_equal.
              pose proof (Forall2_length Hall). lia.
      * destruct IH as [(Hf & Hok)|(q & Hin & H)].
        -- left. split; [exact Hf|]. intros q Hq.
           apply in_app_or in Hq as [Hq|Hq]; [|now apply Hok].
           destruct (Forall2_In_l _ _ _ _ Hall Hq) as (m & _ & _ & _ & H & _).
           eexists. exact H.
        -- right. exists q. split; [apply in_or_app; now right|exact H].
    + destruct Hb as (q & Hin & H). right. exists q.
      split; [apply in_or_app; now left|exact H].
Qed.

(** ** The streaming loops *)

(** A streamed message carries sources exactly when it is the output of a
    search or a visit. *)
Local Notation "'tagged'" :=
  (fun m => if carries_sources m then sources m <> None
            else sources m = None).

Lemma stream_message_spec (q : QwenMessage) (k : nat)
    (sources0 : list Source) :
  match convert (uuid4 k) q sid with
  | Raise e =>
      stream_message SYSTEM USER ASSISTANT FUNCTION uuid4 json_loads
                     q sid k sources0 = Raise e
  | Return m =>
      exists m',
        stream_message SYSTEM USER ASSISTANT FUNCTION uuid4 json_loads
                       q sid k sources0
        = Return (m', sources0 ++ sources_of m')
        /\ same_but_sources m m' /\ tagged m'
  end.
Proof.
  unfold stream_message.
  destruct (convert (uuid4 k) q sid) as [m|e] eqn:E; [|reflexivity].
  cbn [bind]. apply convert_return in E as (_ & _ & _ & _ & _ & Hs).
  destruct (carries_sources m) eqn:Ec.
  - destruct (extraction_returns json_loads (result_or_empty m)) as [l ->].
    cbn [bind]. exists (set_sources m l). split; [reflexivity|].
    split; [right; now exists l|].
    unfold carries_sources in *. cbn [set_sources msg_type toolName sources].
    rewrite Ec. discriminate.
  - exists m. unfold sources_of. rewrite Hs, app_nil_r.
    split; [reflexivity|]. split; [now left|]. now rewrite Ec.
Qed.

Lemma stream_batch_spec (batch : list QwenMessage) :
  forall k sources0 all,
  exists msgs,
    fst (stream_batch SYSTEM USER ASSISTANT FUNCTION uuid4 json_loads
                      batch sid k sources0)
    = map MessageEvent msgs
    /\ Forall tagged msgs
    /\ match convert_batch SYSTEM USER ASSISTANT FUNCTION uuid4
                           batch sid k all with
       | Return (k', all') =>
           snd (stream_batch SYSTEM USER ASSISTANT FUNCTION uuid4 json_loads
                             batch sid k sources0)
           = Return (k', sources0 ++ flat_map sources_of msgs)
           /\ exists new, all' = all ++ new
                          /\ Forall2 same_but_sources new msgs
       | Raise e =>
           snd (stream_batch SYSTEM USER ASSISTANT FUNCTION uuid4 json_loads
                             batch sid k sources0)
           = Raise e
       end.
Proof.
  induction batch as [|q batch IH]; intros k sources0 all.
  - exists []. cbn. rewrite !app_nil_r. repeat split; auto.
    exists []. now rewrite app_nil_r.
  - cbn [stream_batch convert_batch].
    pose proof (stream_message_spec q k sources0) as Hm.
    destruct (convert (uuid4 k) q sid) as [m|e]; cbn [bind].
    + destruct Hm as (m' & -> & Hsame & Htag).
      destruct (IH (S k) (sources0 ++ sources_of m') (all ++ [m]))
        as (msgs & Hev & Htags & Hrest).
      destruct (stream_batch _ _ _ _ _ _ batch sid (S k) _) as [events r].
      cbn [fst snd] in *. exists (m' :: msgs).
      split; [cbn; now rewrite Hev|]. split; [now constructor|].
      destruct (convert_batch _ _ _ _ _ batch sid (S k) (all ++ [m]))
        as [[k' all']|e].
      * destruct Hrest as (-> & new & -> & Hall).
        split; [cbn; now rewrite <- app_assoc|].
        exists (m :: new). rewrite <- app_assoc. split; [reflexivity|].
        now constructor.
      * exact Hrest.
    + rewrite Hm. exists []. cbn. auto.
Qed.

Lemma stream_batches_spec (bs : list (list QwenMessage))
    (failure0 : option Exn) :
  forall k sources0 all,
  exists msgs,
    fst (stream_batches SYSTEM USER ASSISTANT FUNCTION uuid4 json_loads
                        bs failure0 sid k sources0)
    = map MessageEvent msgs
    /\ Forall tagged msgs
    /\ match collect SYSTEM USER ASSISTANT FUNCTION uuid4
                     bs failure0 sid k all with
       | Return all' =>
           snd (stream_batches SYSTEM USER ASSISTANT FUNCTION uuid4
                               json_loads bs failure0 sid k sources0)
           = Return (sources0 ++ flat_map sources_of msgs)
           /\ exists new, all' = all ++ new
                          /\ Forall2 same_but_sources new msgs
       | Raise e =>
           snd (stream_batches SYSTEM USER ASSISTANT FUNCTION uuid4
                               json_loads bs failure0 sid k sources0)
           = Raise e
       end.
Proof.
  induction bs as [|batch bs IH]; intros k sources0 all.
  - exists []. cbn. destruct failure0 as [e|]; cbn; rewrite ?app_nil_r;
      repeat split; auto.
    exists []. now rewrite app_nil_r.
  - cbn [stream_batches collect].
    destruct (stream_batch_spec batch k sources0 all)
      as (msgs & Hev & Htags & Hb).
    destruct (stream_batch _ _ _ _ _ _ batch sid k sources0) as [events r].
    cbn [fst snd] in *.
    destruct (convert_batch _ _ _ _ _ batch sid k all) as [[k' all']|e];
      cbn [bind fst snd].
    + destruct Hb as (-> & new & -> & Hall).
      destruct (IH k' (sources0 ++ flat_map sources_of msgs) (all ++ new))
        as (msgs' & Hev' & Htags' & Hrest).
      destruct (stream_batches _ _ _ _ _ _ bs failure0 sid k' _)
        as [events' r'].
      cbn [fst snd] in *. exists (msgs ++ msgs').
      split; [now rewrite map_app, Hev, Hev'|].
      split; [now apply Forall_app|].
      destruct (collect _ _ _ _ _ bs failure0 sid k' (all ++ new))
        as [all''|e].
      * destruct Hrest as (-> & new' & -> & Hall').
        split; [now rewrite flat_map_app, <- app_assoc|].
        exists (new ++ new'). rewrite <- app_assoc.
        split; [reflexivity|now apply Forall2_app].
      * exact Hrest.
    + rewrite Hb. exists msgs. cbn. auto.
Qed.

End Loops.

Local Notation "'perform'" :=
  (perform_research SYSTEM USER ASSISTANT FUNCTION uuid4 research_agent_run).
Local Notation "'stream'" :=
  (stream_research_results SYSTEM USER ASSISTANT FUNCTION uuid4
                           research_agent_run json_loads).
Local Notation "'run_of'" :=
  (fun request =>
     research_agent_run (request_messages SYSTEM USER request)).

(** X12. The tools that [perform_research] reports are listed once each,
    and they are exactly the non-empty names of the function-role messages
    that the agent yielded. The only error the endpoint raises has status
    500. *)
Theorem X12_tools_used_of_response (request : ResearchRequest)
    (sid : pystr) :
  match perform request sid with
  | Responded r =>
      NoDup (tools_used r)
      /\ forall n,
           In n (tools_used r)
           <-> n <> []
               /\ exists q, In q (List.concat (batches (run_of request)))
                            /\ q_role q = FUNCTION /\ q_name q = Some n
  | HTTPException status_code _ => status_code = 500%Z
  end.
Proof.
  unfold perform_research.
  pose proof (collect_spec sid (batches (run_of request))
                (failure (run_of request)) 0 []) as Hc.
  cbv beta in Hc.
  destruct (collect _ _ _ _ _ _ _ sid 0 []) as [all|e]; [|reflexivity].
  destruct Hc as (_ & new & -> & Hall & _). cbn [app tools_used].
  destruct (summarize_tools new None [] (NoDup_nil _)) as [Hnd Hin].
  split; [exact Hnd|]. intros n. rewrite Hin. split.
  - intros [[]|(m & Hm & Ht & Hn & Hne)]. split; [exact Hne|].
    destruct (Forall2_In_r _ _ _ _ Hall Hm) as (q & Hq & Hk & _ & _ & Hname & _).
    exists q. split; [exact Hq|].
    rewrite Hk in Ht. apply kind_tool in Ht.
    rewrite Ht, eqb_refl, Hn in Hname. cbn [andb] in Hname.
    destruct (opt_truthy (q_name q)); [|discriminate].
    split; [exact Ht|now symmetry].
  - intros (Hne & q & Hq & Hr & Hn). right.
    destruct (Forall2_In_l _ _ _ _ Hall Hq) as (m & Hm & Hk & _ & _ & Hname & _).
    exists m. split; [exact Hm|].
    rewrite Hr in Hk. rewrite (proj2 (kind_tool _) eq_refl) in Hk.
    rewrite Hr, eqb_refl, Hn in Hname. cbn [andb] in Hname.
    assert (Ht : opt_truthy (Some n) = true)
      by (apply opt_truthy_some; now exists n).
    rewrite Ht in Hname. auto.
Qed.

(** X13. The final answer that [perform_research] reports is the content of
    the last message of type agent in its response, and there is none
    exactly when the response holds no such message. *)
Theorem X13_final_answer_is_last_agent_message
    (request : ResearchRequest) (sid : pystr) :
  match perform request sid with
  | Responded r =>
      (final_answer r = None
       <-> forall m, In m (messages r) -> msg_type m <> AGENT_T)
      /\ forall before m after,
           messages r = before ++ m :: after ->
           msg_type m = AGENT_T ->
           (forall m', In m' after -> msg_type m' <> AGENT_T) ->
           final_answer r = Some (content m)
  | HTTPException _ _ => True
  end.
Proof.
  unfold perform_research.
  pose proof (collect_spec sid (batches (run_of request))
                (failure (run_of request)) 0 []) as Hc.
  cbv beta in Hc.
  destruct (collect _ _ _ _ _ _ _ sid 0 []) as [all|e]; [|exact I].
  destruct Hc as (_ & new & -> & Hall & _).
  cbn [app final_answer messages].
  assert (Hans : forall m, In m new ->
                   answers m = is_agent_type (msg_type m)).
  { intros m Hm. destruct (Forall2_In_r _ _ _ _ Hall Hm) as (q & _ & H).
    exact (converted_answers q m H). }
  assert (Hagent : forall t, is_agent_type t = true <-> t = AGENT_T)
    by (intros t; destruct t; cbn; split; congruence).
  split; [split|].
  - intros Hnone m Hm Ht.
    apply (summarize_answer_found new None []); [|exact Hnone].
    exists m. split; [exact Hm|]. rewrite (Hans m Hm). now apply Hagent.
  - intros Hno. apply summarize_answer_none. intros m Hm.
    rewrite (Hans m Hm). specialize (Hno m Hm).
    destruct (is_agent_type (msg_type m)) eqn:E; [|reflexivity].
    apply Hagent in E. contradiction.
  - intros before m after -> Ht Hafter.
    apply summarize_answer_last.
    + rewrite Hans by (apply in_or_app; right; now left). now apply Hagent.
    + intros m' Hm'.
      rewrite Hans by (apply in_or_app; right; now right).
      specialize (Hafter m' Hm').
      destruct (is_agent_type (msg_type m')) eqn:E; [|reflexivity].
      apply Hagent in E. contradiction.
Qed.

(** X14. [perform_research] answers exactly when the agent's run does not
    fail and the content of every yielded message can be turned into text.
    Its response then holds one message for each yielded message, in order,
    with the type that belongs to the role, that text as content and the
    identifiers drawn in order. Otherwise it raises status 500 with the text
    of the exception, that of a content that is no text taking precedence
    over that of the run. *)
Theorem X14_response_or_status_500 (request : ResearchRequest)
    (sid : pystr) :
  let yielded_messages := List.concat (batches (run_of request)) in
  match perform request sid with
  | Responded r =>
      failure (run_of request) = None
      /\ success r = true /\ is_complete r = true /\ session_id r = sid
      /\ Forall2 (fun q m =>
                    msg_type m = kind (q_role q)
                    /\ role m = Some (q_role q)
                    /\ text_of q = Return (content m))
                 yielded_messages (messages r)
      /\ forall i m, nth_error (messages r) i = Some m -> id m = uuid4 i
  | HTTPException status_code detail =>
      status_code = 500%Z
      /\ ((exists e, failure (run_of request) = Some e
                     /\ detail = exn_str e
                     /\ forall q, In q yielded_messages ->
                                  exists text, text_of q = Return text)
          \/ exists q e, In q yielded_messages
                         /\ text_of q = Raise e /\ detail = exn_str e)
  end.
Proof.
  intros yielded_messages. unfold perform_research.
  pose proof (collect_spec sid (batches (run_of request))
                (failure (run_of request)) 0 []) as Hc.
  cbv beta in Hc.
  destruct (collect _ _ _ _ _ _ _ sid 0 []) as [all|e].
  - destruct Hc as (Hf & new & -> & Hall & Hids).
    cbn [app success is_complete session_id messages].
    repeat split; auto.
    eapply Forall2_impl; [|exact Hall]. cbv beta. intros q m H. tauto.
  - split; [reflexivity|].
    destruct Hc as [(Hf & Hok)|(q & Hq & H)].
    + left. exists e. auto.
    + right. exists q, e. auto.
Qed.

(** X15. The stream of [stream_research_results] is a run of message events
    closed by exactly one last event, which is a completion or an error.
    A message carries sources exactly when it is the output of a search or
    a visit, and the completion event lists the sources of all messages, in
    order, with the fixed list of four tool names. *)
Theorem X15_stream_shape (request : ResearchRequest) (sid : pystr) :
  exists msgs,
    Forall (fun m => if carries_sources m then sources m <> None
                     else sources m = None) msgs
    /\ (stream request sid
        = map MessageEvent msgs
          ++ [CompleteEvent sid (flat_map sources_of msgs) REPORTED_TOOLS]
        \/ exists error,
             stream request sid
             = map MessageEvent msgs ++ [ErrorEvent error sid]).
Proof.
  unfold stream_research_results.
  destruct (stream_batches_spec sid (batches (run_of request))
              (failure (run_of request)) 0 [] [])
    as (msgs & Hev & Htags & Hrest).
  cbv beta in *.
  destruct (stream_batches _ _ _ _ _ _ _ _ sid 0 []) as [events r].
  cbn [fst snd] in *. subst events. exists msgs. split; [exact Htags|].
  destruct (collect _ _ _ _ _ _ _ sid 0 []) as [all|e].
  - destruct Hrest as (-> & _). left. reflexivity.
  - rewrite Hrest. right. now exists (exn_str e).
Qed.

(** X16. The two endpoints agree on every request: when [perform_research]
    answers, the stream ends with a completion and its messages are those
    of the response, with sources attached to some; when it raises, the
    stream ends with an error event that carries the same text. *)
Theorem X16_endpoints_agree (request : ResearchRequest) (sid : pystr) :
  match perform request sid with
  | Responded r =>
      exists msgs,
        Forall2 same_but_sources (messages r) msgs
        /\ stream request sid
           = map MessageEvent msgs
             ++ [CompleteEvent sid (flat_map sources_of msgs)
                               REPORTED_TOOLS]
  | HTTPException _ detail =>
      exists msgs,
        stream request sid = map MessageEvent msgs ++ [ErrorEvent detail sid]
  end.
Proof.
  unfold perform_research, stream_research_results.
  destruct (stream_batches_spec sid (batches (run_of request))
              (failure (run_of request)) 0 [] [])
    as (msgs & Hev & Htags & Hrest).
  cbv beta in *.
  destruct (stream_batches _ _ _ _ _ _ _ _ sid 0 []) as [events r].
  cbn [fst snd] in *. subst events.
  destruct (collect _ _ _ _ _ _ _ sid 0 []) as [all|e].
  - destruct Hrest as (-> & new & -> & Hall). exists msgs.
    cbn [messages app]. split; [exact Hall|reflexivity].
  - rewrite Hrest. now exists msgs.
Qed.

End Endpoints.

End ApiRunProps.

(** * Properties of the conversion of LangChain messages *)

Module ModelsProps.
Import Api Models PyStrFacts.

Lemma py_inj (a b : string) : py a = py b -> a = b.
Proof.
  unfold py. intros H.
  rewrite <- (string_of_list_ascii_of_string a),
          <- (string_of_list_ascii_of_string b).
  f_equal. revert H.
  generalize (list_ascii_of_string a) (list_ascii_of_string b).
  induction l as [|x l IH]; intros [|y l'] H; try discriminate;
    [reflexivity|].
  cbn in H. inversion H as [[Hx Hl]]. f_equal; [|now apply IH].
  rewrite <- (ascii_N_embedding x), <- (ascii_N_embedding y). now f_equal.
Qed.

Lemma decimal_inj (i j : nat) : decimal i = decimal j -> i = j.
Proof.
  unfold decimal. intros H. apply py_inj in H.
  apply Unsigned.to_uint_inj.
  assert (Hs : Some (Nat.to_uint i) = Some (Nat.to_uint j))
    by (rewrite <- !NilEmpty.usu; now f_equal).
  now inversion Hs.
Qed.

Lemma NoDup_map_injective {A B : Type} (f : A -> B) (l : list A) :
  (forall x y, f x = f y -> x = y) -> NoDup l -> NoDup (map f l).
Proof.
  intros Hf. induction 1 as [|x l Hx Hl IH]; cbn; constructor; [|exact IH].
  intros Hin. apply in_map_iff in Hin as (y & Hy & Hin).
  apply Hf in Hy. now subst.
Qed.

Lemma nth_error_combine_seq {A : Type} (l : list A) :
  forall k i x,
    nth_error l i = Some x ->
    nth_error (combine (seq k (List.length l)) l) i = Some (k + i, x).
Proof.
  induction l as [|a l IH]; intros k [|i] x Hi; try discriminate.
  - cbn in *. inversion Hi. now rewrite Nat.add_0_r.
  - cbn in *. rewrite (IH (S k) i x Hi). f_equal. f_equal. lia.
Qed.

Lemma type_of_class_cases (lower : pystr) :
  (type_of_class lower = SYSTEM_T <-> lower = py "systemmessage")
  /\ (type_of_class lower = USER_T <-> lower = py "humanmessage")
  /\ (type_of_class lower = AGENT_T
      <-> lower <> py "systemmessage" /\ lower <> py "humanmessage").
Proof.
  assert (Hdiff : py "systemmessage" <> py "humanmessage")
    by (intros H; apply py_inj in H; discriminate H).
  unfold type_of_class.
  destruct (PyStr.eqb lower (py "systemmessage")) eqn:Es.
  - apply eqb_eq in Es. subst lower.
    split; [tauto|]. split; split; try discriminate; try tauto.
  - assert (Hs : lower <> py "systemmessage")
      by (intros ->; rewrite eqb_refl in Es; discriminate).
    destruct (PyStr.eqb lower (py "humanmessage")) eqn:Eh.
    + apply eqb_eq in Eh. subst lower.
      split; [split; [discriminate|tauto]|].
      split; split; try discriminate; try tauto.
    + assert (Hh : lower <> py "humanmessage")
        by (intros ->; rewrite eqb_refl in Eh; discriminate).
      destruct (PyStr.eqb lower (py "aimessage"));
        (split; [split; [discriminate|tauto]|]);
        (split; [split; [discriminate|tauto]|]); tauto.
Qed.

Lemma convert_from_spec (session_id : pystr)
    (messages : list LangChainMessage) :
  forall i acc,
    convert_from session_id i messages acc
    = acc ++ map (fun p => convert_message session_id (fst p) (snd p))
                 (combine (seq i (List.length messages)) messages).
Proof.
  induction messages as [|msg rest IH]; intros i acc.
  - cbn. now rewrite app_nil_r.
  - cbn [convert_from List.length seq combine map fst snd].
    now rewrite IH, <- app_assoc.
Qed.

Lemma ids_from (session_id : pystr) (messages : list LangChainMessage) :
  forall i,
    map id (map (fun p => convert_message session_id (fst p) (snd p))
                (combine (seq i (List.length messages)) messages))
    = map (fun k => session_id ++ py "_msg_" ++ decimal k)
          (seq i (List.length messages)).
Proof.
  induction messages as [|msg rest IH]; intros i; [reflexivity|].
  cbn [List.length seq combine map fst snd convert_message id].
  now rewrite IH.
Qed.

(** X17. [convert_langchain_messages_to_messages] returns one message for
    each message given, in order: the one at index [i] has the identifier
    [<session_id>_msg_<i>], the content and the lower-cased class name of
    its source as content and role, type system or user exactly for the
    class names [systemmessage] and [humanmessage] and type agent for every
    other, and the tool calls of its source when that list is not empty.
    The identifiers are pairwise distinct. *)
Theorem X17_api_messages_of_langchain_messages
    (messages : list LangChainMessage) (session_id : pystr) :
  let out := convert_langchain_messages_to_messages messages session_id in
  List.length out = List.length messages
  /\ NoDup (map id out)
  /\ forall i msg,
       nth_error messages i = Some msg ->
       exists m,
         nth_error out i = Some m
         /\ id m = session_id ++ py "_msg_" ++ decimal i
         /\ content m = lc_content msg
         /\ role m = Some (class_name_lower msg)
         /\ (msg_type m = SYSTEM_T
             <-> class_name_lower msg = py "systemmessage")
         /\ (msg_type m = USER_T
             <-> class_name_lower msg = py "humanmessage")
         /\ (msg_type m = AGENT_T
             <-> class_name_lower msg <> py "systemmessage"
                 /\ class_name_lower msg <> py "humanmessage")
         /\ (tool_calls m = None
             <-> lc_tool_calls msg = None \/ lc_tool_calls msg = Some [])
         /\ (tool_calls m <> None -> tool_calls m = lc_tool_calls msg).
Proof.
  intros out. subst out. unfold convert_langchain_messages_to_messages.
  rewrite convert_from_spec. cbn [app].
  split; [|split].
  - rewrite length_map, length_combine, length_seq. lia.
  - rewrite ids_from. apply NoDup_map_injective; [|apply seq_NoDup].
    intros i j H. apply app_inv_head in H. apply app_inv_head in H.
    now apply decimal_inj.
  - intros i msg Hi.
    assert (Hlt : i < List.length messages)
      by (apply nth_error_Some; congruence).
    exists (convert_message session_id i msg). split.
    + rewrite nth_error_map.
      pose proof (nth_error_combine_seq messages 0 i msg Hi) as Hc.
      cbn [Nat.add] in Hc.
      now rewrite Hc.
    + cbn [convert_message id content role msg_type tool_calls].
      destruct (type_of_class_cases (class_name_lower msg)) as (H1 & H2 & H3).
      split; [reflexivity|]. split; [reflexivity|]. split; [reflexivity|].
      split; [exact H1|]. split; [exact H2|]. split; [exact H3|].
      destruct (lc_tool_calls msg) as [[|c cs]|]; split;
        try (split; [auto; discriminate|intros [H|H]; try reflexivity;
                                         discriminate H]);
        try (intros H; try reflexivity; now contradiction H).
Qed.

End ModelsProps.

(** * Properties of the message dicts of the OpenAI client *)

Module OpenAIClientProps.
Import Agent OpenAIClient PyStrFacts.

Section DeepResearchLLM.

Variable client_prompt : pystr.
Variable current_date : nat -> pystr.

Local Notation "'dicts'" := (_create_message_dicts client_prompt current_date).
Local Notation "'dict_at'" := (message_dict client_prompt current_date).
Local Notation "'prefix'" := (enhanced_prompt client_prompt).

Lemma message_dicts_from_spec (messages : list BaseMessage) :
  forall i acc,
    message_dicts_from client_prompt current_date i messages acc
    = acc ++ map (fun p => dict_at (fst p) (snd p))
                 (combine (seq i (List.length messages)) messages).
Proof.
  induction messages as [|m rest IH]; intros i acc.
  - cbn. now rewrite app_nil_r.
  - cbn [message_dicts_from List.length seq combine map fst snd].
    now rewrite IH, <- app_assoc.
Qed.

Lemma dict_is_system (i : nat) (m : BaseMessage) :
  is_system_dict (dict_at i m) = is_system m.
Proof. unfold message_dict, is_system. now destruct (msg_class m). Qed.

(** The dicts of the loop, seen from index [i] on. *)
Local Notation "'body_from'" :=
  (fun i messages =>
     map (fun p => dict_at (fst p) (snd p))
         (combine (seq i (List.length messages)) messages)).

Lemma body_has_system (messages : list BaseMessage) :
  forall i, existsb is_system_dict (body_from i messages)
            = existsb is_system messages.
Proof.
  induction messages as [|m rest IH]; intros i; [reflexivity|].
  cbn [List.length seq combine map existsb fst snd].
  now rewrite dict_is_system, IH.
Qed.

Lemma body_systems (messages : list BaseMessage) :
  forall i, List.length (filter is_system_dict (body_from i messages))
            = List.length (filter is_system messages).
Proof.
  induction messages as [|m rest IH]; intros i; [reflexivity|].
  cbn [List.length seq combine map filter fst snd].
  rewrite dict_is_system. destruct (is_system m); cbn [List.length];
    now rewrite IH.
Qed.

Lemma body_conversation (messages : list BaseMessage) :
  forall i,
    map d_content
        (filter (fun d => negb (is_system_dict d)) (body_from i messages))
    = map content (filter (fun m => negb (is_system m)) messages).
Proof.
  induction messages as [|m rest IH]; intros i; [reflexivity|].
  cbn [List.length seq combine map filter fst snd].
  rewrite dict_is_system. destruct (is_system m) eqn:E; cbn [negb map].
  - apply IH.
  - rewrite IH. f_equal. unfold message_dict, is_system in *.
    now destruct (msg_class m).
Qed.

Lemma body_prefixed (messages : list BaseMessage) :
  forall i,
    Forall (fun d => is_system_dict d = true ->
                     exists date rest,
                       d_content d = prefix date ++ rest)
           (body_from i messages).
Proof.
  induction messages as [|m rest IH]; intros i; [constructor|].
  cbn [List.length seq combine map fst snd]. constructor; [|apply IH].
  unfold message_dict. destruct (msg_class m); cbn; try discriminate.
  intros _. eexists. eexists. reflexivity.
Qed.

(** X18. The dicts that [_create_message_dicts] builds always hold a system
    dict: as many as the messages given hold system messages, and one, put
    in front, when they hold none. The content of every system dict starts
    with the client's prompt and the date. The other dicts carry the
    contents of the other messages, unchanged and in order, and no dict has
    a role besides system, user and assistant. *)
Theorem X18_message_dicts_have_a_system_prompt
    (messages : list BaseMessage) :
  let out := dicts messages in
  List.length (filter is_system_dict out)
  = Nat.max 1 (List.length (filter is_system messages))
  /\ List.length out
     = (if existsb is_system messages then 0 else 1) + List.length messages
  /\ (existsb is_system messages = false ->
      exists body, out = {| d_role := py "system";
                            d_content :=
                              prefix (current_date (List.length messages)) |}
                         :: body)
  /\ Forall (fun d => is_system_dict d = true ->
                      exists date rest, d_content d = prefix date ++ rest)
            out
  /\ map d_content (filter (fun d => negb (is_system_dict d)) out)
     = map content (filter (fun m => negb (is_system m)) messages)
  /\ Forall (fun d => d_role d = py "system" \/ d_role d = py "user"
                      \/ d_role d = py "assistant") out.
Proof.
  intros out. subst out. unfold _create_message_dicts.
  rewrite message_dicts_from_spec. cbn [app].
  rewrite body_has_system.
  assert (Hroles : forall i,
            Forall (fun d => d_role d = py "system" \/ d_role d = py "user"
                             \/ d_role d = py "assistant")
                   (body_from i messages)).
  { induction messages as [|m rest IH]; intros i; [constructor|].
    cbn [List.length seq combine map fst snd]. constructor; [|apply IH].
    unfold message_dict. destruct (msg_class m); cbn; auto. }
  destruct (existsb is_system messages) eqn:E; cbn [negb].
  - assert (Hpos : 1 <= List.length (filter is_system messages)).
    { apply existsb_exists in E as (m & Hin & Hm).
      assert (Hf : In m (filter is_system messages))
        by (apply filter_In; auto).
      destruct (filter is_system messages); [destruct Hf|cbn; lia]. }
    rewrite body_systems, body_conversation.
    rewrite length_map, length_combine, length_seq.
    repeat split; try lia; try discriminate.
    + apply body_prefixed.
    + apply Hroles.
  - assert (Hnone : filter is_system messages = []).
    { destruct (filter is_system messages) as [|m l] eqn:F; [reflexivity|].
      assert (Hin : In m (filter is_system messages))
        by (rewrite F; now left).
      apply filter_In in Hin as [Hin Hm].
      assert (existsb is_system messages = true)
        by (apply existsb_exists; eauto).
      congruence. }
    set (front := {| d_role := py "system"; d_content := _ |}).
    assert (Hfront : is_system_dict front = true) by reflexivity.
    cbn [filter]. rewrite Hfront. cbn [negb List.length].
    rewrite body_systems, body_conversation, Hnone.
    rewrite length_map, length_combine, length_seq.
    repeat split; try (cbn; lia).
    + intros _. eexists. reflexivity.
    + constructor; [|apply body_prefixed].
      intros _. exists (current_date (List.length messages)), [].
      cbn. now rewrite app_nil_r.
    + constructor; [now left|apply Hroles].
Qed.

(** ** The dicts built for the model calls of a session *)

Variable max_llm_calls : Z.
Variable reasoning : bool.
Variable call_date : Z -> pystr.
Variable llm : list BaseMessage -> PyResult BaseMessage.
Variable agent_prompt : pystr.
Variable tools : list BaseTool.

(** X19. Whenever a session calls the model after its first step, the dicts
    built for the log that [researcher_reason] hands over hold no inserted
    system dict: there is one dict for each message handed over, and the
    first is a system dict whose content is the client's prompt, the date
    and then the agent's own system prompt. *)
Theorem X19_session_calls_send_both_prompts
    (query ci : pystr) (sid : option pystr) (k : nat)
    (node : Node) (s : ResearchState) :
  steps max_llm_calls reasoning OpenAI call_date llm agent_prompt tools (S k)
        (NodeInitialize, initial_state max_llm_calls query ci sid)
  = Some (node, s) ->
  let sent := current_messages reasoning (messages s) in
  List.length (dicts sent) = List.length sent
  /\ exists others,
       dicts sent
       = {| d_role := py "system";
            d_content :=
              prefix (current_date 0) ++ nl ++ nl ++ agent_prompt |}
         :: others.
Proof.
  intros Hk sent.
  destruct (AgentExtra.session_log_prefix max_llm_calls reasoning OpenAI
              call_date llm agent_prompt tools query ci sid k node s Hk)
    as (sys & suffix & Hs & _ & _ & Hsys).
  rewrite (Hsys eq_refl) in Hs.
  assert (Hsent : exists rest,
             sent = mk_message SystemMessage agent_prompt :: rest).
  { unfold sent, current_messages. rewrite Hs.
    destruct reasoning; eexists; cbn [app]; reflexivity. }
  destruct Hsent as [rest ->].
  unfold _create_message_dicts. rewrite message_dicts_from_spec.
  cbn [app List.length seq combine map fst snd existsb].
  rewrite dict_is_system. cbn [mk_message is_system msg_class orb negb].
  split.
  - cbn [List.length]. now rewrite length_map, length_combine, length_seq,
      Nat.min_id.
  - eexists. reflexivity.
Qed.

End DeepResearchLLM.

Import Samples Scenarios.

Lemma X19_witness :
  exists node s,
    steps 3 true OpenAI date llm_searches_once prompt tools 4
          (NodeInitialize, initial_state 3 question [] None)
    = Some (node, s)
    /\ List.length (_create_message_dicts client_prompt today
                      (current_messages true (messages s)))
       = List.length (current_messages true (messages s)).
Proof.
  eexists. eexists. split; [reflexivity|].
  refine (proj1 (X19_session_calls_send_both_prompts client_prompt today
                   3 true date llm_searches_once prompt tools question []
                   None 3 _ _ _)).
  reflexivity.
Defined.

End OpenAIClientProps.

(** * Properties of the sandbox tool *)

Module PythonToolProps.
Import PythonTool Spec PyStrFacts.

(** ** Splitting *)

Lemma split_go_skip (sep passed rest cur : pystr) :
  split_go sep (passed ++ rest) (List.length passed) cur
  = split_go sep rest 0 cur.
Proof.
  induction passed as [|c passed IH]; [reflexivity|].
  cbn [app List.length split_go]. exact IH.
Qed.

Lemma split_go_first (sep : pystr) (pre : pystr) :
  forall rest cur,
    sep <> [] ->
    first_at sep (pre ++ sep ++ rest) (List.length pre) = true ->
    split_go sep (pre ++ sep ++ rest) 0 cur
    = (cur ++ pre) :: split_go sep rest 0 [].
Proof.
  induction pre as [|c pre IH]; intros rest cur Hsep H.
  - destruct sep as [|x sep']; [contradiction|].
    cbn [app List.length first_at] in *.
    cbn [split_go]. rewrite H.
    rewrite app_nil_r. f_equal.
    replace (List.length (x :: sep') - 1) with (List.length sep')
      by (cbn [List.length]; lia).
    apply split_go_skip.
  - cbn [app List.length first_at] in H.
    apply andb_prop in H as [Hno H].
    cbn [app split_go].
    destruct (startswith (c :: pre ++ sep ++ rest) sep); [discriminate|].
    rewrite (IH rest (cur ++ [c]) Hsep H). now rewrite <- app_assoc.
Qed.

Lemma split_go_absent (sep : pystr) (s : pystr) :
  forall cur,
    contains sep s = false -> split_go sep s 0 cur = [cur ++ s].
Proof.
  induction s as [|c s IH]; intros cur H.
  - cbn. now rewrite app_nil_r.
  - cbn [contains] in H. apply orb_false_iff in H as [Hs Hc].
    cbn [split_go]. rewrite Hs. rewrite (IH _ Hc).
    now rewrite <- app_assoc.
Qed.

Lemma split_head (sep s : pystr) : exists first rest, split sep s = first :: rest.
Proof.
  unfold split. generalize (@nil N) as cur. generalize 0 as skip.
  induction s as [|c s IH]; intros skip cur.
  - eexists. eexists. reflexivity.
  - cbn [split_go]. destruct skip as [|skip]; [|apply IH].
    destruct (startswith (c :: s) sep); [|apply IH].
    eexists. eexists. reflexivity.
Qed.

Section Call.

Variable timeout : Q.
Variable random_choice : nat -> pystr.
Variable run_code : nat -> pystr -> pystr -> AttemptOutcome.

Local Notation "'loop'" := (attempt_loop timeout random_choice run_code).
Local Notation "'outcome'" :=
  (fun code i => run_code i code (random_choice i)).

(** The loop from the iteration [attempt] on, when it is entered with
    [attempt] of the five attempts made. *)
Lemma attempt_loop_spec (code : pystr) (remaining : nat) :
  forall attempt last_error,
    attempt <= 4 -> 4 - attempt < remaining ->
    let t := loop remaining attempt last_error code in
    attempt < attempts t <= 5
    /\ (forall i, attempt <= i < attempts t - 1 ->
          forall out err time, outcome code i <> Completed out err time)
    /\ match outcome code (attempts t - 1) with
       | Completed out err time =>
           returned t = format_result timeout out err time
       | RaisedTimeout =>
           attempts t = 5
           /\ returned t = timeout_error (random_choice 4)
       | RaisedException str_e =>
           attempts t = 5
           /\ returned t = exception_error str_e (random_choice 4)
       end.
Proof.
  induction remaining as [|remaining IH]; intros attempt last_error Ha Hr;
    [lia|].
  cbn [attempt_loop].
  destruct (run_code attempt code (random_choice attempt))
    as [out err time| |str_e] eqn:E.
  - cbn [attempts returned].
    replace (S attempt - 1) with attempt by lia. rewrite E.
    repeat split; try lia; intros i Hi; lia.
  - destruct (Nat.eqb attempt 4) eqn:E4.
    + apply Nat.eqb_eq in E4. subst attempt. cbn [attempts returned].
      cbn [Nat.sub]. rewrite E. repeat split; try lia; intros i Hi; lia.
    + apply Nat.eqb_neq in E4.
      specialize (IH (S attempt) (Some (timeout_error (random_choice attempt)))
                     ltac:(lia) ltac:(lia)).
      cbv zeta in IH. destruct IH as (Hc & Hf & Hl).
      repeat split; try lia; [|exact Hl].
      intros i Hi out err time.
      destruct (Nat.eq_dec i attempt) as [->|Hne]; [now rewrite E|].
      apply Hf. lia.
  - destruct (Nat.eqb attempt 4) eqn:E4.
    + apply Nat.eqb_eq in E4. subst attempt. cbn [attempts returned].
      cbn [Nat.sub]. rewrite E. repeat split; try lia; intros i Hi; lia.
    + apply Nat.eqb_neq in E4.
      specialize (IH (S attempt)
                     (Some (exception_error str_e (random_choice attempt)))
                     ltac:(lia) ltac:(lia)).
      cbv zeta in IH. destruct IH as (Hc & Hf & Hl).
      repeat split; try lia; [|exact Hl].
      intros i Hi out err time.
      destruct (Nat.eq_dec i attempt) as [->|Hne]; [now rewrite E|].
      apply Hf. lia.
Qed.

(** X20. Once [call] has a code that is not blank, it runs it at least once
    and at most five times, although its loop ranges over eight attempts.
    Every attempt but the last one made has failed. A last attempt that
    completes gives its formatted output; one that fails is the fifth, and
    [call] returns the error text of that attempt with its endpoint. *)
Theorem X20_at_most_five_attempts (params : PyValue) (code : pystr) :
  extract_code params = Return code ->
  nonempty (strip code) = true ->
  let t := call timeout random_choice run_code params in
  1 <= attempts t <= 5
  /\ (forall i, i < attempts t - 1 ->
        forall out err time, outcome code i <> Completed out err time)
  /\ match outcome code (attempts t - 1) with
     | Completed out err time =>
         returned t = format_result timeout out err time
     | RaisedTimeout =>
         attempts t = 5 /\ returned t = timeout_error (random_choice 4)
     | RaisedException str_e =>
         attempts t = 5
         /\ returned t = exception_error str_e (random_choice 4)
     end.
Proof.
  intros Hcode Hblank t. subst t. unfold call. rewrite Hcode, Hblank.
  cbn [negb].
  destruct (attempt_loop_spec code 8 0 None ltac:(lia) ltac:(lia))
    as (Hc & Hf & Hl).
  repeat split; try lia; [|exact Hl].
  intros i Hi. apply Hf. lia.
Qed.

(** The first piece of a split. *)
Lemma split_up_to (sep s piece : pystr) :
  sep <> [] -> up_to sep s piece ->
  exists others, split sep s = piece :: others.
Proof.
  intros Hsep [(more & -> & H)|(H & ->)]; unfold split.
  - rewrite (split_go_first _ _ _ [] Hsep H). eexists. reflexivity.
  - rewrite (split_go_absent _ _ [] H). eexists. reflexivity.
Qed.

Lemma contains_first_at (sub s : pystr) :
  contains sub s = true ->
  exists pre rest,
    s = pre ++ sub ++ rest /\ first_at sub s (List.length pre) = true.
Proof.
  induction s as [|c s IH]; cbn [contains]; intros H.
  - rewrite orb_false_r in H. destruct (startswith_inv _ _ H) as [rest Hr].
    exists [], rest. split; [exact Hr|exact H].
  - destruct (startswith (c :: s) sub) eqn:E.
    + destruct (startswith_inv _ _ E) as [rest Hr].
      exists [], rest. split; [exact Hr|exact E].
    + cbn [orb] in H. destruct (IH H) as (pre & rest & -> & Hf).
      exists (c :: pre), rest. split; [reflexivity|].
      cbn [List.length first_at app]. cbn [app] in E. rewrite E. exact Hf.
Qed.

(** X21. The code that [call] runs is the text after the first [<code>] of
    the parameters, cut at the next [<code>] if there is one, and then cut
    at the first [</code] if there is one. *)
Theorem X21_code_between_the_tags (pre after part code : pystr) :
  first_at (py "<code>") (pre ++ py "<code>" ++ after) (List.length pre)
  = true ->
  up_to (py "<code>") after part ->
  up_to (py "</code") part code ->
  extract_code (VStr (pre ++ py "<code>" ++ after)) = Return code.
Proof.
  intros Hfirst Hpart Hcode.
  assert (Hopen : py "<code>" <> []) by discriminate.
  assert (Hclose : py "</code" <> []) by discriminate.
  unfold extract_code, split.
  rewrite (split_go_first _ _ _ [] Hopen Hfirst). cbn [app].
  destruct (split_up_to _ _ _ Hopen Hpart) as [others Hs].
  unfold split in Hs. rewrite Hs.
  destruct (split_up_to _ _ _ Hclose Hcode) as [others' Hs'].
  unfold split in Hs'. now rewrite Hs'.
Qed.

(** X22. [call] reports a format error, and runs nothing, exactly for
    parameters that are no string or hold no [<code>]; for a string that
    holds the tag it always finds a code, and a blank code is reported as
    empty without being run. *)
Theorem X22_format_and_empty_errors (params : PyValue) :
  let t := call timeout random_choice run_code params in
  let format_error :=
    {| returned := py "[Python Interpreter Error]: format error.";
       attempts := 0 |} in
  let empty_code :=
    {| returned := py "[Python Interpreter Error]: Empty code.";
       attempts := 0 |} in
  match params with
  | VStr s =>
      if contains (py "<code>") s
      then exists code,
             extract_code params = Return code
             /\ (nonempty (strip code) = false -> t = empty_code)
             /\ (nonempty (strip code) = true -> 1 <= attempts t)
      else t = format_error
  | _ => t = format_error
  end.
Proof.
  intros t format_error empty_code. subst t.
  assert (Hopen : py "<code>" <> []) by discriminate.
  destruct params; try reflexivity.
  destruct (contains (py "<code>") s) eqn:E.
  - destruct (contains_first_at _ _ E) as (pre & after & -> & Hf).
    assert (Hx : exists code,
               extract_code (VStr (pre ++ py "<code>" ++ after))
               = Return code).
    { unfold extract_code, split.
      rewrite (split_go_first _ _ _ [] Hopen Hf). cbn [app].
      destruct (split_head (py "<code>") after) as (part & parts & Hp).
      unfold split in Hp. rewrite Hp.
      destruct (split_head (py "</code") part) as (code & rest & Hc).
      unfold split in Hc. rewrite Hc. now exists code. }
    destruct Hx as [code Hx]. exists code. split; [exact Hx|].
    unfold call. rewrite Hx. split; intros Hb; rewrite Hb; cbn [negb].
    + reflexivity.
    + destruct (attempt_loop_spec code 8 0 None ltac:(lia) ltac:(lia))
        as (Hc & _). lia.
  - unfold call, extract_code, split.
    now rewrite (split_go_absent _ _ [] E).
Qed.

End Call.

Import Scenarios.

Lemma X20_witness :
  let t := call 50%Q one_endpoint flaky_sandbox sandbox_params in
  1 <= attempts t <= 5.
Proof.
  refine (proj1 (X20_at_most_five_attempts 50%Q one_endpoint flaky_sandbox
                   sandbox_params (py "print(1)") _ _)); reflexivity.
Defined.

(** A second open tag cuts the code short. *)
Lemma X21_witness :
  extract_code (VStr ([] ++ py "<code>" ++ py "a<code>b</code>"))
  = Return (py "a").
Proof.
  apply (X21_code_between_the_tags [] (py "a<code>b</code>") (py "a")
           (py "a")).
  - reflexivity.
  - left. exists (py "b</code>"). split; reflexivity.
  - right. split; reflexivity.
Defined.

End PythonToolProps.

(** * Properties of the dicts sent by the Qwen client *)

Module QwenDictsProps.
Import Api QwenDicts Spec PyStrFacts.

(** ** Replacement *)

Lemma replace_go_skip (old new passed rest : pystr) :
  replace_go old new (passed ++ rest) (List.length passed)
  = replace_go old new rest 0.
Proof.
  induction passed as [|c passed IH]; [reflexivity|].
  cbn [app List.length replace_go]. exact IH.
Qed.

Lemma replace_match (old new rest : pystr) :
  old <> [] ->
  replace (old ++ rest) old new = new ++ replace rest old new.
Proof.
  intros Hold. destruct old as [|x old']; [contradiction|].
  unfold replace. cbn [app replace_go].
  change (x :: old' ++ rest) with ((x :: old') ++ rest).
  rewrite startswith_app. f_equal.
  replace (List.length (x :: old') - 1) with (List.length old')
    by (cbn [List.length]; lia).
  apply replace_go_skip.
Qed.

Lemma replace_step (old new : pystr) (c : N) (s : pystr) :
  startswith (c :: s) old = false ->
  replace (c :: s) old new = c :: replace s old new.
Proof. intros H. unfold replace. cbn [replace_go]. now rewrite H. Qed.

Lemma replace_absent (old new s : pystr) :
  contains old s = false -> replace s old new = s.
Proof.
  induction s as [|c s IH]; intros H; [reflexivity|].
  cbn [contains] in H. apply orb_false_iff in H as [Hs Hc].
  rewrite (replace_step _ _ _ _ Hs). now rewrite IH.
Qed.

(** A replaced string is the string itself, or starts with the text before
    the first occurrence followed by the replacement. *)
Lemma replace_shape (old new : pystr) (s : pystr) :
  old <> [] ->
  replace s old new = s
  \/ exists pre rest,
       s = pre ++ old ++ rest
       /\ replace s old new = pre ++ new ++ replace rest old new.
Proof.
  intros Hold. induction s as [|c s IH]; [now left|].
  destruct (startswith (c :: s) old) eqn:E.
  - right. destruct (startswith_inv _ _ E) as [rest Hr].
    exists [], rest. split; [exact Hr|]. rewrite Hr.
    now apply replace_match.
  - rewrite (replace_step _ _ _ _ E).
    destruct IH as [->|(pre & rest & -> & ->)]; [now left|].
    right. exists (c :: pre), rest. split; reflexivity.
Qed.

(** How a prefix test splits over an append. *)
Lemma startswith_split (a b sub : pystr) :
  startswith (a ++ b) sub = true ->
  startswith a sub = true
  \/ (List.length a < List.length sub
      /\ a = firstn (List.length a) sub
      /\ startswith b (skipn (List.length a) sub) = true).
Proof.
  revert sub. induction a as [|x a IH]; intros sub H.
  - destruct sub as [|y sub]; [now left|].
    right. cbn. split; [lia|]. split; [reflexivity|exact H].
  - destruct sub as [|y sub]; [now left|].
    cbn [app startswith] in H. apply andb_prop in H as [Hx H].
    apply N.eqb_eq in Hx. subst y.
    destruct (IH sub H) as [Ha|(Hl & Hf & Hb)].
    + left. cbn. now rewrite N.eqb_refl.
    + right. cbn [List.length firstn skipn]. split; [lia|].
      split; [now rewrite <- Hf|exact Hb].
Qed.

Lemma startswith_weaken (a b sub : pystr) :
  startswith a sub = true -> startswith (a ++ b) sub = true.
Proof.
  intros H. destruct (startswith_inv _ _ H) as [rest ->].
  rewrite <- app_assoc. apply startswith_app.
Qed.

(** The doubled tag cannot begin inside the replacement text. *)
Lemma no_tag_in_replacement (y : pystr) :
  contains THINK_TWICE (THINK_ONCE ++ y) = contains THINK_TWICE y.
Proof. reflexivity. Qed.

(** If the replaced text starts with the doubled tag right after some
    characters, so does the original. *)
Lemma tag_before_replacement (a rest y : pystr) :
  startswith (a ++ THINK_ONCE ++ y) THINK_TWICE = true ->
  startswith (a ++ THINK_TWICE ++ rest) THINK_TWICE = true.
Proof.
  intros H. destruct (startswith_split _ _ _ H) as [Ha|(Hl & Hf & Hb)].
  - now apply startswith_weaken.
  - remember (List.length a) as k eqn:Hk.
    change (List.length THINK_TWICE) with 16 in Hl.
    do 16 (destruct k as [|k];
           [try discriminate Hb; rewrite Hf; reflexivity|]).
    lia.
Qed.

Lemma replace_removes_tags (n : nat) :
  forall s,
    List.length s <= n ->
    contains THINK_TWICE (replace s THINK_TWICE THINK_ONCE) = false.
Proof.
  assert (Hold : THINK_TWICE <> []) by discriminate.
  induction n as [|n IH]; intros s Hn.
  - destruct s; [reflexivity|cbn in Hn; lia].
  - destruct s as [|c s]; [reflexivity|].
    destruct (startswith (c :: s) THINK_TWICE) eqn:E.
    + destruct (startswith_inv _ _ E) as [rest Hr]. rewrite Hr.
      rewrite (replace_match _ THINK_ONCE rest Hold), no_tag_in_replacement.
      apply IH.
      assert (Hl : List.length (c :: s) = 16 + List.length rest)
        by (rewrite Hr, length_app; reflexivity).
      cbn [List.length] in Hn, Hl. lia.
    + rewrite (replace_step _ _ _ _ E). cbn [contains].
      rewrite (IH s) by (cbn [List.length] in Hn; lia).
      rewrite orb_false_r.
      destruct (replace_shape THINK_TWICE THINK_ONCE s Hold)
        as [->|(pre & rest & Hs & ->)]; [exact E|].
      destruct (startswith (c :: pre ++ THINK_ONCE ++ _) THINK_TWICE) eqn:F;
        [|reflexivity].
      pose proof (tag_before_replacement (c :: pre) rest _ F) as G.
      cbn [app] in G. rewrite Hs in E. congruence.
Qed.

Section Convert.

Variable SYSTEM_PROMPT : pystr.
Variable today_date : pystr.

Local Notation "'convert'" :=
  (convert_messages_to_dicts SYSTEM_PROMPT today_date).
Local Notation "'tidy'" := (fun s => replace s THINK_TWICE THINK_ONCE).

Lemma clean_all_spec (messages : list QwenMessage) :
  forall acc,
    match clean_all messages acc with
    | Return out =>
        exists new,
          out = acc ++ new
          /\ Forall2 (fun m d =>
                        q_role d = q_role m /\ q_name d = q_name m
                        /\ exists s, q_content m = CStr s
                                     /\ q_content d = CStr (tidy s))
                     messages new
    | Raise _ => exists m items, In m messages /\ q_content m = CList items
    end.
Proof.
  induction messages as [|m rest IH]; intros acc.
  - cbn. exists []. now rewrite app_nil_r.
  - cbn [clean_all]. unfold clean at 1.
    destruct (q_content m) as [s|items] eqn:E; cbn [bind].
    + specialize (IH (acc ++ [{| q_role := q_role m;
                                 q_content := CStr (tidy s);
                                 q_name := q_name m |}])).
      destruct (clean_all rest _) as [out|e].
      * destruct IH as (new & -> & Hall).
        eexists. rewrite <- app_assoc. split; [reflexivity|].
        constructor; [|exact Hall]. cbn. repeat split. now exists s.
      * destruct IH as (m0 & items & Hin & H).
        exists m0, items. split; [now right|exact H].
    + exists m, items. split; [now left|exact E].
Qed.

(** What the conversion returns and when it raises. *)
Lemma convert_messages_to_dicts_spec (messages : list QwenMessage) :
  match convert messages with
  | Return out =>
      exists first rest first' rest',
        messages = first :: rest /\ out = first' :: rest'
        /\ q_role first' = q_role first /\ q_name first' = q_name first
        /\ q_content first'
           = CStr (tidy (SYSTEM_PROMPT ++ py "Current date: " ++ today_date))
        /\ Forall2 (fun m d =>
                      q_role d = q_role m /\ q_name d = q_name m
                      /\ exists s, q_content m = CStr s
                                   /\ q_content d = CStr (tidy s))
                   rest rest'
  | Raise _ =>
      messages = []
      \/ exists m items, In m (tl messages) /\ q_content m = CList items
  end.
Proof.
  unfold convert_messages_to_dicts.
  destruct messages as [|first rest]; [now left|].
  cbn [clean_all]. unfold clean at 1. cbn [q_content q_role q_name bind].
  pose proof (clean_all_spec rest
                [{| q_role := q_role first;
                    q_content :=
                      CStr (tidy (SYSTEM_PROMPT ++ py "Current date: "
                                  ++ today_date));
                    q_name := q_name first |}]) as H.
  cbn [app] in *.
  destruct (clean_all rest _) as [out|e].
  - destruct H as (new & -> & Hall).
    exists first, rest. eexists. exists new. cbn. repeat split. exact Hall.
  - right. exact H.
Qed.

(** X23. For a list that is not empty, [convert_messages_to_dicts] returns
    one dict for each message, with the same role and name. Whatever the
    first message says, the content of the first dict is the system prompt
    followed by the date, tidied; every other content is the message's own
    content, tidied. It raises exactly when the list is empty or a message
    after the first has a content that is no string. *)
Theorem X23_first_content_is_replaced (messages : list QwenMessage) :
  match convert messages with
  | Return out =>
      exists first rest first' rest',
        messages = first :: rest /\ out = first' :: rest'
        /\ q_role first' = q_role first /\ q_name first' = q_name first
        /\ q_content first'
           = CStr (tidy (SYSTEM_PROMPT ++ py "Current date: " ++ today_date))
        /\ Forall2 (fun m d =>
                      q_role d = q_role m /\ q_name d = q_name m
                      /\ exists s, q_content m = CStr s
                                   /\ q_content d = CStr (tidy s))
                   rest rest'
  | Raise _ =>
      messages = []
      \/ exists m items, In m (tl messages) /\ q_content m = CList items
  end.
Proof. exact (convert_messages_to_dicts_spec messages). Qed.

(** X24. No content that [convert_messages_to_dicts] returns holds the
    doubled tag [<think>\n<think>\n], however often the tag was repeated
    in the message; a content without the doubled tag is returned as it
    is. *)
Theorem X24_no_doubled_think_tag (messages : list QwenMessage) :
  match convert messages with
  | Return out =>
      Forall (fun d => exists s, q_content d = CStr s
                                 /\ contains THINK_TWICE s = false) out
  | Raise _ => True
  end
  /\ forall s, contains THINK_TWICE s = false -> tidy s = s.
Proof.
  split; [|intros s; apply replace_absent].
  pose proof (convert_messages_to_dicts_spec messages) as H.
  destruct (convert messages) as [out|e]; [|exact I].
  destruct H as (first & rest & first' & rest' & _ & -> & _ & _ & Hc & Hall).
  constructor.
  - eexists. split; [exact Hc|]. now apply (replace_removes_tags _ _ (le_n _)).
  - clear Hc. induction Hall as [|m d ms ds (_ & _ & s & _ & Hd) _ IH];
      constructor; [|exact IH].
    eexists. split; [exact Hd|].
    now apply (replace_removes_tags _ _ (le_n _)).
Qed.

End Convert.

End QwenDictsProps.

(** * Properties of [_chat_stream] as a whole *)

Module TextChatAtOAIProps.
Import Api Retry Stream TextChatAtOAI.

Section ChatStream.

Variable SYSTEM_PROMPT : pystr.
Variable today_date : pystr.
Variable ASSISTANT : pystr.
Variable json_loads : pystr -> PyResult PyValue.
Variable json_dumps : PyValue -> pystr.
Variable create : list QwenMessage -> nat -> CreateOutcome Response.
Variable jitter : nat -> Q.

Local Notation "'generator'" :=
  (_chat_stream SYSTEM_PROMPT today_date ASSISTANT json_loads json_dumps
                create jitter).

(** X25. Whenever [_chat_stream] yields a message or finishes, the messages
    were turned into dicts, one of the at most five provider calls returned
    a response after nothing but rate-limit errors, and what the generator
    yields is what the chunks of that response give. When the fifth call is
    rate-limited as well, or a call fails with another provider error, the
    generator raises [ModelServiceError] and yields nothing. *)
Theorem X25_stream_needs_a_response
    (messages : list QwenMessage) (delta_stream : bool) :
  let t := generator messages delta_stream in
  (yielded t <> [] \/ ending t = Finished ->
   exists dicts i response,
     QwenDicts.convert_messages_to_dicts SYSTEM_PROMPT today_date messages
     = Return dicts
     /\ i < 5
     /\ create dicts i = Created response
     /\ (forall j, j < i -> exists ex, create dicts j = RaisedRateLimitError ex)
     /\ t = stream_response ASSISTANT json_loads json_dumps delta_stream
                            response)
  /\ (forall dicts ex i,
        QwenDicts.convert_messages_to_dicts SYSTEM_PROMPT today_date messages
        = Return dicts ->
        i < 5 ->
        (forall j, j < i -> exists ex', create dicts j = RaisedRateLimitError ex') ->
        (create dicts i = RaisedOpenAIError ex
         \/ (i = 4 /\ create dicts i = RaisedRateLimitError ex)) ->
        t = {| yielded := []; ending := ModelServiceErrorRaised ex |}).
Proof.
  intros t. subst t. unfold _chat_stream.
  destruct (QwenDicts.convert_messages_to_dicts _ _ messages) as [dicts|e].
  - pose proof (RetryProps.retry_loop_spec _ (create dicts) jitter
                  MAX_RETRIES 0 [] eq_refl
                  ltac:(unfold MAX_RETRIES; lia)) as Hspec.
    cbv zeta in Hspec. fold (Retry._chat_stream (create dicts) jitter) in Hspec.
    destruct Hspec as (Hc & _ & Hr & Hl). unfold MAX_RETRIES in Hc.
    set (tr := Retry._chat_stream (create dicts) jitter) in *.
    split.
    + intros Hy.
      destruct (create dicts (calls tr - 1)) as [response|ex|ex|ex] eqn:E.
      * rewrite Hl in *. exists dicts, (calls tr - 1), response.
        repeat split; auto; try lia.
        intros j Hj. apply Hr. lia.
      * destruct Hl as [_ Hl]. rewrite Hl in Hy. cbn in Hy.
        destruct Hy as [Hy|Hy]; [now contradiction Hy|discriminate].
      * rewrite Hl in Hy. cbn in Hy.
        destruct Hy as [Hy|Hy]; [now contradiction Hy|discriminate].
      * rewrite Hl in Hy. cbn in Hy.
        destruct Hy as [Hy|Hy]; [now contradiction Hy|discriminate].
    + intros dicts' ex i Hd Hi Hbefore Hlast.
      inversion Hd; subst dicts'; clear Hd.
      assert (Hsame : calls tr - 1 = i).
      { destruct (Nat.lt_trichotomy (calls tr - 1) i) as [Hlt|[Heq|Hgt]];
          [|exact Heq|].
        - destruct (Hbefore _ Hlt) as [ex' Hx]. rewrite Hx in Hl.
          destruct Hl as [Hfive _]. unfold MAX_RETRIES in Hfive. lia.
        - destruct (Hr i ltac:(lia)) as [ex' Hx].
          destruct Hlast as [Hlast|[-> Hlast]]; [congruence|lia]. }
      rewrite Hsame in Hl.
      destruct Hlast as [Hlast|[_ Hlast]]; rewrite Hlast in Hl.
      * now rewrite Hl.
      * destruct Hl as [_ Hl]. now rewrite Hl.
  - split.
    + cbn. intros [Hy|Hy]; [now contradiction Hy|discriminate].
    + intros dicts ex i Hd. discriminate.
Qed.

End ChatStream.

End TextChatAtOAIProps.

(** * Properties of the Ollama client *)

Module OllamaClientProps.
Import OllamaClient PyStrFacts.

(** X26. [bind_tools] of the Ollama client binds nothing: for every list of
    tools it returns the client itself. When some tool has a name and a
    description it calls itself once, on the definitions it has built, and
    since these are dicts it builds no definition from them. *)
Theorem X26_bind_tools_returns_self (tools : list ToolLike) (depth : nat) :
  bind_tools (S (S depth)) 0 tools
  = ReturnsSelf (if existsb (fun tool => match tool with
                                         | Described _ _ _ => true
                                         | _ => false
                                         end) tools
                 then 2 else 1).
Proof.
  assert (Hdefs : forall l, tool_definitions (tool_definitions l) = []).
  { induction l as [|t l IH]; [reflexivity|].
    destruct t; cbn in *; exact IH. }
  cbn [bind_tools].
  destruct (tool_definitions tools) as [|d ds] eqn:E.
  - assert (Hnone : existsb (fun tool => match tool with
                                         | Described _ _ _ => true
                                         | _ => false
                                         end) tools = false).
    { induction tools as [|t l IH]; [reflexivity|].
      destruct t; cbn in *; try discriminate; now apply IH. }
    now rewrite Hnone.
  - assert (Hsome : existsb (fun tool => match tool with
                                         | Described _ _ _ => true
                                         | _ => false
                                         end) tools = true).
    { clear Hdefs. revert d ds E.
      induction tools as [|t l IH]; intros d ds E; [discriminate|].
      destruct t; cbn in *; try reflexivity; now apply (IH d ds). }
    rewrite Hsome, <- E, Hdefs. reflexivity.
Qed.

Section Invoke.

Variable system_prompt : pystr.
Variable current_date : nat -> pystr.

Local Notation "'after'" := (preprocess_times system_prompt current_date).

Lemma preprocess_head (date : pystr) (input : list InputMessage) :
  input <> [] ->
  exists first rest,
    preprocess system_prompt date input = first :: rest
    /\ contains (py "SystemMessage") (class_str first) = true.
Proof.
  destruct input as [|m rest]; [contradiction|]. intros _.
  cbn [preprocess].
  destruct (contains (py "SystemMessage") (class_str m)) eqn:E;
    eexists; eexists; split; try reflexivity; exact E.
Qed.

(** X27. Calling [invoke] again and again with the same list puts at most
    one message in front of it, in the first call, but prefixes the content
    of the first message with the system prompt and the date in every later
    call: after [n + 1] calls the list is one message longer than at first
    at most, and its first content after the next call is the prompt and
    that call's date followed by the content it had. *)
Theorem X27_invoke_prefixes_every_time
    (input : list InputMessage) (n : nat) :
  input <> [] ->
  List.length (after (S n) input) <= S (List.length input)
  /\ List.length (after (S (S n)) input) = List.length (after (S n) input)
  /\ exists first rest,
       after (S n) input = first :: rest
       /\ contains (py "SystemMessage") (class_str first) = true
       /\ after (S (S n)) input
          = {| class_str := class_str first;
               im_content :=
                 system_content system_prompt (current_date (S n))
                 ++ nl ++ nl ++ im_content first |} :: rest.
Proof.
  intros Hne.
  assert (Hstep : forall k,
             exists first rest,
               after (S k) input = first :: rest
               /\ contains (py "SystemMessage") (class_str first) = true
               /\ List.length (after (S k) input) <= S (List.length input)).
  { induction k as [|k (first & rest & Hk & Hc & Hl)].
    - cbn [preprocess_times].
      assert (Hlen : List.length (preprocess system_prompt (current_date 0)
                                             input)
                     <= S (List.length input)).
      { destruct input as [|m l]; [contradiction|]. cbn [preprocess].
        destruct (contains (py "SystemMessage") (class_str m));
          cbn [List.length]; lia. }
      destruct (preprocess_head (current_date 0) input Hne)
        as (first & rest & Hp & Hc).
      exists first, rest. repeat split; auto.
    - cbn [preprocess_times] in *. rewrite Hk in *. cbn [preprocess].
      rewrite Hc. eexists. eexists. repeat split; auto. }
  destruct (Hstep n) as (first & rest & Hk & Hc & Hl).
  split; [exact Hl|].
  assert (Hnext : after (S (S n)) input
                  = {| class_str := class_str first;
                       im_content :=
                         system_content system_prompt (current_date (S n))
                         ++ nl ++ nl ++ im_content first |} :: rest).
  { change (after (S (S n)) input)
      with (preprocess system_prompt (current_date (S n))
                       (after (S n) input)).
    rewrite Hk. cbn [preprocess]. now rewrite Hc. }
  split; [now rewrite Hnext, Hk|].
  exists first, rest. auto.
Qed.

End Invoke.

Import Scenarios.

Lemma X27_witness :
  List.length (preprocess_times client_prompt today 2 ollama_input)
  <= S (List.length ollama_input).
Proof.
  refine (proj1 (X27_invoke_prefixes_every_time client_prompt today
                   ollama_input 1 _)).
  discriminate.
Defined.

End OllamaClientProps.

(** * Further properties of source extraction *)

Module ApiExtra.
Import Api PyStrFacts.

Lemma sources_of_item_spec (item : PyValue) :
  List.length (sources_of_item item) <= 1
  /\ Forall (fun src => type src = py "search_result"
                        /\ truthy (url src) = true
                        /\ truthy (title src) = true)
            (sources_of_item item).
Proof.
  unfold sources_of_item. destruct item; cbn; try (split; [lia|constructor]).
  destruct (truthy (py_or _ _) && truthy (py_or _ _)) eqn:E; cbn;
    (split; [lia|]); constructor; [|constructor].
  apply andb_prop in E as [Hu Ht]. cbn. auto.
Qed.

(** X28. When [json.loads] reads the tool output, the address patterns are
    never tried: the sources come from the items of a parsed list alone, one
    at most for each item that is a dict with an address ([url] or [link])
    and a title ([title] or [name]), each tagged [search_result]; a parsed
    value that is no list gives no source at all, whatever addresses the
    text holds. *)
Theorem X28_parsed_output_skips_the_patterns
    (json_loads : pystr -> PyResult PyValue) (tool_output : pystr)
    (parsed : PyValue) :
  tool_output <> [] ->
  json_loads tool_output = Return parsed ->
  exists sources,
    extract_sources_from_tool_output json_loads tool_output = Return sources
    /\ sources = match parsed with
                 | VList items => flat_map sources_of_item items
                 | _ => []
                 end
    /\ List.length sources <= match parsed with
                              | VList items => List.length items
                              | _ => 0
                              end
    /\ Forall (fun src => type src = py "search_result"
                          /\ truthy (url src) = true
                          /\ truthy (title src) = true)
              sources.
Proof.
  intros Hne Hl. unfold extract_sources_from_tool_output.
  destruct tool_output as [|c s]; [contradiction|].
  cbn [nonempty negb]. rewrite Hl. cbn [bind try_except].
  destruct parsed; cbn [try_except app];
    try (eexists; repeat split; try reflexivity; try constructor; fail).
  exists (flat_map sources_of_item items). clear Hl. repeat split.
  - induction items as [|item items IH]; [cbn; lia|].
    cbn [flat_map List.length]. rewrite length_app.
    destruct (sources_of_item_spec item) as [H1 _]. lia.
  - induction items as [|item items IH]; [constructor|].
    cbn [flat_map]. apply Forall_app. split; [|exact IH].
    apply sources_of_item_spec.
Qed.

Import Scenarios.

Lemma X28_witness :
  exists sources,
    extract_sources_from_tool_output Json.loads json_object_with_address
    = Return sources
    /\ sources = [].
Proof.
  destruct (X28_parsed_output_skips_the_patterns Json.loads
              json_object_with_address
              (VDict [(py "see", VStr (py "http://a.com"))]))
    as (sources & H1 & H2 & _).
  - discriminate.
  - reflexivity.
  - exists sources. split; [exact H1|exact H2].
Defined.

End ApiExtra.

(** * Properties of document generation *)

Module QwenDocumentsProps.
Import Api ApiRun QwenDocuments PyStrFacts.

Lemma first_long_answer_none (ms : list Message) :
  first_long_answer ms = None
  <-> forall m, In m ms -> is_long_answer m = false.
Proof.
  induction ms as [|m ms IH]; cbn [first_long_answer].
  - split; [intros _ m []|reflexivity].
  - destruct (is_long_answer m) eqn:E.
    + split; [discriminate|]. intros H.
      specialize (H m (or_introl eq_refl)). congruence.
    + rewrite IH. split.
      * intros H m0 [<-|Hin]; auto.
      * intros H m0 Hin. apply H. now right.
Qed.

Lemma first_long_answer_first (before : list Message) :
  forall m after,
    is_long_answer m = true ->
    (forall m', In m' before -> is_long_answer m' = false) ->
    first_long_answer (before ++ m :: after) = Some (content m).
Proof.
  induction before as [|m0 before IH]; intros m after Hm Hb.
  - cbn. now rewrite Hm.
  - cbn [app first_long_answer]. rewrite (Hb m0 (or_introl eq_refl)).
    apply IH; [exact Hm|]. intros m' H. apply Hb. now right.
Qed.

Section Endpoint.

Variables SYSTEM USER : pystr.
Variable hash_str : pystr -> pystr.
Variable research_agent_run : list QwenMessage -> AgentRun.

Local Notation "'convert'" :=
  (convert_qwen_message_to_api SYSTEM USER hash_str).

(** What every message of this converter looks like. *)
Local Notation "'plain'" :=
  (fun sid m =>
     id m = py "msg_" ++ sid ++ py "_" ++ hash_str (content m)
     /\ toolName m = None /\ result m = None /\ sources m = None).

Lemma convert_plain (q : QwenMessage) (sid : pystr) (m : Message) :
  convert q sid = Return m -> plain sid m.
Proof.
  unfold convert_qwen_message_to_api.
  destruct (match q_content q with
            | CStr s => Return s
            | CList items => join_text items []
            end) as [text|e]; cbn [bind]; [|discriminate].
  intros H. inversion H; subst; clear H. cbn. auto.
Qed.

Lemma convert_batch_plain (sid : pystr) (batch : list QwenMessage) :
  forall all out,
    Forall (plain sid) all ->
    convert_batch SYSTEM USER hash_str batch sid all = Return out ->
    Forall (plain sid) out.
Proof.
  induction batch as [|q batch IH]; intros all out Hall H.
  - cbn in H. inversion H; subst. exact Hall.
  - cbn [convert_batch] in H.
    destruct (convert q sid) as [m|e] eqn:E; cbn [bind] in H; [|discriminate].
    apply (IH _ _ (proj2 (Forall_app _ _ _)
                     (conj Hall (Forall_cons _ (convert_plain _ _ _ E)
                                             (Forall_nil _)))) H).
Qed.

Lemma collect_plain (sid : pystr) (bs : list (list QwenMessage))
    (failure0 : option Exn) :
  forall all out,
    Forall (plain sid) all ->
    collect SYSTEM USER hash_str bs failure0 sid all = Return out ->
    Forall (plain sid) out.
Proof.
  induction bs as [|batch bs IH]; intros all out Hall H.
  - cbn in H. destruct failure0; [discriminate|]. inversion H; subst.
    exact Hall.
  - cbn [collect] in H.
    destruct (convert_batch SYSTEM USER hash_str batch sid all)
      as [all'|e] eqn:E; cbn [bind] in H; [|discriminate].
    exact (IH _ _ (convert_batch_plain _ _ _ _ Hall E) H).
Qed.

(** X29. In the response of [generate_document] no message names a tool or
    carries a result, and [tools_used] is the fixed list of four names
    whatever ran. Two messages with the same content have the same
    identifier. The final answer is the content of the first message of
    type agent that is longer than 100 characters, and there is none
    exactly when no message of type agent is that long. The only error
    raised has status 500. *)
Theorem X29_document_response
    (request : DocumentGenerationRequest) (sid : pystr) :
  match generate_document SYSTEM USER hash_str research_agent_run
                          request sid with
  | Responded r =>
      tools_used r = REPORTED_TOOLS
      /\ Forall (fun m => toolName m = None /\ result m = None) (messages r)
      /\ (forall m m', In m (messages r) -> In m' (messages r) ->
                       content m = content m' -> id m = id m')
      /\ (final_answer r = None
          <-> forall m, In m (messages r) ->
                        msg_type m = AGENT_T -> (len (content m) <= 100)%Z)
      /\ forall before m after,
           messages r = before ++ m :: after ->
           msg_type m = AGENT_T ->
           (100 < len (content m))%Z ->
           (forall m', In m' before ->
                       msg_type m' = AGENT_T -> (len (content m') <= 100)%Z) ->
           final_answer r = Some (content m)
  | HTTPException status_code _ => status_code = 500%Z
  end.
Proof.
  unfold generate_document.
  set (run := research_agent_run _).
  destruct (collect SYSTEM USER hash_str (batches run) (failure run) sid [])
    as [all|e] eqn:E; [|reflexivity].
  pose proof (collect_plain sid _ _ [] all (Forall_nil _) E) as Hall.
  rewrite Forall_forall in Hall.
  cbn [tools_used messages final_answer].
  assert (Hlong : forall m, In m all ->
             is_long_answer m = true
             <-> msg_type m = AGENT_T /\ (100 < len (content m))%Z).
  { intros m Hm. destruct (Hall m Hm) as (_ & Ht & _).
    unfold is_long_answer. rewrite Ht. cbn [opt_truthy negb].
    rewrite andb_true_r, andb_true_iff, Z.gtb_lt.
    destruct (msg_type m); cbn; split; intros [H1 H2];
      try discriminate; auto. }
  assert (Hshort : forall m, In m all ->
             is_long_answer m = false
             <-> (msg_type m = AGENT_T -> (len (content m) <= 100)%Z)).
  { intros m Hm. pose proof (Hlong m Hm) as H.
    destruct (is_long_answer m).
    - split; [discriminate|]. intros Hs.
      destruct (proj1 H eq_refl) as [Ht Hl]. specialize (Hs Ht). lia.
    - split; [|reflexivity]. intros _ Ht.
      destruct (Z.le_gt_cases (len (content m)) 100) as [Hle|Hgt];
        [exact Hle|].
      assert (false = true) by (apply H; split; [exact Ht|lia]).
      discriminate. }
  split; [reflexivity|]. split; [|split; [|split]].
  - apply Forall_forall. intros m Hm.
    destruct (Hall m Hm) as (_ & Ht & Hr & _). auto.
  - intros m m' Hm Hm' Hc.
    destruct (Hall m Hm) as (-> & _). destruct (Hall m' Hm') as (-> & _).
    now rewrite Hc.
  - rewrite first_long_answer_none. split.
    + intros H m Hm. apply Hshort; auto.
    + intros H m Hm. apply Hshort; auto.
  - intros before m after Hsplit Ht Hl Hb.
    rewrite Hsplit in *. apply first_long_answer_first.
    + apply Hlong; [apply in_or_app; right; now left|auto].
    + intros m' Hm'. apply Hshort; [apply in_or_app; now left|auto].
Qed.

End Endpoint.

End QwenDocumentsProps.
